(** * Workout tracker: the store behind [src/app/index.tsx]

    The component [WorkoutApp] keeps two nested key-value structures in
    React state, the [Program] (weekday -> exercises) and the [History]
    (week -> weekday -> exercise id -> performances), and writes both to
    AsyncStorage.  This development embeds the handlers of that component
    and states the behaviour of the store as theorems.

    Conventions of the embedding.
    - A JavaScript string is a [string]; every character stands for one
      code unit, so the default order of [Array.prototype.sort] is
      [String.leb].
    - A JavaScript object used as a dictionary is an association list in
      own-property order.  The keys the component uses (["weekN"], weekday
      names, millisecond timestamps) are neither array indices nor names
      inherited from [Object.prototype], so own-property order is insertion
      order and a missing key reads as [undefined].
    - Objects and arrays that the handlers mutate live in a [heap] of
      cells addressed by location; a shallow copy [{...o}] allocates a new
      cell that shares every child with [o].
    - The results of [parseInt], [parseFloat] and [toISOString] are taken
      from the JavaScript runtime, an interface of the development. *)

From Stdlib Require Import ZArith QArith Qround String Ascii List Lia.
From stdpp Require Import base option list sets strings sorting pretty.

Open Scope string_scope.
Open Scope list_scope.

(** ** The JavaScript runtime the component relies on *)

Class Builtins := {
  number : Type;                      (* JavaScript numbers *)
  parseInt : string -> number;
  parseFloat : string -> number;
  zero : number;                      (* the literal 0 *)
  toISOString : Z -> string;          (* new Date(ms).toISOString() *)
}.

(** Outcome of running a piece of the component: it returns, it throws the
    [TypeError] of reading a property of [undefined], or the heap does not
    have the shape the TypeScript interfaces promise. *)
Inductive res (A : Type) : Type :=
| Ret (a : A)
| TypeError
| Stuck.
Arguments Ret {A} a.
Arguments TypeError {A}.
Arguments Stuck {A}.

#[global] Instance res_ret : MRet res := fun A a => Ret a.
#[global] Instance res_bind : MBind res := fun A B f m =>
  match m with
  | Ret a => f a
  | TypeError => TypeError
  | Stuck => Stuck
  end.

(** [o.k] where [undefined] is about to be dereferenced. *)
Definition defined {A} (o : option A) : res A :=
  match o with Some a => Ret a | None => TypeError end.

(** A heap read that the TypeScript types guarantee. *)
Definition typed {A} (o : option A) : res A :=
  match o with Some a => Ret a | None => Stuck end.

(** *** Strings *)

(** White space of [String.prototype.trim] among the code units below 256:
    TAB, LF, VT, FF, CR, SP and NBSP. *)
Definition isWhiteSpace (c : ascii) : bool :=
  match N_of_ascii c with
  | 9 | 10 | 11 | 12 | 13 | 32 | 160 => true
  | _ => false
  end%N.

Fixpoint trimStart (s : string) : string :=
  match s with
  | String c s' => if isWhiteSpace c then trimStart s' else s
  | EmptyString => EmptyString
  end.

Definition trimEnd (s : string) : string :=
  String.rev (trimStart (String.rev s)).

Definition trim (s : string) : string := trimEnd (trimStart s).

(** Truthiness of a string: every string but the empty one. *)
Definition truthy (s : string) : bool := negb (String.eqb s "").

(** Truthiness of a [string | null] state variable. *)
Definition truthyO (o : option string) : bool :=
  match o with Some s => truthy s | None => false end.

(** Default order of [sort()]: code-unit comparison of the strings. *)
Definition str_le (a b : string) : Prop := String.leb a b = true.

#[global] Instance str_le_dec a b : Decision (str_le a b).
Proof. unfold str_le. solve_decision. Defined.

(** [keys.sort()] *)
Definition sort (l : list string) : list string := merge_sort str_le l.

(** *** Objects as dictionaries *)

Abbreviation props A := (list (string * A)).

(** [Object.keys(o)] *)
Definition keys {A} (o : props A) : list string := o.*1.

(** [o[k]], [None] standing for [undefined]. *)
Fixpoint prop_get {A} (k : string) (o : props A) : option A :=
  match o with
  | [] => None
  | (k', v) :: o' => if String.eqb k' k then Some v else prop_get k o'
  end.

(** [o[k] = v]: an existing property keeps its place, a new one goes last. *)
Fixpoint prop_set {A} (k : string) (v : A) (o : props A) : props A :=
  match o with
  | [] => [(k, v)]
  | (k', v') :: o' =>
      if String.eqb k' k then (k', v) :: o' else (k', v') :: prop_set k v o'
  end.

(** ** Data model (the interfaces at the top of the source) *)

Record Exercise := mkExercise { id : string; name : string }.

Record Performance `{Builtins} := mkPerformance {
  date : string;
  sets : number;
  reps : number;
  weight : number;
  notes : string;
}.
Arguments mkPerformance {_}.

(** The values the two state variables denote, as JSON would print them. *)
Abbreviation ProgramV := (props (list Exercise)).
Abbreviation DayHistoryV := (props (list Performance)).
Abbreviation WeekHistoryV := (props DayHistoryV).
Abbreviation HistoryV := (props WeekHistoryV).

(** The element tree of the history view, up to styling: the empty-state
    view, or the container whose children are, weekday by weekday, [null]
    or a day section with its title and one row per exercise id.  A row
    carries the resolved exercise name and the performance its text is
    printed from. *)
Abbreviation Row := (string * Performance)%type.
Abbreviation DaySection := (string * list Row)%type.

Inductive WeekView `{Builtins} : Type :=
| EmptyState
| HistoryContainer (children : list (option DaySection)).

(** ** The heap

    One cell per mutable object of the component.  Exercise objects are
    cells because [addExercise] renames them in place; performance objects
    are never written after their creation and are kept by value in the
    array that holds them. *)
Abbreviation loc := nat.

Inductive cell `{Builtins} : Type :=
| CExercise (e : Exercise)                  (* Exercise *)
| CExercises (elems : list loc)             (* Exercise[] *)
| CProgram (days : props loc)               (* Program *)
| CPerformances (entries : list Performance) (* Performance[] *)
| CDay (exercises : props loc)              (* DayHistory *)
| CWeek (days : props loc)                  (* WeekHistory *)
| CHistory (weeks : props loc).             (* History *)

Abbreviation heap := (list cell).

(** A reader returns the value reached from a location together with its
    footprint, the locations it went through. *)
Definition reader `{Builtins} (A : Type) : Type := heap -> loc -> option (A * list loc).

(** ** The component's state and its surroundings *)

(** The text AsyncStorage holds under a key, written as the value it is the
    JSON of. *)
Inductive blob `{Builtins} : Type :=
| ProgramBlob (p : ProgramV)
| HistoryBlob (hi : HistoryV).

Record Storage `{Builtins} := mkStorage {
  workoutProgram : option ProgramV;
  workoutHistory : option HistoryV;
}.
Arguments mkStorage {_}.

(** What the component does to the outside, oldest first. *)
Inductive effect `{Builtins} : Type :=
| GetItem (key : string) (ok : bool)
| SetItem (key : string) (value : blob) (ok : bool)
| Alert (title message : string).

(** The state variables of the form and of the navigation. *)
Record UI := mkUI {
  selectedDay : option string;
  modalVisible : bool;
  exerciseModalVisible : bool;
  exerciseName : string;
  editingExerciseId : option string;
  performanceModalVisible : bool;
  currentExercise : option Exercise;
  weightText : string;
  setsText : string;
  repsText : string;
  notesText : string;
}.

Record State `{Builtins} := mkState {
  mem : heap;
  program : loc;          (* useState<Program> *)
  history : loc;          (* useState<History> *)
  currentWeek : Z;
  ui : UI;
  storage : Storage;
  trace : list effect;
}.
Arguments mkState {_}.

(** Which of the four calls to AsyncStorage resolve. *)
Record LoadIO := mkLoadIO {
  getProgramOk : bool;
  getHistoryOk : bool;
  setProgramOk : bool;
  setHistoryOk : bool;
}.

Section Model.
Context `{B : Builtins}.


Definition weekdays : list string :=
  ["Monday"; "Tuesday"; "Wednesday"; "Thursday"; "Friday"; "Saturday"; "Sunday"].

(** The template literal [`week${currentWeek}`]. *)
Definition weekKeyOf (currentWeek : Z) : string := "week" +:+ pretty currentWeek.

(** ** [getCurrentWeekNumber]

    [now] and [startOfYear] are the millisecond time values of the two
    [Date] objects and [startDay] is [startOfYear.getDay()].  The quotients
    are exact: the millisecond counts of one year are integers far below
    2^53, and the distance of the exact quotient to the nearest integer it
    does not reach is at least 1/(7 * 86400000), which the rounding of the
    three floating-point operations cannot bridge. *)
Definition getCurrentWeekNumber (now startOfYear startDay : Z) : Z :=
  let pastDaysOfYear : Q := (inject_Z (now - startOfYear) / 86400000)%Q in
  Qceiling ((pastDaysOfYear + inject_Z startDay + 1) / 7)%Q.

(** The week number as the specification words it, over the number of whole
    days that separate the date from January 1. *)
Definition specWeekNumber (daysSinceJan1 weekdayOffsetOfJan1 : Z) : Z :=
  Qceiling ((inject_Z daysSinceJan1 + inject_Z weekdayOffsetOfJan1 + 1) / 7)%Q.

(** ** [getLastPerformance] *)

(** The inner loop over [dayKeys]; [Ret None] means the loop ran to its end
    without returning. *)
Fixpoint scanDays (week : WeekHistoryV) (exerciseId : string)
    (dayKeys : list string) : res (option Performance) :=
  match dayKeys with
  | [] => Ret None
  | dayKey :: rest =>
      day ← defined (prop_get dayKey week);
      match prop_get exerciseId day with
      | Some performances =>
          if (0 <? length performances)%nat
          then Ret (last performances)
          else scanDays week exerciseId rest
      | None => scanDays week exerciseId rest
      end
  end.

(** The outer loop over [weekKeys]. *)
Fixpoint scanWeeks (history : HistoryV) (exerciseId : string)
    (weekKeys : list string) : res (option Performance) :=
  match weekKeys with
  | [] => Ret None
  | weekKey :: rest =>
      week ← defined (prop_get weekKey history);
      found ← scanDays week exerciseId (keys week);
      match found with
      | Some p => Ret (Some p)
      | None => scanWeeks history exerciseId rest
      end
  end.

(** [None] is the [null] of the source. *)
Definition getLastPerformance (history : HistoryV) (exerciseId : string)
    : res (option Performance) :=
  let weekKeys := reverse (sort (keys history)) in
  scanWeeks history exerciseId weekKeys.

(** *** The same query as the specification words it *)

(** The entry sequence of an exercise on a day of a week, empty when a level
    is missing. *)
Definition entriesIn (week : WeekHistoryV) (dayKey exerciseId : string)
    : list Performance :=
  default [] (day ← prop_get dayKey week; prop_get exerciseId day).

Definition entriesOf (history : HistoryV) (weekKey dayKey exerciseId : string)
    : list Performance :=
  entriesIn (default [] (prop_get weekKey history)) dayKey exerciseId.

(** The (week, day) pairs in the order of the scan. *)
Definition scanOrder (history : HistoryV) : list (string * string) :=
  weekKey ← reverse (sort (keys history));
  dayKey ← keys (default [] (prop_get weekKey history));
  [(weekKey, dayKey)].

Definition hasEntries (history : HistoryV) (exerciseId : string)
    (wd : string * string) : bool :=
  (0 <? length (entriesOf history wd.1 wd.2 exerciseId))%nat.

Definition queryLastPerformance (history : HistoryV) (exerciseId : string)
    : option Performance :=
  match List.find (hasEntries history exerciseId) (scanOrder history) with
  | Some wd => last (entriesOf history wd.1 wd.2 exerciseId)
  | None => None
  end.

(** ** [renderWeekHistory] *)

(** [program[day]?.find(ex => ex.id === id)?.name || 'Unknown Exercise'] *)
Definition exerciseNameOf (program : ProgramV) (day id_ : string) : string :=
  let found :=
    exercises ← prop_get day program;
    ex ← List.find (fun ex => String.eqb (id ex) id_) exercises;
    Some (name ex) in
  match found with
  | Some n => if truthy n then n else "Unknown Exercise"
  | None => "Unknown Exercise"
  end.

(** The callback of [exerciseIds.map]. *)
Definition renderRow (program : ProgramV) (day : string) (dayData : DayHistoryV)
    (id_ : string) : res Row :=
  performances ← defined (prop_get id_ dayData);
  lastPerformance ← defined (last performances);
  Ret (exerciseNameOf program day id_, lastPerformance).

(** [arr.map(f)] for a callback that may throw. *)
Fixpoint mapR {A C} (f : A -> res C) (l : list A) : res (list C) :=
  match l with
  | [] => Ret []
  | x :: l' => y ← f x; ys ← mapR f l'; Ret (y :: ys)
  end.

(** The callback of [weekdays.map]. *)
Definition renderDay (program : ProgramV) (week : WeekHistoryV) (day : string)
    : res (option DaySection) :=
  match prop_get day week with
  | None => Ret None
  | Some dayData =>
      let exerciseIds := keys dayData in
      if (length exerciseIds =? 0)%nat then Ret None
      else rows ← mapR (renderRow program day dayData) exerciseIds;
           Ret (Some (day, rows))
  end.

Definition renderWeekHistory (history : HistoryV) (program : ProgramV)
    (currentWeek : Z) : res WeekView :=
  let weekKey := weekKeyOf currentWeek in
  match prop_get weekKey history with
  | None => Ret EmptyState
  | Some week =>
      children ← mapR (renderDay program week) weekdays;
      Ret (HistoryContainer children)
  end.

(** The day sections a view shows. *)
Definition sections (v : WeekView) : list DaySection :=
  match v with
  | EmptyState => []
  | HistoryContainer children => omap (fun c => c) children
  end.

(** *** The week summary as the specification words it *)

(** The name an exercise id resolves to: the current name in the program's
    list for that day, or the placeholder. *)
Definition resolvedName (program : ProgramV) (day id_ : string) : string :=
  match List.find (fun ex => String.eqb (id ex) id_)
                  (default [] (prop_get day program)) with
  | Some ex => if String.eqb (name ex) "" then "Unknown Exercise" else name ex
  | None => "Unknown Exercise"
  end.

(** One weekday of the summary: nothing when no exercise id is recorded,
    else each id's name with the last entry of its sequence. *)
Definition summaryOfDay (history : HistoryV) (program : ProgramV)
    (weekKey day : string) : option (string * list (string * option Performance)) :=
  let dayData := default [] (week ← prop_get weekKey history; prop_get day week) in
  match keys dayData with
  | [] => None
  | ids => Some (day, (fun i => (resolvedName program day i,
                                 last (entriesOf history weekKey day i))) <$> ids)
  end.

Definition queryWeekSummary (history : HistoryV) (program : ProgramV)
    (weekNumber : Z) : list (string * list (string * option Performance)) :=
  omap (summaryOfDay history program (weekKeyOf weekNumber)) weekdays.

(** Every entry sequence stored under a week has an entry, as every
    sequence that [recordPerformance] creates has. *)
Definition sequencesNonEmpty (history : HistoryV) (weekKey : string) : Prop :=
  forall week, prop_get weekKey history = Some week ->
  forall day dayData perfs, (day, dayData) ∈ week -> (perfs : string * list Performance) ∈ dayData ->
  perfs.2 <> [].


(** ** Reading and writing the heap *)

(** A new object or array. *)
Definition alloc (c : cell) (h : heap) : loc * heap := (length h, h ++ [c]).

Definition asExercise (c : cell) : option Exercise :=
  match c with CExercise e => Some e | _ => None end.
Definition asExercises (c : cell) : option (list loc) :=
  match c with CExercises ls => Some ls | _ => None end.
Definition asProgram (c : cell) : option (props loc) :=
  match c with CProgram ps => Some ps | _ => None end.
Definition asPerformances (c : cell) : option (list Performance) :=
  match c with CPerformances l => Some l | _ => None end.
Definition asDay (c : cell) : option (props loc) :=
  match c with CDay ps => Some ps | _ => None end.
Definition asWeek (c : cell) : option (props loc) :=
  match c with CWeek ps => Some ps | _ => None end.
Definition asHistory (c : cell) : option (props loc) :=
  match c with CHistory ps => Some ps | _ => None end.

(** The content of the cell at [l], read at the type [as_] selects. *)
Definition load {A} (as_ : cell -> option A) (h : heap) (l : loc) : option A :=
  h !! l ≫= as_.

(** *** The value a reference denotes *)

Fixpoint readList {A} (f : loc -> option (A * list loc)) (ls : list loc)
    : option (list A * list loc) :=
  match ls with
  | [] => Some ([], [])
  | l :: ls' =>
      r ← f l; rs ← readList f ls'; Some (r.1 :: rs.1, r.2 ++ rs.2)
  end.

Fixpoint readProps {A} (f : loc -> option (A * list loc)) (ps : props loc)
    : option (props A * list loc) :=
  match ps with
  | [] => Some ([], [])
  | (k, l) :: ps' =>
      r ← f l; rs ← readProps f ps'; Some ((k, r.1) :: rs.1, r.2 ++ rs.2)
  end.

(** A dictionary object whose properties are read by [f]. *)
Definition readObj {A} (as_ : cell -> option (props loc)) (f : reader A)
    : reader (props A) := fun h n =>
  ps ← load as_ h n; r ← readProps (f h) ps; Some (r.1, n :: r.2).

Definition readExercise : reader Exercise := fun h l =>
  e ← load asExercise h l; Some (e, [l]).

Definition readExercises : reader (list Exercise) := fun h a =>
  ls ← load asExercises h a; r ← readList (readExercise h) ls; Some (r.1, a :: r.2).

Definition readProgram : reader ProgramV := readObj asProgram readExercises.

Definition readPerformances : reader (list Performance) := fun h a =>
  l ← load asPerformances h a; Some (l, [a]).

Definition readDay : reader DayHistoryV := readObj asDay readPerformances.
Definition readWeek : reader WeekHistoryV := readObj asWeek readDay.
Definition readHistory : reader HistoryV := readObj asHistory readWeek.

(** [h] holds at [l] a tree of cells, no cell reached twice, that denotes [v]. *)
Definition denotes {A} (f : reader A) (h : heap) (l : loc) (v : A) : Prop :=
  exists fp, f h l = Some (v, fp) /\ NoDup fp.

(** *** [JSON.parse]: a fresh tree of cells for a value *)

Fixpoint allocList {A} (alloc1 : A -> heap -> loc * heap) (xs : list A) (h : heap)
    : list loc * heap :=
  match xs with
  | [] => ([], h)
  | x :: xs' =>
      let '(l, h1) := alloc1 x h in
      let '(ls, h2) := allocList alloc1 xs' h1 in
      (l :: ls, h2)
  end.

Fixpoint allocProps {A} (alloc1 : A -> heap -> loc * heap) (ps : props A) (h : heap)
    : props loc * heap :=
  match ps with
  | [] => ([], h)
  | (k, x) :: ps' =>
      let '(l, h1) := alloc1 x h in
      let '(ls, h2) := allocProps alloc1 ps' h1 in
      ((k, l) :: ls, h2)
  end.

Definition parseExercises (es : list Exercise) (h : heap) : loc * heap :=
  let '(ls, h1) := allocList (fun e => alloc (CExercise e)) es h in
  alloc (CExercises ls) h1.

Definition parseProgram (p : ProgramV) (h : heap) : loc * heap :=
  let '(ps, h1) := allocProps parseExercises p h in alloc (CProgram ps) h1.

Definition parseDay (d : DayHistoryV) (h : heap) : loc * heap :=
  let '(ps, h1) := allocProps (fun l => alloc (CPerformances l)) d h in
  alloc (CDay ps) h1.

Definition parseWeek (w : WeekHistoryV) (h : heap) : loc * heap :=
  let '(ps, h1) := allocProps parseDay w h in alloc (CWeek ps) h1.

Definition parseHistory (hi : HistoryV) (h : heap) : loc * heap :=
  let '(ps, h1) := allocProps parseWeek hi h in alloc (CHistory ps) h1.

(** ** State updates *)

Definition withMem (h : heap) (s : State) : State :=
  mkState h (program s) (history s) (currentWeek s) (ui s) (storage s) (trace s).
Definition setProgram (p : loc) (s : State) : State :=
  mkState (mem s) p (history s) (currentWeek s) (ui s) (storage s) (trace s).
Definition setHistory (hi : loc) (s : State) : State :=
  mkState (mem s) (program s) hi (currentWeek s) (ui s) (storage s) (trace s).
Definition setCurrentWeek (w : Z) (s : State) : State :=
  mkState (mem s) (program s) (history s) w (ui s) (storage s) (trace s).
Definition withUI (u : UI) (s : State) : State :=
  mkState (mem s) (program s) (history s) (currentWeek s) u (storage s) (trace s).
Definition withStorage (st : Storage) (s : State) : State :=
  mkState (mem s) (program s) (history s) (currentWeek s) (ui s) st (trace s).
Definition emit (e : effect) (s : State) : State :=
  mkState (mem s) (program s) (history s) (currentWeek s) (ui s) (storage s)
          (trace s ++ [e]).

(** The setters of the form and navigation state. *)
Definition setSelectedDay (d : option string) (s : State) : State :=
  let u := ui s in
  withUI (mkUI d (modalVisible u) (exerciseModalVisible u) (exerciseName u)
               (editingExerciseId u) (performanceModalVisible u) (currentExercise u)
               (weightText u) (setsText u) (repsText u) (notesText u)) s.
Definition setModalVisible (b : bool) (s : State) : State :=
  let u := ui s in
  withUI (mkUI (selectedDay u) b (exerciseModalVisible u) (exerciseName u)
               (editingExerciseId u) (performanceModalVisible u) (currentExercise u)
               (weightText u) (setsText u) (repsText u) (notesText u)) s.
Definition setExerciseModalVisible (b : bool) (s : State) : State :=
  let u := ui s in
  withUI (mkUI (selectedDay u) (modalVisible u) b (exerciseName u)
               (editingExerciseId u) (performanceModalVisible u) (currentExercise u)
               (weightText u) (setsText u) (repsText u) (notesText u)) s.
Definition setExerciseName (n : string) (s : State) : State :=
  let u := ui s in
  withUI (mkUI (selectedDay u) (modalVisible u) (exerciseModalVisible u) n
               (editingExerciseId u) (performanceModalVisible u) (currentExercise u)
               (weightText u) (setsText u) (repsText u) (notesText u)) s.
Definition setEditingExerciseId (i : option string) (s : State) : State :=
  let u := ui s in
  withUI (mkUI (selectedDay u) (modalVisible u) (exerciseModalVisible u) (exerciseName u)
               i (performanceModalVisible u) (currentExercise u)
               (weightText u) (setsText u) (repsText u) (notesText u)) s.
Definition setPerformanceModalVisible (b : bool) (s : State) : State :=
  let u := ui s in
  withUI (mkUI (selectedDay u) (modalVisible u) (exerciseModalVisible u) (exerciseName u)
               (editingExerciseId u) b (currentExercise u)
               (weightText u) (setsText u) (repsText u) (notesText u)) s.
Definition setCurrentExercise (e : option Exercise) (s : State) : State :=
  let u := ui s in
  withUI (mkUI (selectedDay u) (modalVisible u) (exerciseModalVisible u) (exerciseName u)
               (editingExerciseId u) (performanceModalVisible u) e
               (weightText u) (setsText u) (repsText u) (notesText u)) s.
Definition setWeight (t : string) (s : State) : State :=
  let u := ui s in
  withUI (mkUI (selectedDay u) (modalVisible u) (exerciseModalVisible u) (exerciseName u)
               (editingExerciseId u) (performanceModalVisible u) (currentExercise u)
               t (setsText u) (repsText u) (notesText u)) s.
Definition setSets (t : string) (s : State) : State :=
  let u := ui s in
  withUI (mkUI (selectedDay u) (modalVisible u) (exerciseModalVisible u) (exerciseName u)
               (editingExerciseId u) (performanceModalVisible u) (currentExercise u)
               (weightText u) t (repsText u) (notesText u)) s.
Definition setReps (t : string) (s : State) : State :=
  let u := ui s in
  withUI (mkUI (selectedDay u) (modalVisible u) (exerciseModalVisible u) (exerciseName u)
               (editingExerciseId u) (performanceModalVisible u) (currentExercise u)
               (weightText u) (setsText u) t (notesText u)) s.
Definition setNotes (t : string) (s : State) : State :=
  let u := ui s in
  withUI (mkUI (selectedDay u) (modalVisible u) (exerciseModalVisible u) (exerciseName u)
               (editingExerciseId u) (performanceModalVisible u) (currentExercise u)
               (weightText u) (setsText u) (repsText u) t) s.

(** [Alert.alert(title, message)] *)
Definition alert (title message : string) (s : State) : State :=
  emit (Alert title message) s.

(** The Program and the History the state variables hold. *)
Definition viewProgram (h : heap) (p : loc) : option ProgramV := fst <$> readProgram h p.
Definition viewHistory (h : heap) (p : loc) : option HistoryV := fst <$> readHistory h p.
Definition programOf (s : State) : option ProgramV := viewProgram (mem s) (program s).
Definition historyOf (s : State) : option HistoryV := viewHistory (mem s) (history s).

(** The state of the first render: [useState({})] twice, the week of the
    clock, an empty form. *)
Definition initialUI : UI :=
  mkUI None false false "" None false None "" "" "" "".

Definition initialState (week : Z) (st : Storage) : State :=
  mkState [CProgram []; CHistory []] 0 1 week initialUI st [].

(** ** Persistence

    [JSON.stringify] of a state variable is the value it denotes.  A call
    to the storage that fails leaves the storage as it was. *)

(** [saveProgram]; [ok] tells whether [AsyncStorage.setItem] resolves. *)
Definition saveProgram (ok : bool) (updatedProgram : loc) (s : State) : res State :=
  text ← typed (viewProgram (mem s) updatedProgram);
  if ok then
    Ret (setProgram updatedProgram
          (withStorage (mkStorage (Some text) (workoutHistory (storage s)))
            (emit (SetItem "workoutProgram" (ProgramBlob text) true) s)))
  else
    Ret (alert "Error" "Failed to save program"
          (emit (SetItem "workoutProgram" (ProgramBlob text) false) s)).

(** [saveHistory] *)
Definition saveHistory (ok : bool) (updatedHistory : loc) (s : State) : res State :=
  text ← typed (viewHistory (mem s) updatedHistory);
  if ok then
    Ret (setHistory updatedHistory
          (withStorage (mkStorage (workoutProgram (storage s)) (Some text))
            (emit (SetItem "workoutHistory" (HistoryBlob text) true) s)))
  else
    Ret (alert "Error" "Failed to save workout history"
          (emit (SetItem "workoutHistory" (HistoryBlob text) false) s)).

(** ** [loadData]

    The stored texts are the values they encode, so [JSON.parse] builds the
    cells of a value and does not throw. *)

(** [o[k] = l] on the dictionary object at [o]. *)
Definition storeProp (as_ : cell -> option (props loc)) (mk : props loc -> cell)
    (o : loc) (k : string) (l : loc) (h : heap) : res heap :=
  ps ← typed (load as_ h o);
  Ret (<[o := mk (prop_set k l ps)]> h).

(** The body of [weekdays.forEach]: [initialProgram[day] = []]. *)
Definition initDay (initialProgram : loc) (h : res heap) (day : string) : res heap :=
  h0 ← h;
  let '(arr, h1) := alloc (CExercises []) h0 in
  storeProp asProgram CProgram initialProgram day arr h1.

Definition loadFailed (s : State) : State :=
  alert "Error" "Failed to load workout data" s.

(** The second half of the [try] block. *)
Definition loadHistoryPart (io : LoadIO) (savedHistory : option HistoryV) (s : State)
    : res State :=
  match savedHistory with
  | Some hi =>
      let '(l, h1) := parseHistory hi (mem s) in
      Ret (setHistory l (withMem h1 s))
  | None =>
      if setHistoryOk io then
        Ret (withStorage (mkStorage (workoutProgram (storage s)) (Some []))
              (emit (SetItem "workoutHistory" (HistoryBlob []) true) s))
      else
        Ret (loadFailed (emit (SetItem "workoutHistory" (HistoryBlob []) false) s))
  end.

Definition loadData (io : LoadIO) (s : State) : res State :=
  if negb (getProgramOk io) then
    Ret (loadFailed (emit (GetItem "workoutProgram" false) s))
  else
  let savedProgram := workoutProgram (storage s) in
  let s := emit (GetItem "workoutProgram" true) s in
  if negb (getHistoryOk io) then
    Ret (loadFailed (emit (GetItem "workoutHistory" false) s))
  else
  let savedHistory := workoutHistory (storage s) in
  let s := emit (GetItem "workoutHistory" true) s in
  match savedProgram with
  | Some p =>
      let '(l, h1) := parseProgram p (mem s) in
      loadHistoryPart io savedHistory (setProgram l (withMem h1 s))
  | None =>
      let '(initialProgram, h0) := alloc (CProgram []) (mem s) in
      h1 ← foldl (initDay initialProgram) (Ret h0) weekdays;
      let s := setProgram initialProgram (withMem h1 s) in
      text ← typed (viewProgram h1 initialProgram);
      if setProgramOk io then
        loadHistoryPart io savedHistory
          (withStorage (mkStorage (Some text) (workoutHistory (storage s)))
            (emit (SetItem "workoutProgram" (ProgramBlob text) true) s))
      else
        Ret (loadFailed (emit (SetItem "workoutProgram" (ProgramBlob text) false) s))
  end.

(** ** [addExercise] *)

(** [arr.findIndex(ex => ex.id === wanted)], [None] for -1. *)
Fixpoint findIndexById (h : heap) (wanted : string) (ls : list loc) : res (option nat) :=
  match ls with
  | [] => Ret None
  | l :: ls' =>
      ex ← typed (load asExercise h l);
      if String.eqb (id ex) wanted then Ret (Some 0%nat)
      else i ← findIndexById h wanted ls'; Ret (fmap (M:=option) S i)
  end.

(** The edit branch: rename the exercise in place when it is found. *)
Definition renameIn (h : heap) (arr : loc) (editingId newName : string) : res heap :=
  ls ← typed (load asExercises h arr);
  exerciseIndex ← findIndexById h editingId ls;
  match exerciseIndex with
  | Some i =>
      l ← typed (ls !! i);
      ex ← typed (load asExercise h l);
      Ret (<[l := CExercise (mkExercise (id ex) newName)]> h)
  | None => Ret h
  end.

(** [arr.push(l)] on an [Exercise[]]. *)
Definition pushExercise (h : heap) (arr : loc) (l : loc) : res heap :=
  ls ← typed (load asExercises h arr);
  Ret (<[arr := CExercises (ls ++ [l])]> h).

(** [now] is [Date.now()]; [ok] tells whether the save resolves. *)
Definition addExercise (now : Z) (ok : bool) (s : State) : res State :=
  match selectedDay (ui s) with
  | Some day =>
      if negb (truthy (trim (exerciseName (ui s)))) || negb (truthy day) then
        Ret (alert "Error" "Please enter an exercise name" s)
      else
        days ← typed (load asProgram (mem s) (program s));
        let '(updatedProgram, h1) := alloc (CProgram days) (mem s) in
        h2 ← (if truthyO (editingExerciseId (ui s)) then
                arr ← defined (prop_get day days);
                renameIn h1 arr (default "" (editingExerciseId (ui s)))
                         (exerciseName (ui s))
              else
                let '(newExercise, h1') :=
                  alloc (CExercise (mkExercise (pretty now) (exerciseName (ui s)))) h1 in
                arr ← defined (prop_get day days);
                pushExercise h1' arr newExercise);
        s1 ← saveProgram ok updatedProgram (withMem h2 s);
        Ret (setExerciseModalVisible false
              (setEditingExerciseId None (setExerciseName "" s1)))
  | None => Ret (alert "Error" "Please enter an exercise name" s)
  end.

(** ** [removeExercise] *)

(** [arr.filter(ex => ex.id !== exerciseId)] on the elements of an array. *)
Fixpoint filterOutId (h : heap) (exerciseId : string) (ls : list loc) : res (list loc) :=
  match ls with
  | [] => Ret []
  | l :: ls' =>
      ex ← typed (load asExercise h l);
      kept ← filterOutId h exerciseId ls';
      Ret (if negb (String.eqb (id ex) exerciseId) then l :: kept else kept)
  end.

Definition removeExercise (ok : bool) (exerciseId : string) (s : State) : res State :=
  match selectedDay (ui s) with
  | Some day =>
      if negb (truthy day) then Ret s
      else
        days ← typed (load asProgram (mem s) (program s));
        let '(updatedProgram, h1) := alloc (CProgram days) (mem s) in
        arr ← defined (prop_get day days);
        ls ← typed (load asExercises h1 arr);
        kept ← filterOutId h1 exerciseId ls;
        let '(filtered, h2) := alloc (CExercises kept) h1 in
        h3 ← storeProp asProgram CProgram updatedProgram day filtered h2;
        saveProgram ok updatedProgram (withMem h3 s)
  | None => Ret s
  end.

(** [editExercise] *)
Definition editExercise (exercise : Exercise) (s : State) : State :=
  setExerciseModalVisible true
    (setEditingExerciseId (Some (id exercise)) (setExerciseName (name exercise) s)).

(** ** [recordPerformance] *)

(** [if (!o[k]) o[k] = {}] (or [[]]) on the dictionary object at [o]. *)
Definition ensureProp (as_ : cell -> option (props loc)) (mk : props loc -> cell)
    (empty : cell) (o : loc) (k : string) (h : heap) : res heap :=
  ps ← typed (load as_ h o);
  match prop_get k ps with
  | Some _ => Ret h
  | None =>
      let '(fresh, h1) := alloc empty h in
      storeProp as_ mk o k fresh h1
  end.

(** [o[k]] about to be dereferenced. *)
Definition loadProp (as_ : cell -> option (props loc)) (o : loc) (k : string)
    (h : heap) : res loc :=
  ps ← typed (load as_ h o);
  defined (prop_get k ps).

(** [arr.push(p)] on a [Performance[]]. *)
Definition pushPerformance (h : heap) (arr : loc) (p : Performance) : res heap :=
  entries ← typed (load asPerformances h arr);
  Ret (<[arr := CPerformances (entries ++ [p])]> h).

(** The object literal [performance]; [now] is the clock of [new Date()]. *)
Definition performanceOf (now : Z) (u : UI) : Performance :=
  mkPerformance (toISOString now)
    (parseInt (setsText u))
    (parseInt (repsText u))
    (if truthy (weightText u) then parseFloat (weightText u) else zero)
    (notesText u).

(** [resetPerformanceForm] *)
Definition resetPerformanceForm (s : State) : State :=
  setNotes "" (setReps "" (setSets "" (setWeight "" s))).

Definition recordPerformance (now : Z) (ok : bool) (s : State) : res State :=
  match selectedDay (ui s), currentExercise (ui s) with
  | Some dayKey, Some exercise =>
      if negb (truthy (trim (setsText (ui s)))) || negb (truthy (trim (repsText (ui s))))
         || negb (truthy dayKey) then
        Ret (alert "Error" "Please enter sets and reps" s)
      else
        let weekKey := weekKeyOf (currentWeek s) in
        let exerciseId := id exercise in
        weeks ← typed (load asHistory (mem s) (history s));
        let '(updatedHistory, h0) := alloc (CHistory weeks) (mem s) in
        h1 ← ensureProp asHistory CHistory (CWeek []) updatedHistory weekKey h0;
        week ← loadProp asHistory updatedHistory weekKey h1;
        h2 ← ensureProp asWeek CWeek (CDay []) week dayKey h1;
        day ← loadProp asWeek week dayKey h2;
        h3 ← ensureProp asDay CDay (CPerformances []) day exerciseId h2;
        arr ← loadProp asDay day exerciseId h3;
        let performance := performanceOf now (ui s) in
        h4 ← pushPerformance h3 arr performance;
        s1 ← saveHistory ok updatedHistory (withMem h4 s);
        Ret (setPerformanceModalVisible false (resetPerformanceForm s1))
  | _, _ => Ret (alert "Error" "Please enter sets and reps" s)
  end.

(** [openPerformanceModal] *)
Definition openPerformanceModal (exercise : Exercise) (s : State) : State :=
  setPerformanceModalVisible true (setCurrentExercise (Some exercise) s).

(** [changeWeek] *)
Definition changeWeek (delta : Z) (s : State) : State :=
  let newWeek := (currentWeek s + delta)%Z in
  if (0 <? newWeek)%Z then setCurrentWeek newWeek s else s.

(** ** The effect of the handlers on the denoted values *)

(** [o[k] = g(o[k])] with a missing [o[k]] created as [empty] first. *)
Definition upsert {A} (k : string) (empty : A) (g : A -> A) (o : props A) : props A :=
  prop_set k (g (default empty (prop_get k o))) o.

(** The History after one more entry for an exercise on a day of a week. *)
Definition recordV (weekKey dayKey exerciseId : string) (p : Performance)
    (hi : HistoryV) : HistoryV :=
  upsert weekKey [] (upsert dayKey [] (upsert exerciseId [] (fun l => l ++ [p]))) hi.

(** The exercises of a day, in order, without those whose id is [exerciseId]. *)
Definition withoutId (exerciseId : string) (es : list Exercise) : list Exercise :=
  List.filter (fun ex => negb (String.eqb (id ex) exerciseId)) es.

(** The first position of an exercise with the given id. *)
Fixpoint indexOfId (wanted : string) (es : list Exercise) : option nat :=
  match es with
  | [] => None
  | ex :: es' =>
      if String.eqb (id ex) wanted then Some 0%nat
      else S <$> indexOfId wanted es'
  end.

(** The performance form passes the checks of [recordPerformance]: a day
    and an exercise are selected, sets and reps are not blank. *)
Definition filled (u : UI) (day : string) (exercise : Exercise) : Prop :=
  selectedDay u = Some day /\ currentExercise u = Some exercise
  /\ truthy (trim (setsText u)) = true /\ truthy (trim (repsText u)) = true
  /\ truthy day = true.

(** The exercises of a day after the first one with the given id is given
    a new name. *)
Definition renameV (wanted newName : string) (es : list Exercise) : list Exercise :=
  match indexOfId wanted es with
  | Some i =>
      match es !! i with
      | Some ex => <[i := mkExercise (id ex) newName]> es
      | None => es
      end
  | None => es
  end.

(** The exercises of a day after [addExercise]: renamed in edit mode,
    extended otherwise. *)
Definition exercisesAfterAdd (now : Z) (u : UI) (es : list Exercise) : list Exercise :=
  if truthyO (editingExerciseId u)
  then renameV (default "" (editingExerciseId u)) (exerciseName u) es
  else es ++ [mkExercise (pretty now) (exerciseName u)].

(** The Program of a first run: every weekday with no exercise. *)
Definition defaultProgram : ProgramV := (fun day => (day, [])) <$> weekdays.

(** The cells a History is made of, as opposed to those of a Program. *)
Definition historyCell (c : cell) : bool :=
  match c with
  | CPerformances _ | CDay _ | CWeek _ | CHistory _ => true
  | CExercise _ | CExercises _ | CProgram _ => false
  end.

(** ** Frames

    [keeps fp h h'] says that [h'] still has every cell of [h] at the
    locations [fp]; [keepsOutside fp h h'] says so of the locations not in
    [fp]. *)
Definition keeps (fp : list loc) (h h' : heap) : Prop :=
  forall l c, l ∈ fp -> h !! l = Some c -> h' !! l = Some c.

Definition keepsOutside (fp : list loc) (h h' : heap) : Prop :=
  forall l c, l ∉ fp -> h !! l = Some c -> h' !! l = Some c.

(** A reader depends on its footprint only, which holds allocated
    locations only. *)
Class Framed {A} (f : reader A) : Prop := {
  framed_keeps h h' l v fp :
    f h l = Some (v, fp) -> keeps fp h h' -> f h' l = Some (v, fp);
  framed_valid h l v fp x : f h l = Some (v, fp) -> x ∈ fp -> x < List.length h;
}.

(** From [h] to [h'] the tree at [l] was updated in place to denote [v']:
    nothing outside its footprint changed, and the footprint grew by newly
    allocated cells only. *)
Definition updates {A} (f : reader A) (h h' : heap) (l : loc) (v' : A) : Prop :=
  exists v fp fp',
    f h l = Some (v, fp) /\ f h' l = Some (v', fp')
    /\ keepsOutside fp h h'
    /\ (NoDup fp -> NoDup fp')
    /\ (forall x, x ∈ fp' -> x ∈ fp \/ List.length h <= x).

(** Every cell of a footprint of [f] is of the kind [K]. *)
Definition footprintOf {A} (K : cell -> Prop) (f : reader A) : Prop :=
  forall h l v fp x, f h l = Some (v, fp) -> x ∈ fp ->
  exists c, h !! x = Some c /\ K c.

End Model.

(** ** The controls of the screen

    The element tree the component returns wires every control to one of
    the handlers above or to an inline function.  An [event] is one use of
    a control, together with what the surroundings decide while it is
    handled: the clock, and whether the save it starts resolves.  Events
    are handled one at a time, the save of one settled before the next. *)
Section Screen.
Context `{B : Builtins}.

(** The [+] button of the day view. *)
Definition openExerciseModal (s : State) : State :=
  setExerciseModalVisible true (setEditingExerciseId None (setExerciseName "" s)).

(** [onRequestClose] and the Cancel button of the exercise form. *)
Definition closeExerciseModal (s : State) : State :=
  setEditingExerciseId None (setExerciseName "" (setExerciseModalVisible false s)).

(** [onRequestClose] and the Cancel button of the performance form. *)
Definition closePerformanceModal (s : State) : State :=
  resetPerformanceForm (setPerformanceModalVisible false s).

Inductive event : Type :=
| PressBack                                 (* the arrow of the day view *)
| PressAdd                                  (* the [+] of the day view *)
| PressEdit (item : Exercise)               (* the pencil of a list item *)
| PressTrash (item : Exercise) (ok : bool)  (* the trash can of a list item *)
| PressAddEffort (item : Exercise)          (* "Add Effort" of a list item *)
| PressPreviousWeek
| PressNextWeek
| PressProgramTab
| PressPastEffortsTab
| PressDay (day : string)                   (* a day card *)
| ChangeExerciseName (text : string)
| CancelExercise
| SaveExercise (now : Z) (ok : bool)
| ChangeSets (text : string)
| ChangeReps (text : string)
| ChangeWeight (text : string)
| ChangeNotes (text : string)
| CancelPerformance
| SavePerformance (now : Z) (ok : bool).

Definition handle (e : event) (s : State) : res State :=
  match e with
  | PressBack => Ret (setSelectedDay None s)
  | PressAdd => Ret (openExerciseModal s)
  | PressEdit item => Ret (editExercise item s)
  | PressTrash item ok => removeExercise ok (id item) s
  | PressAddEffort item => Ret (openPerformanceModal item s)
  | PressPreviousWeek => Ret (changeWeek (-1) s)
  | PressNextWeek => Ret (changeWeek 1 s)
  | PressProgramTab => Ret (setModalVisible false s)
  | PressPastEffortsTab => Ret (setModalVisible true s)
  | PressDay day => Ret (setSelectedDay (Some day) s)
  | ChangeExerciseName text => Ret (setExerciseName text s)
  | CancelExercise => Ret (closeExerciseModal s)
  | SaveExercise now ok => addExercise now ok s
  | ChangeSets text => Ret (setSets text s)
  | ChangeReps text => Ret (setReps text s)
  | ChangeWeight text => Ret (setWeight text s)
  | ChangeNotes text => Ret (setNotes text s)
  | CancelPerformance => Ret (closePerformanceModal s)
  | SavePerformance now ok => recordPerformance now ok s
  end.

(** The events in turn, up to the first that throws. *)
Fixpoint run (events : list event) (s : State) : res State :=
  match events with
  | [] => Ret s
  | e :: events' => s' ← handle e s; run events' s'
  end.

(** The key of the storage that a control saves to. *)
Definition savesTo (e : event) : option string :=
  match e with
  | PressTrash _ _ | SaveExercise _ _ => Some "workoutProgram"
  | SavePerformance _ _ => Some "workoutHistory"
  | _ => None
  end.

(** The day cards are made from [weekdays]: no other day can be selected. *)
Definition onScreen (e : event) : Prop :=
  match e with
  | PressDay day => day ∈ weekdays
  | _ => True
  end.

(** ** Shapes of the data the component relies on *)

(** Every weekday is a key of the Program. *)
Definition hasWeekdays (p : ProgramV) : Prop :=
  forall day, day ∈ weekdays -> is_Some (prop_get day p).

(** Every entry sequence of the History has an entry. *)
Definition entriesNonEmpty (hi : HistoryV) : Prop :=
  forall w week d dayData i perfs,
    (w, week) ∈ hi -> (d, dayData) ∈ week -> (i, perfs) ∈ dayData -> perfs <> [].

(** The two state variables hold trees of cells, the Program has the
    weekdays, the History has no empty sequence, the selected day is a
    weekday, and what the storage holds has these shapes as well. *)
Definition sound (s : State) : Prop :=
  (exists p, denotes readProgram (mem s) (program s) p /\ hasWeekdays p)
  /\ (exists hi, denotes readHistory (mem s) (history s) hi /\ entriesNonEmpty hi)
  /\ (forall day, selectedDay (ui s) = Some day -> day ∈ weekdays)
  /\ (forall p, workoutProgram (storage s) = Some p -> hasWeekdays p)
  /\ (forall hi, workoutHistory (storage s) = Some hi -> entriesNonEmpty hi).

(** Under a weekday of the week, an exercise id whose entry sequence is
    empty. *)
Definition emptyRow (week : WeekHistoryV) : Prop :=
  exists day dayData i,
    day ∈ weekdays /\ prop_get day week = Some dayData
    /\ i ∈ keys dayData /\ prop_get i dayData = Some [].

(** A string of white space only. *)
Definition blank (s : string) : bool :=
  forallb isWhiteSpace (list_ascii_of_string s).

End Screen.

(** ** Sample runs

    A stand-in runtime closes the sample runs: a number is kept as the text
    it is parsed from, and the two clock readings at which the samples
    record print as their ISO strings. *)
Definition sampleRuntime : Builtins := {|
  number := string;
  parseInt := fun s => s;
  parseFloat := fun s => s;
  zero := "0";
  toISOString := fun ms =>
    if (ms =? 1700000100000)%Z then "2023-11-14T22:15:00.000Z"
    else "2023-11-14T22:18:20.000Z";
|}.

(** The state a run ends in, [d] when it does not return. *)
Definition finalState `{Builtins} (d : State) (r : res State) : State :=
  match r with Ret s => s | _ => d end.

Definition allResolve : LoadIO := mkLoadIO true true true true.

(** First render on 14 November 2023 (UTC), which is in week 46, with an
    empty storage; then [loadData]. *)
Definition sampleStart : @State sampleRuntime :=
  initialState 46 (mkStorage None None).

Definition sampleLoaded : @State sampleRuntime :=
  finalState sampleStart (loadData allResolve sampleStart).

(** Monday is selected and "Squat" is typed into the exercise form. *)
Definition sampleNaming : @State sampleRuntime :=
  setExerciseName "Squat"
    (setExerciseModalVisible true (setSelectedDay (Some "Monday") sampleLoaded)).

(** The exercise is saved at millisecond 1700000000000. *)
Definition sampleSquat : @State sampleRuntime :=
  finalState sampleNaming (addExercise 1700000000000 true sampleNaming).

Definition squat : Exercise := mkExercise "1700000000000" "Squat".

(** The exercise form is in edit mode for an id that Monday does not have,
    with the name "Bench". *)
Definition sampleEditMissing : @State sampleRuntime :=
  setExerciseName "Bench"
    (setEditingExerciseId (Some "42") (setExerciseModalVisible true sampleSquat)).

(** The exercise form is opened on the squat, which is renamed
    "Back squat". *)
Definition sampleEditSquat : @State sampleRuntime :=
  setExerciseName "Back squat" (editExercise squat sampleSquat).

(** The performance form of the squat is filled with 3 sets of 5 at 100. *)
Definition sampleForm : @State sampleRuntime :=
  setNotes "easy"
    (setReps "5" (setSets "3" (setWeight "100" (openPerformanceModal squat sampleSquat)))).

Definition sampleFormUI : UI := ui sampleForm.

(** The performance is saved, and the form is filled again. *)
Definition sampleRecorded : @State sampleRuntime :=
  finalState sampleForm (recordPerformance 1700000100000 true sampleForm).

Definition sampleForm2 : @State sampleRuntime := withUI sampleFormUI sampleRecorded.

(** The values of the sample states. *)
Definition sampleProgramV : ProgramV :=
  [("Monday", [squat]); ("Tuesday", []); ("Wednesday", []); ("Thursday", []);
   ("Friday", []); ("Saturday", []); ("Sunday", [])].

Definition samplePerformance : @Performance sampleRuntime :=
  @mkPerformance sampleRuntime "2023-11-14T22:15:00.000Z" "3" "5" "100" "easy".

Definition sampleHistoryV : props (props (props (list (@Performance sampleRuntime)))) :=
  [("week46", [("Monday", [("1700000000000", [samplePerformance])])])].

(** A session of the first day: Monday is opened, the squat is added and an
    effort is recorded for it, then the week view is opened. *)
Definition sampleSession : list event :=
  [PressDay "Monday"; PressAdd; ChangeExerciseName "Squat";
   SaveExercise 1700000000000 true;
   PressAddEffort squat; ChangeSets "3"; ChangeReps "5"; ChangeWeight "100";
   ChangeNotes "easy"; SavePerformance 1700000100000 true;
   PressBack; PressPastEffortsTab].

(** The storage that session leaves. *)
Definition sampleStorage : @Storage sampleRuntime :=
  mkStorage (Some sampleProgramV) (Some sampleHistoryV).

(** The read of the program fails. *)
Definition readFails : LoadIO := mkLoadIO false true true true.

(** A stored History in which the squat has an empty entry sequence. *)
Definition sampleEmptyRow : props (props (props (list (@Performance sampleRuntime)))) :=
  [("week46", [("Monday", [("1700000000000", [])])])].

(** * Proofs *)

Section WeekNumber.

(** The argument of [Math.ceil] as one fraction of integers. *)
Lemma week_fraction (now startOfYear startDay : Z) :
  ((inject_Z (now - startOfYear) / 86400000 + inject_Z startDay + 1) / 7 ==
   (now - startOfYear + (startDay + 1) * 86400000) # 604800000)%Q.
Proof.
  unfold Qeq, Qdiv, Qmult, Qplus, Qinv, inject_Z. simpl. lia.
Qed.

Lemma Qceiling_fraction (n : Z) (d : positive) :
  Qceiling (n # d) = (- ((- n) / Zpos d))%Z.
Proof.
  unfold Qceiling, Qfloor. simpl. reflexivity.
Qed.

Lemma getCurrentWeekNumber_div (now startOfYear startDay : Z) :
  getCurrentWeekNumber now startOfYear startDay =
  ((now - startOfYear + (startDay + 1) * 86400000 + 604799999) / 604800000)%Z.
Proof.
  unfold getCurrentWeekNumber. cbv zeta.
  rewrite (Qceiling_comp _ _ (week_fraction now startOfYear startDay)).
  rewrite Qceiling_fraction.
  set (n := (now - startOfYear + (startDay + 1) * 86400000)%Z).
  pose proof (Z.div_mod (- n) 604800000 ltac:(lia)) as E1.
  pose proof (Z.mod_pos_bound (- n) 604800000 ltac:(lia)) as B1.
  apply Z.div_unique with (r := (604799999 - (- n) mod 604800000)%Z); lia.
Qed.

Lemma specWeekNumber_div (d w : Z) :
  specWeekNumber d w = ((d + w + 1 + 6) / 7)%Z.
Proof.
  unfold specWeekNumber.
  assert (E : ((inject_Z d + inject_Z w + 1) / 7 == (d + w + 1) # 7)%Q).
  { unfold Qeq, Qdiv, Qmult, Qplus, Qinv, inject_Z. simpl. lia. }
  rewrite (Qceiling_comp _ _ E), Qceiling_fraction.
  set (n := (d + w + 1)%Z).
  pose proof (Z.div_mod (- n) 7 ltac:(lia)) as E1.
  pose proof (Z.mod_pos_bound (- n) 7 ltac:(lia)) as B1.
  apply Z.div_unique with (r := (6 - (- n) mod 7)%Z); lia.
Qed.

(** C7 (amended): the week number is the ceiling of the formula taken over
    the elapsed time in days as a fraction, not over whole days.  At
    midnight it is the formula over whole days; later in the day it is one
    more than the floor of that quotient.  Any time on a January 1 that is a
    Wednesday is in week 1. *)
Theorem C7_week_number_of_elapsed_time (now startOfYear startDay : Z) :
  let elapsed := (now - startOfYear)%Z in
  let wholeDays := (elapsed / 86400000)%Z in
  let week := getCurrentWeekNumber now startOfYear startDay in
  week = Qceiling ((inject_Z elapsed / 86400000 + inject_Z startDay + 1) / 7)%Q
  /\ (604800000 * (week - 1) < elapsed + (startDay + 1) * 86400000
      <= 604800000 * week)%Z
  /\ ((elapsed mod 86400000 = 0)%Z -> week = specWeekNumber wholeDays startDay)
  /\ ((elapsed mod 86400000 <> 0)%Z ->
      week = ((wholeDays + startDay + 1) / 7 + 1)%Z)
  /\ (startDay = 3%Z -> (0 <= elapsed < 86400000)%Z -> week = 1%Z).
Proof.
  cbv zeta. split; [reflexivity|].
  rewrite getCurrentWeekNumber_div, specWeekNumber_div.
  set (e := (now - startOfYear)%Z).
  pose proof (Z.div_mod e 86400000 ltac:(lia)) as Ee.
  pose proof (Z.mod_pos_bound e 86400000 ltac:(lia)) as Be.
  set (q := (e / 86400000)%Z) in *. set (r := (e mod 86400000)%Z) in *.
  set (n := (e + (startDay + 1) * 86400000 + 604799999)%Z).
  pose proof (Z.div_mod n 604800000 ltac:(lia)) as En.
  pose proof (Z.mod_pos_bound n 604800000 ltac:(lia)) as Bn.
  set (m := (q + startDay + 1)%Z).
  pose proof (Z.div_mod m 7 ltac:(lia)) as Em.
  pose proof (Z.mod_pos_bound m 7 ltac:(lia)) as Bm.
  repeat split.
  - lia.
  - lia.
  - intros Hr. symmetry.
    apply Z.div_unique with (r := ((m + 6) mod 7 * 86400000 + 86399999)%Z).
    + pose proof (Z.mod_pos_bound (m + 6) 7 ltac:(lia)). lia.
    + pose proof (Z.div_mod (m + 6) 7 ltac:(lia)). unfold n, m in *. lia.
  - intros Hr. symmetry.
    apply Z.div_unique with (r := (m mod 7 * 86400000 + r - 1)%Z).
    + lia.
    + unfold n, m in *. lia.
  - intros -> Hb. symmetry. apply Z.div_unique with (r := (e + 4 * 86400000 - 1)%Z); unfold n; lia.
Qed.

End WeekNumber.

Section Dictionaries.
Context {A : Type}.
Implicit Types (o : props A) (k : string).

Lemma prop_get_Some k o v : prop_get k o = Some v -> (k, v) ∈ o.
Proof.
  induction o as [|[k' v'] o IH]; simpl; [done|].
  destruct (String.eqb_spec k' k) as [->|Hne].
  - intros [= ->]. left.
  - intros H. right. auto.
Qed.

Lemma prop_get_None k o : prop_get k o = None <-> k ∉ keys o.
Proof.
  unfold keys. induction o as [|[k' v'] o IH]; simpl.
  - split; [intros _; apply not_elem_of_nil | done].
  - rewrite not_elem_of_cons. destruct (String.eqb_spec k' k) as [->|Hne].
    + split; [done | intros [? _]; done].
    + rewrite IH. split; [intros ?; split; [congruence|done] | intros [_ ?]; done].
Qed.

Lemma prop_get_keys k o : k ∈ keys o -> is_Some (prop_get k o).
Proof.
  intros Hk. destruct (prop_get k o) eqn:E; [eauto|].
  apply prop_get_None in E. done.
Qed.

Lemma prop_get_is_Some k o : is_Some (prop_get k o) -> k ∈ keys o.
Proof.
  intros [v Hv]. apply prop_get_Some in Hv.
  unfold keys. apply list_elem_of_fmap. exists (k, v). done.
Qed.

End Dictionaries.

Section SortOrder.

Lemma ascii_compare_trans_le (a b c : ascii) :
  Ascii.compare a b <> Gt -> Ascii.compare b c <> Gt -> Ascii.compare a c <> Gt.
Proof.
  unfold Ascii.compare. rewrite !N.compare_le_iff. lia.
Qed.

Lemma ascii_compare_Eq (a b : ascii) : Ascii.compare a b = Eq -> a = b.
Proof. apply Ascii.compare_eq_iff. Qed.

Lemma ascii_compare_Lt_trans (a b c : ascii) :
  Ascii.compare a b = Lt -> Ascii.compare b c = Lt -> Ascii.compare a c = Lt.
Proof. unfold Ascii.compare. rewrite !N.compare_lt_iff. lia. Qed.

Lemma string_compare_trans_le (s1 s2 s3 : string) :
  String.compare s1 s2 <> Gt -> String.compare s2 s3 <> Gt ->
  String.compare s1 s3 <> Gt.
Proof.
  revert s2 s3. induction s1 as [|c1 s1 IH]; intros [|c2 s2] [|c3 s3]; simpl; try done.
  destruct (Ascii.compare c1 c2) eqn:E12; try done;
  destruct (Ascii.compare c2 c3) eqn:E23; try done.
  - apply ascii_compare_Eq in E12, E23. subst.
    assert (Ascii.compare c3 c3 = Eq) as ->
      by (unfold Ascii.compare; apply N.compare_refl).
    apply IH.
  - apply ascii_compare_Eq in E12. subst. rewrite E23. done.
  - apply ascii_compare_Eq in E23. subst. rewrite E12. done.
  - rewrite (ascii_compare_Lt_trans _ _ _ E12 E23). done.
Qed.

#[local] Instance str_le_trans : Transitive str_le.
Proof.
  intros s1 s2 s3. unfold str_le, String.leb. intros H12 H23.
  pose proof (string_compare_trans_le s1 s2 s3) as H.
  destruct (String.compare s1 s2); try done;
  destruct (String.compare s2 s3); try done;
  destruct (String.compare s1 s3); try done; exfalso; apply H; done.
Qed.

#[local] Instance str_le_total : Total str_le.
Proof. intros s1 s2. apply String.leb_total. Qed.

Lemma StronglySorted_reverse {A} (R : relation A) (l : list A) :
  StronglySorted R l -> StronglySorted (flip R) (reverse l).
Proof.
  induction 1 as [|x l Hl IH Hx]; [constructor|].
  rewrite reverse_cons. apply StronglySorted_app_2.
  - intros x1 x2 H1 H2. apply list_elem_of_singleton in H2 as ->.
    rewrite elem_of_reverse in H1. rewrite Forall_forall in Hx. by apply Hx.
  - done.
  - repeat constructor.
Qed.

(** The weeks are visited from the greatest key down, every key once. *)
Lemma weekKeys_descending (l : list string) :
  reverse (sort l) ≡ₚ l /\ StronglySorted (flip str_le) (reverse (sort l)).
Proof.
  split.
  - rewrite reverse_Permutation. apply merge_sort_Permutation.
  - apply StronglySorted_reverse, StronglySorted_merge_sort; apply _.
Qed.

End SortOrder.

Section LastPerformance.
Context `{B : Builtins}.
Implicit Types (history : HistoryV) (week : WeekHistoryV).

Lemma find_app {X} (f : X -> bool) (l1 l2 : list X) :
  List.find f (l1 ++ l2) =
  match List.find f l1 with Some x => Some x | None => List.find f l2 end.
Proof. induction l1 as [|x l1 IH]; simpl; [done|]. destruct (f x); done. Qed.

(** The inner loop returns the last entry of the first day that has
    entries. *)
Lemma scanDays_find week exerciseId dayKeys :
  (forall d, d ∈ dayKeys -> is_Some (prop_get d week)) ->
  scanDays week exerciseId dayKeys =
  Ret (match List.find (fun d => (0 <? List.length (entriesIn week d exerciseId))%nat)
               dayKeys with
       | Some d => last (entriesIn week d exerciseId)
       | None => None
       end).
Proof.
  induction dayKeys as [|d ds IH]; intros Hin; [done|].
  destruct (Hin d) as [day Hday]; [left|].
  assert (IH' := IH (fun d' Hd' => Hin d' (list_elem_of_further _ _ _ Hd'))).
  assert (He : entriesIn week d exerciseId = default [] (prop_get exerciseId day)).
  { unfold entriesIn. by rewrite Hday. }
  cbn [scanDays List.find]. rewrite Hday. cbn [defined mbind res_bind].
  destruct (prop_get exerciseId day) as [perfs|] eqn:Hp.
  - change (default [] (Some perfs)) with perfs in He.
    destruct (0 <? List.length perfs)%nat eqn:Hlen; rewrite He, Hlen;
      [by rewrite He | apply IH'].
  - change (default [] None) with (@nil Performance) in He. rewrite He. apply IH'.
Qed.

Lemma find_pairs history exerciseId w week (ds : list string) :
  prop_get w history = Some week ->
  List.find (hasEntries history exerciseId) (d ← ds; [(w, d)]) =
  (fun d => (w, d)) <$>
    List.find (fun d => (0 <? List.length (entriesIn week d exerciseId))%nat) ds.
Proof.
  intros Hw. induction ds as [|d ds IH]; [done|].
  rewrite bind_cons. cbn [app List.find].
  unfold hasEntries at 1, entriesOf. cbn [fst snd]. rewrite Hw.
  change (default [] (Some week)) with week.
  destruct (0 <? _)%nat; [done|]. apply IH.
Qed.

Lemma scanWeeks_find history exerciseId weekKeys :
  (forall w, w ∈ weekKeys -> is_Some (prop_get w history)) ->
  scanWeeks history exerciseId weekKeys =
  Ret (match List.find (hasEntries history exerciseId)
               (w ← weekKeys; d ← keys (default [] (prop_get w history)); [(w, d)]) with
       | Some wd => last (entriesOf history wd.1 wd.2 exerciseId)
       | None => None
       end).
Proof.
  induction weekKeys as [|w ws IH]; intros Hin; [done|].
  destruct (Hin w) as [week Hweek]; [left|].
  assert (IH' := IH (fun w' Hw' => Hin w' (list_elem_of_further _ _ _ Hw'))).
  cbn [scanWeeks]. rewrite Hweek. cbn [defined mbind res_bind].
  rewrite scanDays_find by (intros d Hd; by apply prop_get_keys).
  cbn [mbind res_bind].
  rewrite bind_cons, find_app, Hweek.
  change (default [] (Some week)) with week.
  rewrite (find_pairs _ _ _ _ _ Hweek).
  destruct (List.find _ (keys week)) as [d|] eqn:Hfind; cbn [fmap option_fmap option_map].
  - unfold entriesOf. cbn [fst snd]. rewrite Hweek.
    change (default [] (Some week)) with week.
    apply find_some in Hfind as [_ Hlen].
    destruct (entriesIn week d exerciseId) as [|p ps] eqn:Hd; [done|].
    destruct (last (p :: ps)) eqn:Hlast; [done|].
    apply last_None in Hlast. done.
  - apply IH'.
Qed.

(** C1: [getLastPerformance] visits the week keys from the greatest string
    down (so "week3" comes before "week12"), the day keys of each week in
    the order of [Object.keys], and returns the last entry of the first
    (week, day) pair that has entries for the exercise; it returns [null]
    exactly when no week and day hold an entry for it. *)
Theorem C1_getLastPerformance_scan_order (history : HistoryV) (exerciseId : string) :
  let weekKeys := reverse (sort (keys history)) in
  weekKeys ≡ₚ keys history
  /\ StronglySorted (flip str_le) weekKeys
  /\ scanOrder history = (w ← weekKeys; d ← keys (default [] (prop_get w history)); [(w, d)])
  /\ getLastPerformance history exerciseId = Ret (queryLastPerformance history exerciseId)
  /\ (queryLastPerformance history exerciseId = None <->
      forall w d, entriesOf history w d exerciseId = [])
  /\ reverse (sort ["week3"; "week12"]) = ["week3"; "week12"]
  /\ reverse (sort ["week12"; "week3"]) = ["week3"; "week12"].
Proof.
  cbv zeta. destruct (weekKeys_descending (keys history)) as [Hperm Hsorted].
  assert (Hkeys : forall w, w ∈ reverse (sort (keys history)) ->
                            is_Some (prop_get w history)).
  { intros w Hw. apply prop_get_keys. by rewrite <- Hperm. }
  split_and!; try done.
  - unfold getLastPerformance. cbv zeta. by rewrite scanWeeks_find.
  - unfold queryLastPerformance. fold (scanOrder history). split.
    + intros Hnone w d.
      destruct (List.find _ (scanOrder history)) as [wd|] eqn:Hfind.
      * apply find_some in Hfind as [_ Hlen]. unfold hasEntries in Hlen.
        apply last_None in Hnone. rewrite Hnone in Hlen. done.
      * destruct (entriesOf history w d exerciseId) as [|p ps] eqn:He; [done|].
        exfalso.
        assert (Hin : In (w, d) (scanOrder history)).
        { unfold entriesOf, entriesIn in He.
          destruct (prop_get w history) as [week|] eqn:Hw; [|done].
          change (default [] (Some week)) with week in He.
          destruct (prop_get d week) as [day|] eqn:Hd; [|done].
          apply list_elem_of_In. unfold scanOrder.
          apply list_elem_of_bind. exists w. split.
          - apply list_elem_of_bind. exists d. rewrite Hw. cbn [default]. split; [left|].
            apply prop_get_is_Some. eauto.
          - rewrite Hperm. apply prop_get_is_Some. eauto. }
        pose proof (find_none _ _ Hfind _ Hin) as Hf.
        unfold hasEntries in Hf. cbn [fst snd] in Hf. rewrite He in Hf. done.
    + intros Hall. destruct (List.find _ (scanOrder history)) as [wd|]; [|done].
      by rewrite Hall.
Qed.

End LastPerformance.

Section WeekSummary.
Context `{B : Builtins}.
Implicit Types (history : HistoryV) (program : ProgramV) (week : WeekHistoryV)
  (dayData : DayHistoryV).

Lemma exerciseNameOf_resolved program day i :
  exerciseNameOf program day i = resolvedName program day i.
Proof.
  unfold exerciseNameOf, resolvedName, truthy.
  destruct (prop_get day program) as [exercises|]; simpl; [|done].
  destruct (List.find _ exercises) as [ex|]; simpl; [|done].
  by destruct (String.eqb (name ex) "").
Qed.

Lemma renderRow_last program day dayData i perfs p :
  prop_get i dayData = Some perfs -> last perfs = Some p ->
  renderRow program day dayData i = Ret (exerciseNameOf program day i, p).
Proof. intros Hget Hlast. unfold renderRow. by rewrite Hget; cbn; rewrite Hlast. Qed.

Lemma mapR_rows program day dayData (ids : list string) :
  (forall i, i ∈ ids -> exists perfs, prop_get i dayData = Some perfs /\ perfs <> []) ->
  exists rows,
    mapR (renderRow program day dayData) ids = Ret rows
    /\ (fun r : Row => (r.1, Some r.2)) <$> rows =
       (fun i => (resolvedName program day i,
                  last (default [] (prop_get i dayData)))) <$> ids.
Proof.
  induction ids as [|i ids IH]; intros Hids.
  - by exists [].
  - destruct (Hids i) as (perfs & Hget & Hne); [left|].
    destruct IH as (rows & Hrows & Heq).
    { intros j Hj. apply Hids. by right. }
    destruct (last perfs) as [p|] eqn:Hlast; [|by apply last_None in Hlast].
    exists ((exerciseNameOf program day i, p) :: rows). split.
    + cbn [mapR]. rewrite (renderRow_last _ _ _ _ _ _ Hget Hlast), Hrows. done.
    + rewrite !fmap_cons, Heq, Hget. cbn [fst snd].
      change (default [] (Some perfs)) with perfs.
      by rewrite Hlast, exerciseNameOf_resolved.
Qed.

Lemma keys_nil {A} (o : props A) : keys o = [] -> o = [].
Proof. by destruct o. Qed.

Lemma renderDay_summary history program weekKey week day :
  prop_get weekKey history = Some week ->
  sequencesNonEmpty history weekKey ->
  exists child,
    renderDay program week day = Ret child
    /\ (fun s : DaySection => (s.1, (fun r : Row => (r.1, Some r.2)) <$> s.2)) <$> child =
       summaryOfDay history program weekKey day.
Proof.
  intros Hweek Hne. unfold renderDay, summaryOfDay.
  rewrite Hweek. cbn [mbind option_bind].
  destruct (prop_get day week) as [dayData|] eqn:Hday.
  - change (default [] (Some dayData)) with dayData.
    destruct (keys dayData) as [|i ids] eqn:Hkeys.
    + by exists None.
    + cbn [List.length Nat.eqb].
      destruct (mapR_rows program day dayData (i :: ids)) as (rows & Hrows & Heq).
      { intros j Hj. rewrite <- Hkeys in Hj.
        destruct (prop_get_keys _ _ Hj) as [perfs Hperfs]. exists perfs. split; [done|].
        apply (Hne week Hweek day dayData (j, perfs)).
        - by apply prop_get_Some.
        - by apply prop_get_Some. }
      exists (Some (day, rows)). rewrite Hrows. split; [done|].
      cbn [fmap option_fmap option_map fst snd]. rewrite Heq. do 2 f_equal.
      apply list_fmap_ext. intros _ j _. unfold entriesOf, entriesIn.
      rewrite Hweek. change (default [] (Some week)) with week. by rewrite Hday.
  - by exists None.
Qed.

Lemma mapR_days history program weekKey week (days : list string) :
  prop_get weekKey history = Some week ->
  sequencesNonEmpty history weekKey ->
  exists children,
    mapR (renderDay program week) days = Ret children
    /\ (fun s : DaySection => (s.1, (fun r : Row => (r.1, Some r.2)) <$> s.2)) <$>
         omap (fun c => c) children =
       omap (summaryOfDay history program weekKey) days.
Proof.
  intros Hweek Hne. induction days as [|d ds (children & Hch & Heq)].
  - by exists [].
  - destruct (renderDay_summary history program weekKey week d Hweek Hne)
      as (child & Hchild & Hsum).
    exists (child :: children). cbn [mapR]. rewrite Hchild, Hch. split; [done|].
    cbn [omap list_omap]. rewrite <- Hsum, <- Heq. by destruct child.
Qed.

Lemma summaryOfDay_is_Some history program weekKey day :
  is_Some (summaryOfDay history program weekKey day) <->
  exists week dayData, prop_get weekKey history = Some week
    /\ prop_get day week = Some dayData /\ keys dayData <> [].
Proof.
  unfold summaryOfDay. split.
  - destruct (prop_get weekKey history) as [week|] eqn:Hw; simpl; [|by intros [? ?]].
    destruct (prop_get day week) as [dayData|] eqn:Hd; simpl; [|by intros [? ?]].
    destruct (keys dayData) eqn:Hk; [by intros [? ?]|].
    intros _. exists week, dayData. rewrite Hk. split_and!; done.
  - intros (week & dayData & -> & Hd & Hk). cbn [mbind option_bind]. rewrite Hd.
    change (default [] (Some dayData)) with dayData.
    destruct (keys dayData); [done|eauto].
Qed.

(** C9: the week view shows, weekday by weekday, a section for every day
    that has recorded exercise ids under the week's key and none for the
    other days; a section lists each recorded id under the name it has in
    the program's list for that day (the placeholder when the list has no
    such exercise) next to the last entry of the id's sequence for that
    day. *)
Theorem C9_week_summary (history : HistoryV) (program : ProgramV) (currentWeek : Z) :
  sequencesNonEmpty history (weekKeyOf currentWeek) ->
  exists view,
    renderWeekHistory history program currentWeek = Ret view
    /\ (fun s : DaySection => (s.1, (fun r : Row => (r.1, Some r.2)) <$> s.2)) <$>
         sections view = queryWeekSummary history program currentWeek
    /\ (forall day, day ∈ (sections view).*1 <->
          day ∈ weekdays /\
          exists week dayData,
            prop_get (weekKeyOf currentWeek) history = Some week
            /\ prop_get day week = Some dayData /\ keys dayData <> [])
    /\ (forall day i ex,
          List.find (fun ex => String.eqb (id ex) i)
                    (default [] (prop_get day program)) = Some ex ->
          name ex <> "" -> resolvedName program day i = name ex)
    /\ (forall day i,
          List.find (fun ex => String.eqb (id ex) i)
                    (default [] (prop_get day program)) = None ->
          resolvedName program day i = "Unknown Exercise").
Proof.
  intros Hne.
  assert (Hview : exists view,
    renderWeekHistory history program currentWeek = Ret view
    /\ (fun s : DaySection => (s.1, (fun r : Row => (r.1, Some r.2)) <$> s.2)) <$>
         sections view = queryWeekSummary history program currentWeek).
  { unfold renderWeekHistory, queryWeekSummary. cbv zeta.
    destruct (prop_get (weekKeyOf currentWeek) history) as [week|] eqn:Hweek.
    - destruct (mapR_days history program _ week weekdays Hweek Hne)
        as (children & Hch & Heq).
      exists (HistoryContainer children). rewrite Hch. done.
    - exists EmptyState. split; [done|]. cbn [sections fmap list_fmap].
      symmetry. generalize weekdays. intros l. induction l as [|d l IH]; [done|].
      cbn [omap list_omap]. unfold summaryOfDay at 1. rewrite Hweek. done. }
  destruct Hview as (view & Hrun & Hsum). exists view. split_and!; [done|done|..].
  - intros day.
    assert (Hfst : (sections view).*1 =
                   (queryWeekSummary history program currentWeek).*1).
    { rewrite <- Hsum, <- list_fmap_compose. done. }
    rewrite Hfst. unfold queryWeekSummary. rewrite list_elem_of_fmap. split.
    + intros ([d rows] & -> & Hin). apply list_elem_of_omap in Hin as (d' & Hd' & Hs).
      assert (d = d') as <-.
      { unfold summaryOfDay in Hs. destruct (keys _); [done|]. by injection Hs. }
      split; [done|]. cbn [fst].
      apply (summaryOfDay_is_Some history program (weekKeyOf currentWeek) d). eauto.
    + intros [Hd Hex].
      apply (summaryOfDay_is_Some history program (weekKeyOf currentWeek) day) in Hex
        as [[d rows] Hs].
      exists (d, rows). split.
      * unfold summaryOfDay in Hs. destruct (keys _); [done|]. by injection Hs.
      * apply list_elem_of_omap. eauto.
  - intros day i ex Hfind Hname. unfold resolvedName. rewrite Hfind.
    destruct (String.eqb_spec (name ex) ""); done.
  - intros day i Hfind. unfold resolvedName. by rewrite Hfind.
Qed.

End WeekSummary.

Section HeapFrames.
Context `{B : Builtins}.
Implicit Types (h : heap) (l n : loc) (fp : list loc).

Lemma keeps_app fp1 fp2 h h' :
  keeps (fp1 ++ fp2) h h' <-> keeps fp1 h h' /\ keeps fp2 h h'.
Proof.
  unfold keeps. split.
  - intros H. split; intros l c Hl; apply H; set_solver.
  - intros [H1 H2] l c Hl. apply elem_of_app in Hl as [Hl|Hl]; eauto.
Qed.

Lemma keeps_cons l fp h h' :
  keeps (l :: fp) h h' <-> keeps [l] h h' /\ keeps fp h h'.
Proof. apply (keeps_app [l] fp). Qed.

Lemma keeps_subseteq fp fp' h h' : fp' ⊆ fp -> keeps fp h h' -> keeps fp' h h'.
Proof. unfold keeps. intros Hsub H l c Hl. apply H. by apply Hsub. Qed.

Lemma keepsOutside_keeps fp0 fp h h' :
  keepsOutside fp0 h h' -> (forall x, x ∈ fp -> x ∉ fp0) -> keeps fp h h'.
Proof. unfold keeps, keepsOutside. intros H Hd l c Hl. apply H. by apply Hd. Qed.

Lemma keepsOutside_refl fp h : keepsOutside fp h h.
Proof. by intros l c _. Qed.

Lemma keepsOutside_alloc fp h c : keepsOutside fp h (h ++ [c]).
Proof. intros l x _ Hl. by apply lookup_app_l_Some. Qed.

Lemma keepsOutside_insert fp h l c : l ∈ fp -> keepsOutside fp h (<[l := c]> h).
Proof.
  intros Hl x c' Hx Hget. rewrite list_lookup_insert_ne; [done|]. by intros ->.
Qed.

Lemma keepsOutside_trans fp1 fp2 h1 h2 h3 :
  keepsOutside fp1 h1 h2 -> keepsOutside fp2 h2 h3 ->
  keepsOutside (fp1 ++ fp2) h1 h3.
Proof.
  intros H1 H2 l c Hl Hget. apply not_elem_of_app in Hl as [Hl1 Hl2]. eauto.
Qed.

Lemma keepsOutside_weaken fp fp' h h' :
  (forall x, x ∈ fp -> x ∈ fp') -> keepsOutside fp h h' -> keepsOutside fp' h h'.
Proof. intros Hsub H l c Hl. apply H. intros Hx. apply Hl. by apply Hsub. Qed.

Lemma load_Some {A} (as_ : cell -> option A) h l v :
  load as_ h l = Some v <-> exists c, h !! l = Some c /\ as_ c = Some v.
Proof.
  unfold load. destruct (h !! l) as [c|]; simpl.
  - split; [eauto | by intros (c' & [= <-] & ?)].
  - split; [done | by intros (c' & ? & ?)].
Qed.

Lemma load_keeps {A} (as_ : cell -> option A) h h' l v :
  load as_ h l = Some v -> keeps [l] h h' -> load as_ h' l = Some v.
Proof.
  rewrite !load_Some. intros (c & Hc & Hv) Hk. exists c. split; [|done].
  apply Hk; [left | done].
Qed.

Lemma load_lt {A} (as_ : cell -> option A) h l v :
  load as_ h l = Some v -> l < List.length h.
Proof. rewrite load_Some. intros (c & Hc & _). by apply lookup_lt_Some in Hc. Qed.

Lemma load_alloc {A} (as_ : cell -> option A) h c :
  load as_ (h ++ [c]) (List.length h) = as_ c.
Proof. unfold load. by rewrite list_lookup_middle. Qed.

Lemma load_insert {A} (as_ : cell -> option A) h l c :
  l < List.length h -> load as_ (<[l := c]> h) l = as_ c.
Proof. intros Hl. unfold load. by rewrite list_lookup_insert_eq. Qed.

(** *** Reading the properties of an object *)

Lemma readProps_cons {A} (f : loc -> option (A * list loc)) k l ps V fp :
  readProps f ((k, l) :: ps) = Some (V, fp) <->
  exists v fl V' fs, f l = Some (v, fl) /\ readProps f ps = Some (V', fs)
    /\ V = (k, v) :: V' /\ fp = fl ++ fs.
Proof.
  cbn [readProps]. destruct (f l) as [[v fl]|]; cbn.
  - destruct (readProps f ps) as [[V' fs]|]; cbn.
    + split.
      * intros [= <- <-]. by exists v, fl, V', fs.
      * intros (? & ? & ? & ? & [= <- <-] & [= <- <-] & -> & ->). done.
    + split; [done | by intros (? & ? & ? & ? & _ & ? & _)].
  - split; [done | by intros (? & ? & ? & ? & ? & _)].
Qed.

Lemma readProps_keys {A} (f : loc -> option (A * list loc)) ps V fp :
  readProps f ps = Some (V, fp) -> keys V = keys ps.
Proof.
  revert V fp. induction ps as [|[k l] ps IH]; intros V fp.
  - by intros [= <- <-].
  - rewrite readProps_cons. intros (v & fl & V' & fs & _ & Hps & -> & ->).
    unfold keys in *. cbn. f_equal. eauto.
Qed.

Lemma readProps_ext {A} (f f' : loc -> option (A * list loc)) ps V fp :
  readProps f ps = Some (V, fp) ->
  (forall l v fl, f l = Some (v, fl) -> fl ⊆ fp -> f' l = Some (v, fl)) ->
  readProps f' ps = Some (V, fp).
Proof.
  revert V fp. induction ps as [|[k l] ps IH]; intros V fp; [done|].
  rewrite !readProps_cons. intros (v & fl & V' & fs & Hl & Hps & -> & ->) Hf.
  exists v, fl, V', fs. split_and!; try done.
  - apply Hf; [done | set_solver].
  - apply IH; [done|]. intros l' v' fl' Hl' Hsub. apply Hf; [done | set_solver].
Qed.

(** A property of the object and the value its child denotes. *)
Lemma readProps_get {A} (f : loc -> option (A * list loc)) ps V fp k :
  readProps f ps = Some (V, fp) ->
  match prop_get k ps with
  | Some c => exists v fc, prop_get k V = Some v /\ f c = Some (v, fc) /\ fc ⊆ fp
  | None => prop_get k V = None
  end.
Proof.
  revert V fp. induction ps as [|[k' l] ps IH]; intros V fp.
  - by intros [= <- <-].
  - rewrite readProps_cons. intros (v & fl & V' & fs & Hl & Hps & -> & ->).
    cbn [prop_get]. destruct (String.eqb k' k).
    + exists v, fl. split_and!; [done | done | set_solver].
    + specialize (IH _ _ Hps). destruct (prop_get k ps); [|done].
      destruct IH as (v' & fc & ? & ? & ?). exists v', fc. split_and!; [done|done|set_solver].
Qed.

Lemma readProps_valid {A} (f : loc -> option (A * list loc)) ps V fp (P : loc -> Prop) :
  readProps f ps = Some (V, fp) ->
  (forall l v fl x, f l = Some (v, fl) -> x ∈ fl -> P x) ->
  forall x, x ∈ fp -> P x.
Proof.
  revert V fp. induction ps as [|[k l] ps IH]; intros V fp.
  - intros [= <- <-] _ x Hx. by apply elem_of_nil in Hx.
  - rewrite readProps_cons. intros (v & fl & V' & fs & Hl & Hps & -> & ->) Hf x Hx.
    apply elem_of_app in Hx as [Hx|Hx]; eauto.
Qed.

(** The same for the elements of an array. *)
Lemma readList_cons {A} (f : loc -> option (A * list loc)) l ls V fp :
  readList f (l :: ls) = Some (V, fp) <->
  exists v fl V' fs, f l = Some (v, fl) /\ readList f ls = Some (V', fs)
    /\ V = v :: V' /\ fp = fl ++ fs.
Proof.
  cbn [readList]. destruct (f l) as [[v fl]|]; cbn.
  - destruct (readList f ls) as [[V' fs]|]; cbn.
    + split.
      * intros [= <- <-]. by exists v, fl, V', fs.
      * intros (? & ? & ? & ? & [= <- <-] & [= <- <-] & -> & ->). done.
    + split; [done | by intros (? & ? & ? & ? & _ & ? & _)].
  - split; [done | by intros (? & ? & ? & ? & ? & _)].
Qed.

Lemma readList_exercises h ls es fp :
  readList (readExercise h) ls = Some (es, fp) <->
  Forall2 (fun l e => load asExercise h l = Some e) ls es /\ fp = ls.
Proof.
  revert es fp. induction ls as [|l ls IH]; intros es fp.
  - cbn. split.
    + intros [= <- <-]. split; [constructor | done].
    + intros [H ->]. by inversion H.
  - rewrite readList_cons. split.
    + intros (v & fl & V' & fs & Hl & Hls & -> & ->).
      apply IH in Hls as [HF ->]. unfold readExercise in Hl.
      destruct (load asExercise h l) as [e|] eqn:He; [|done].
      injection Hl as <- <-. split; [by constructor | done].
    + intros [HF ->]. inversion HF as [|? e ? es' He HF']; subst.
      exists e, [l], es', ls. split_and!; try done.
      * unfold readExercise. by rewrite He.
      * by apply IH.
Qed.

Lemma readExercises_Some h a es fp :
  readExercises h a = Some (es, fp) <->
  exists ls, load asExercises h a = Some ls
    /\ Forall2 (fun l e => load asExercise h l = Some e) ls es /\ fp = a :: ls.
Proof.
  unfold readExercises. destruct (load asExercises h a) as [ls|]; cbn.
  - split.
    + destruct (readList (readExercise h) ls) as [[es' fp']|] eqn:Hr; [|done].
      apply readList_exercises in Hr as [HF ->]. cbn. intros [= <- <-]. eauto.
    + intros (ls' & [= <-] & HF & ->).
      assert (readList (readExercise h) ls = Some (es, ls)) as ->
        by by apply readList_exercises.
      done.
  - split; [done | by intros (? & ? & _)].
Qed.

End HeapFrames.

Section Readers.
Context `{B : Builtins}.
Implicit Types (h : heap) (l n : loc) (fp : list loc).

#[global] Instance readExercise_framed : Framed readExercise.
Proof.
  split.
  - intros h h' l v fp. unfold readExercise.
    destruct (load asExercise h l) as [e|] eqn:He; [|done]. cbn. intros [= <- <-] Hk.
    by rewrite (load_keeps _ _ _ _ _ He Hk).
  - intros h l v fp x. unfold readExercise.
    destruct (load asExercise h l) as [e|] eqn:He; [|done]. cbn. intros [= <- <-] Hx.
    apply list_elem_of_singleton in Hx as ->. by eapply load_lt.
Qed.

#[global] Instance readPerformances_framed : Framed readPerformances.
Proof.
  split.
  - intros h h' l v fp. unfold readPerformances.
    destruct (load asPerformances h l) as [e|] eqn:He; [|done]. cbn. intros [= <- <-] Hk.
    by rewrite (load_keeps _ _ _ _ _ He Hk).
  - intros h l v fp x. unfold readPerformances.
    destruct (load asPerformances h l) as [e|] eqn:He; [|done]. cbn. intros [= <- <-] Hx.
    apply list_elem_of_singleton in Hx as ->. by eapply load_lt.
Qed.

Lemma Forall2_load_keeps {A} (as_ : cell -> option A) h h' (ls : list loc) (vs : list A) :
  Forall2 (fun l v => load as_ h l = Some v) ls vs -> keeps ls h h' ->
  Forall2 (fun l v => load as_ h' l = Some v) ls vs.
Proof.
  induction 1 as [|l v ls vs Hl HF IH]; intros Hk; constructor.
  - eapply load_keeps; [done|]. apply keeps_cons in Hk. tauto.
  - apply IH. apply keeps_cons in Hk. tauto.
Qed.

#[global] Instance readExercises_framed : Framed readExercises.
Proof.
  split.
  - intros h h' a es fp. rewrite !readExercises_Some.
    intros (ls & Hls & HF & ->) Hk. apply keeps_cons in Hk as [Ha Hk].
    exists ls. split_and!; [by eapply load_keeps | | done].
    by eapply Forall2_load_keeps.
  - intros h a es fp x. rewrite readExercises_Some. intros (ls & Hls & HF & ->) Hx.
    apply elem_of_cons in Hx as [->|Hx]; [by eapply load_lt|].
    apply list_elem_of_lookup in Hx as [i Hi].
    destruct (Forall2_lookup_l _ _ _ _ _ HF Hi) as (e & _ & He). by eapply load_lt.
Qed.

Lemma readObj_Some {A} as_ (f : reader A) h n V fp :
  readObj as_ f h n = Some (V, fp) <->
  exists ps fps, load as_ h n = Some ps /\ readProps (f h) ps = Some (V, fps)
    /\ fp = n :: fps.
Proof.
  unfold readObj. split.
  - destruct (load as_ h n) as [ps|] eqn:Hps; [|done]. cbn.
    destruct (readProps (f h) ps) as [[V' fps]|] eqn:Hr; [|done]. cbn.
    intros [= <- <-]. by exists ps, fps.
  - intros (ps & fps & -> & Hr & ->). cbn. by rewrite Hr.
Qed.

#[global] Instance readObj_framed {A} as_ (f : reader A) :
  Framed f -> Framed (readObj as_ f).
Proof.
  intros Hf. split.
  - intros h h' n V fp. rewrite !readObj_Some.
    intros (ps & fps & Hps & Hr & ->) Hk. apply keeps_cons in Hk as [Hn Hk].
    exists ps, fps. split_and!; [by eapply load_keeps | | done].
    eapply readProps_ext; [done|]. intros l v fl Hl Hsub.
    eapply framed_keeps; [done|]. by eapply keeps_subseteq.
  - intros h n V fp x. rewrite readObj_Some. intros (ps & fps & Hps & Hr & ->) Hx.
    apply elem_of_cons in Hx as [->|Hx]; [by eapply load_lt|].
    revert x Hx. eapply readProps_valid; [done|]. intros l v fl x Hl Hx.
    by eapply framed_valid.
Qed.

#[global] Instance readProgram_framed : Framed readProgram := _.
#[global] Instance readDay_framed : Framed readDay := _.
#[global] Instance readWeek_framed : Framed readWeek := _.
#[global] Instance readHistory_framed : Framed readHistory := _.

End Readers.

Section Updates.
Context `{B : Builtins}.
Implicit Types (h : heap) (l n : loc) (fp : list loc).

Lemma prop_set_same {A} k (v : A) (o : props A) :
  prop_get k o = Some v -> prop_set k v o = o.
Proof.
  induction o as [|[k' v'] o IH]; cbn; [done|].
  destruct (String.eqb k' k); [by intros [= ->] | intros ?; f_equal; auto].
Qed.

Lemma prop_get_set {A} k k' (v : A) (o : props A) :
  prop_get k' (prop_set k v o) = if String.eqb k k' then Some v else prop_get k' o.
Proof.
  induction o as [|[k0 v0] o IH]; cbn.
  - by destruct (String.eqb k k').
  - destruct (String.eqb_spec k0 k) as [->|Hne]; cbn.
    + by destruct (String.eqb k k').
    + rewrite IH. destruct (String.eqb_spec k0 k') as [->|Hne'];
        destruct (String.eqb_spec k k'); congruence.
Qed.

Lemma readProps_child {A} (f : loc -> option (A * list loc)) ps V fp k c :
  readProps f ps = Some (V, fp) -> prop_get k ps = Some c ->
  exists v fc pre post,
    prop_get k V = Some v /\ f c = Some (v, fc) /\ fp = pre ++ fc ++ post.
Proof.
  revert V fp. induction ps as [|[k' l] ps IH]; intros V fp; [done|].
  rewrite readProps_cons. intros (v & fl & V' & fs & Hl & Hps & -> & ->).
  cbn [prop_get]. destruct (String.eqb k' k).
  - intros [= <-]. by exists v, fl, [], fs.
  - intros Hk. destruct (IH _ _ Hps Hk) as (v' & fc & pre & post & ? & ? & ->).
    exists v', fc, (fl ++ pre), post. by rewrite <- app_assoc.
Qed.

(** The value of one property changes with the tree its child denotes; the
    other children are read as before. *)
Lemma readProps_update {A} (f f' : loc -> option (A * list loc)) (bound : nat)
    ps V fp k c v fc v' fc' :
  readProps f ps = Some (V, fp) -> NoDup fp ->
  (forall x, x ∈ fp -> x < bound) ->
  prop_get k ps = Some c -> f c = Some (v, fc) -> f' c = Some (v', fc') ->
  (forall l w fl, f l = Some (w, fl) -> (forall x, x ∈ fl -> x ∉ fc) ->
                  f' l = Some (w, fl)) ->
  NoDup fc' -> (forall x, x ∈ fc' -> x ∈ fc \/ bound <= x) ->
  exists fp', readProps f' ps = Some (prop_set k v' V, fp') /\ NoDup fp'
    /\ (forall x, x ∈ fp' -> x ∈ fp \/ bound <= x).
Proof.
  intros Hr Hnd Hb Hk Hc Hc' Hframe Hnd' Hgrow.
  revert V fp Hr Hnd Hb Hk. induction ps as [|[k0 c0] ps IH]; intros V fp; [done|].
  rewrite readProps_cons. intros (v0 & f0 & V' & fs & Hc0 & Hps & -> & ->) Hnd Hb.
  apply NoDup_app in Hnd as (Hnd0 & Hdisj & Hnds).
  cbn [prop_get prop_set]. destruct (String.eqb k0 k) eqn:Hk0.
  - intros [= ->]. rewrite Hc in Hc0. injection Hc0 as <- <-.
    exists (fc' ++ fs). split_and!.
    + apply readProps_cons. exists v', fc', V', fs. split_and!; try done.
      eapply readProps_ext; [done|]. intros l w fl Hl Hsub. apply Hframe; [done|].
      intros x Hx Hx'. eapply Hdisj; [done|]. by apply Hsub.
    + apply NoDup_app. split_and!; [done| |done].
      intros x Hx Hxs. destruct (Hgrow x Hx) as [Hx'|Hx'].
      * by eapply Hdisj.
      * assert (x < bound) by (apply Hb; set_solver). lia.
    + intros x Hx. apply elem_of_app in Hx as [Hx|Hx].
      * destruct (Hgrow x Hx); [left; apply elem_of_app; by left | by right].
      * left. apply elem_of_app. by right.
  - intros Hk.
    destruct (readProps_child _ _ _ _ _ _ Hps Hk) as (v2 & fc2 & pre & post & _ & Hc2 & ->).
    rewrite Hc in Hc2. injection Hc2 as <- <-.
    destruct (IH V' (pre ++ fc ++ post)) as (fp'' & Hr'' & Hnd'' & Hgrow''); try done.
    { intros x Hx. apply Hb. apply elem_of_app. by right. }
    exists (f0 ++ fp''). split_and!.
    + apply readProps_cons. exists v0, f0, (prop_set k v' V'), fp''. split_and!; try done.
      apply Hframe; [done|]. intros x Hx Hx'. eapply Hdisj; [done|]. set_solver.
    + apply NoDup_app. split_and!; [done| |done].
      intros x Hx Hx'. destruct (Hgrow'' x Hx') as [Hx''|Hx''].
      * by eapply Hdisj.
      * assert (x < bound) by (apply Hb; set_solver). lia.
    + intros x Hx. apply elem_of_app in Hx as [Hx|Hx]; [left; set_solver|].
      destruct (Hgrow'' x Hx); [left; set_solver | by right].
Qed.

(** A property the object did not have goes last. *)
Lemma readProps_set_absent {A} (f : loc -> option (A * list loc)) ps V fp k c v fc :
  readProps f ps = Some (V, fp) -> prop_get k ps = None -> f c = Some (v, fc) ->
  readProps f (prop_set k c ps) = Some (prop_set k v V, fp ++ fc).
Proof.
  intros Hr Hk Hc. revert V fp Hr Hk. induction ps as [|[k0 c0] ps IH]; intros V fp.
  - intros [= <- <-] _. cbn. rewrite Hc. cbn. by rewrite app_nil_r.
  - rewrite readProps_cons. intros (v0 & f0 & V' & fs & Hc0 & Hps & -> & ->).
    cbn [prop_get prop_set]. destruct (String.eqb k0 k); [done|]. intros Hk.
    apply readProps_cons. exists v0, f0, (prop_set k v V'), (fs ++ fc).
    split_and!; [done | by apply IH | done | by rewrite app_assoc].
Qed.

(** A property set to another child. *)
Lemma readProps_set {A} (f f' : loc -> option (A * list loc)) ps V fp k c v fc :
  readProps f ps = Some (V, fp) ->
  (forall l w fl, f l = Some (w, fl) -> f' l = Some (w, fl)) ->
  f' c = Some (v, fc) ->
  exists fp', readProps f' (prop_set k c ps) = Some (prop_set k v V, fp').
Proof.
  intros Hr Hf Hc. revert V fp Hr. induction ps as [|[k0 c0] ps IH]; intros V fp.
  - intros [= <- <-]. cbn. rewrite Hc. cbn. eauto.
  - rewrite readProps_cons. intros (v0 & f0 & V' & fs & Hc0 & Hps & -> & ->).
    cbn [prop_set]. destruct (String.eqb k0 k).
    + exists (fc ++ fs). apply readProps_cons. exists v, fc, V', fs.
      split_and!; try done. eapply readProps_ext; [done|]. eauto.
    + destruct (IH _ _ Hps) as [fp' Hfp']. exists (f0 ++ fp').
      apply readProps_cons. exists v0, f0, (prop_set k v V'), fp'.
      split_and!; try done. by apply Hf.
Qed.

(** *** Updates below an object *)

Lemma updates_refl {A} (f : reader A) h l v fp :
  f h l = Some (v, fp) -> updates f h h l v.
Proof.
  intros Hl. exists v, fp, fp. split_and!; try done.
  - apply keepsOutside_refl.
  - intros x Hx. by left.
Qed.

Lemma readObj_lift {A} as_ (f : reader A) `{!Framed f} h h' n ps V fp k c v' :
  readObj as_ f h n = Some (V, fp) -> NoDup fp ->
  load as_ h n = Some ps -> prop_get k ps = Some c ->
  updates f h h' c v' ->
  updates (readObj as_ f) h h' n (prop_set k v' V).
Proof.
  intros Hn Hnd Hps Hk (v & fc & fc' & Hc & Hc' & Hko & Hndc & Hgrow).
  pose proof Hn as Hn0.
  apply readObj_Some in Hn as (ps' & fps & Hps' & Hr & ->).
  rewrite Hps in Hps'. injection Hps' as <-.
  apply NoDup_cons in Hnd as [Hnfps Hndfps].
  destruct (readProps_child _ _ _ _ _ _ Hr Hk) as (v2 & fc2 & pre & post & _ & Hc2 & ->).
  rewrite Hc in Hc2. injection Hc2 as <- <-.
  assert (Hndfc : NoDup fc).
  { apply NoDup_app in Hndfps as (_ & _ & H2). by apply NoDup_app in H2 as (? & _ & _). }
  destruct (readProps_update (f h) (f h') (List.length h) ps V (pre ++ fc ++ post)
              k c v fc v' fc') as (fps' & Hr' & Hnd' & Hgrow'); try done.
  { eapply readProps_valid; [done|]. intros l w fl x Hl Hx. by eapply framed_valid. }
  { intros l w fl Hl Hdisj. eapply framed_keeps; [done|].
    by eapply keepsOutside_keeps. }
  { by apply Hndc. }
  assert (Hnfc : n ∉ fc) by set_solver.
  exists V, (n :: pre ++ fc ++ post), (n :: fps'). split_and!; try done.
  - apply readObj_Some. exists ps, fps'. split_and!; try done.
    eapply load_keeps; [done|]. eapply keepsOutside_keeps; [done|].
    intros x Hx. by apply list_elem_of_singleton in Hx as ->.
  - eapply keepsOutside_weaken; [|done]. set_solver.
  - intros _. apply NoDup_cons. split; [|done]. intros Hx.
    destruct (Hgrow' n Hx) as [?|Hge]; [done|]. apply load_lt in Hps. lia.
  - intros x Hx. apply elem_of_cons in Hx as [->|Hx]; [left; left|].
    destruct (Hgrow' x Hx); [left; by right | by right].
Qed.

(** The shallow copy [{...o}] denotes what [o] denotes. *)
Lemma readObj_copy {A} as_ (f : reader A) `{!Framed f} h n ps V fps c :
  load as_ h n = Some ps -> readProps (f h) ps = Some (V, fps) -> as_ c = Some ps ->
  readObj as_ f (h ++ [c]) (List.length h) = Some (V, List.length h :: fps).
Proof.
  intros Hps Hr Hc. apply readObj_Some. exists ps, fps.
  split_and!; [by rewrite load_alloc | | done].
  eapply readProps_ext; [done|]. intros l v fl Hl _.
  eapply framed_keeps; [done|]. eapply keepsOutside_keeps; [apply (keepsOutside_alloc [])|].
  intros x _. apply not_elem_of_nil.
Qed.

End Updates.

Section Ensure.
Context `{B : Builtins}.
Implicit Types (h : heap) (l n : loc) (fp : list loc).

(** [if (!o[k]) o[k] = empty] followed by the read of [o[k]]: the child
    that is found or created denotes the old value of the property or the
    empty one, and whatever is done to that child afterwards shows in [o]
    under [k]. *)
Lemma ensure_then {A} as_ mk empty (v0 : A) (f : reader A) `{!Framed f} h n V fp k :
  (forall ps, as_ (mk ps) = Some ps) ->
  (forall h0, f (h0 ++ [empty]) (List.length h0) = Some (v0, [List.length h0])) ->
  readObj as_ f h n = Some (V, fp) -> NoDup fp ->
  exists h1 c fc,
    ensureProp as_ mk empty n k h = Ret h1 /\ loadProp as_ n k h1 = Ret c
    /\ f h1 c = Some (default v0 (prop_get k V), fc) /\ NoDup fc
    /\ (forall h2 v', updates f h1 h2 c v' ->
                      updates (readObj as_ f) h h2 n (prop_set k v' V))
    /\ match prop_get k V with
       | Some _ => h1 = h /\ exists ps, load as_ h n = Some ps /\ prop_get k ps = Some c
       | None => c = List.length h /\ fc = [c] /\ keepsOutside [n] h h1
       end.
Proof.
  intros Hmk Hempty Hn Hnd. pose proof Hn as Hn0.
  apply readObj_Some in Hn as (ps & fps & Hps & Hr & ->).
  pose proof (load_lt _ _ _ _ Hps) as Hnlt.
  destruct (prop_get k ps) as [c|] eqn:Hk.
  - (* the property exists *)
    destruct (readProps_child _ _ _ _ _ _ Hr Hk) as (v & fc & pre & post & HkV & Hc & ->).
    exists h, c, fc. rewrite HkV. unfold ensureProp, loadProp. rewrite Hps. cbn.
    rewrite Hk. cbn. split_and!; try done.
    + apply NoDup_cons in Hnd as [_ Hnd].
      apply NoDup_app in Hnd as (_ & _ & H2). by apply NoDup_app in H2 as (? & _ & _).
    + intros h2 v' Hup. by eapply readObj_lift.
    + by exists ps.
  - (* the property is created *)
    pose proof (readProps_get _ _ _ _ k Hr) as HkV. rewrite Hk in HkV.
    set (c := List.length h).
    set (h1 := <[n := mk (prop_set k c ps)]> (h ++ [empty])).
    assert (Hold : forall x, x ∈ fps -> x < List.length h).
    { eapply readProps_valid; [done|]. intros l w fl x Hl Hx. by eapply framed_valid. }
    apply NoDup_cons in Hnd as [Hnfps Hndfps].
    assert (Hk1 : keepsOutside [n] h h1).
    { intros x cx Hx Hget. unfold h1. rewrite list_lookup_insert_ne.
      - by apply lookup_app_l_Some.
      - intros ->. apply Hx. left. }
    assert (Hc1 : f h1 c = Some (v0, [c])).
    { eapply framed_keeps; [apply Hempty|]. intros x cx Hx Hget.
      apply list_elem_of_singleton in Hx as ->. unfold h1.
      rewrite list_lookup_insert_ne; [done | unfold c; lia]. }
    assert (Hload1 : load as_ h1 n = Some (prop_set k c ps)).
    { unfold h1. rewrite load_insert; [done|]. rewrite length_app. lia. }
    exists h1, c, [c]. rewrite HkV. unfold ensureProp, loadProp, storeProp. rewrite Hps. cbn.
    rewrite Hk. cbn [alloc].
    assert (load as_ (h ++ [empty]) n = Some ps) as ->.
    { eapply load_keeps; [done|]. eapply keepsOutside_keeps; [apply (keepsOutside_alloc [])|].
      intros x _. apply not_elem_of_nil. }
    cbn. fold c. fold h1. rewrite Hload1. cbn.
    rewrite prop_get_set, String.eqb_refl. cbn.
    split_and!; try done.
    + apply NoDup_singleton.
    + intros h2 v' (v1 & fc1 & fc' & Hc1' & Hc2 & Hko & Hndc & Hgrow).
      rewrite Hc1 in Hc1'. injection Hc1' as <- <-.
      assert (Hlen1 : List.length h1 = S (List.length h)).
      { unfold h1. rewrite length_insert, length_app. cbn. lia. }
      assert (Hkeep : forall x cx, x <> n -> h !! x = Some cx -> h2 !! x = Some cx).
      { intros x cx Hxn Hget. apply Hko.
        - intros Hx. apply list_elem_of_singleton in Hx as ->.
          apply lookup_lt_Some in Hget. unfold c in Hget. lia.
        - apply Hk1; [|done]. intros Hx. by apply list_elem_of_singleton in Hx. }
      exists V, (n :: fps), (n :: fps ++ fc'). split_and!; try done.
      * apply readObj_Some. exists (prop_set k c ps), (fps ++ fc'). split_and!; try done.
        -- eapply load_keeps; [done|]. eapply keepsOutside_keeps; [done|].
           intros x Hx. apply list_elem_of_singleton in Hx as ->.
           intros Hx. apply list_elem_of_singleton in Hx. unfold c in Hx. lia.
        -- apply readProps_set_absent; [|done|done].
           eapply readProps_ext; [done|]. intros l w fl Hl Hsub.
           eapply framed_keeps; [done|]. intros x cx Hx Hget. apply Hkeep; [|done].
           intros ->. apply Hnfps. by apply Hsub.
      * intros x cx Hx Hget. apply Hkeep; [|done]. intros ->. apply Hx. left.
      * intros _. apply NoDup_cons. split.
        -- intros Hx. apply elem_of_app in Hx as [Hx|Hx]; [done|].
           destruct (Hgrow n Hx) as [Hx'|Hx'].
           ++ apply list_elem_of_singleton in Hx'. unfold c in Hx'. lia.
           ++ lia.
        -- apply NoDup_app. split_and!; [done| |apply Hndc, NoDup_singleton].
           intros x Hx Hx'. apply Hold in Hx. destruct (Hgrow x Hx') as [Hx''|Hx''].
           ++ apply list_elem_of_singleton in Hx''. unfold c in Hx''. lia.
           ++ lia.
      * intros x Hx. apply elem_of_cons in Hx as [->|Hx]; [left; left|].
        apply elem_of_app in Hx as [Hx|Hx]; [left; by right|]. right.
        destruct (Hgrow x Hx) as [Hx'|Hx'].
        -- apply list_elem_of_singleton in Hx'. unfold c in Hx'. lia.
        -- lia.
Qed.

(** [arr.push(p)] on a [Performance[]]. *)
Lemma pushPerformance_updates h a entries fa p :
  readPerformances h a = Some (entries, fa) ->
  exists h', pushPerformance h a p = Ret h'
    /\ updates readPerformances h h' a (entries ++ [p]).
Proof.
  unfold readPerformances, pushPerformance.
  destruct (load asPerformances h a) as [l|] eqn:Hl; [|done]. cbn. intros [= <- <-].
  eexists. split; [done|]. pose proof (load_lt _ _ _ _ Hl) as Hlt.
  exists l, [a], [a]. rewrite Hl, load_insert by done. cbn. split_and!; try done.
  - apply keepsOutside_insert. left.
  - intros x Hx. by left.
Qed.

End Ensure.

Section RecordSteps.
Context `{B : Builtins}.
Implicit Types (h : heap) (l n : loc) (fp : list loc).

Lemma updates_denotes {A} (f : reader A) h h' l v v' :
  denotes f h l v -> updates f h h' l v' -> denotes f h' l v'.
Proof.
  intros (fp & Hl & Hnd) (v1 & fp1 & fp' & Hl1 & Hl' & _ & Hnd' & _).
  rewrite Hl in Hl1. injection Hl1 as <- <-. exists fp'. auto.
Qed.

Lemma denotes_keeps {A} (f : reader A) `{!Framed f} h h' l v :
  denotes f h l v -> (forall x c, x < List.length h -> h !! x = Some c -> h' !! x = Some c) ->
  denotes f h' l v.
Proof.
  intros (fp & Hl & Hnd) Hk. exists fp. split; [|done].
  eapply framed_keeps; [done|]. intros x c Hx Hget. apply Hk; [|done].
  by eapply framed_valid.
Qed.

Lemma readWeek_empty h0 :
  readWeek (h0 ++ [CWeek []]) (List.length h0) = Some ([], [List.length h0]).
Proof. unfold readWeek, readObj. by rewrite load_alloc. Qed.

Lemma readDay_empty h0 :
  readDay (h0 ++ [CDay []]) (List.length h0) = Some ([], [List.length h0]).
Proof. unfold readDay, readObj. by rewrite load_alloc. Qed.

Lemma readPerformances_empty h0 :
  readPerformances (h0 ++ [CPerformances []]) (List.length h0) =
  Some ([], [List.length h0]).
Proof. unfold readPerformances. by rewrite load_alloc. Qed.

(** The statements of [recordPerformance] between the copy of the History
    and the save: the copy ends up denoting the History with the entry
    appended; the object it was copied from denotes the same when it had the
    week already, and what it denoted before when it had not. *)
Lemma record_steps h root V fp wk dk x p :
  readHistory h root = Some (V, fp) -> NoDup fp ->
  exists weeks h1 w h2 d h3 a h4,
    load asHistory h root = Some weeks
    /\ ensureProp asHistory CHistory (CWeek []) (List.length h) wk
                  (h ++ [CHistory weeks]) = Ret h1
    /\ loadProp asHistory (List.length h) wk h1 = Ret w
    /\ ensureProp asWeek CWeek (CDay []) w dk h1 = Ret h2
    /\ loadProp asWeek w dk h2 = Ret d
    /\ ensureProp asDay CDay (CPerformances []) d x h2 = Ret h3
    /\ loadProp asDay d x h3 = Ret a
    /\ pushPerformance h3 a p = Ret h4
    /\ denotes readHistory h4 (List.length h) (recordV wk dk x p V)
    /\ denotes readHistory h4 root
         (match prop_get wk V with Some _ => recordV wk dk x p V | None => V end)
    /\ keepsOutside fp h h4.
Proof.
  intros Hroot Hnd. pose proof Hroot as Hroot0.
  apply readObj_Some in Hroot as (weeks & fps & Hweeks & Hr & ->).
  set (root' := List.length h). set (h0 := h ++ [CHistory weeks]).
  assert (Hvalid : forall y, y ∈ root :: fps -> y < List.length h).
  { intros y Hy. by eapply (framed_valid (f:=readHistory)). }
  assert (Hcopy : readHistory h0 root' = Some (V, root' :: fps)).
  { by eapply (readObj_copy asHistory readWeek). }
  assert (Hndcopy : NoDup (root' :: fps)).
  { apply NoDup_cons in Hnd as [_ Hnd]. apply NoDup_cons. split; [|done].
    intros Hy. assert (root' < List.length h) by (apply Hvalid; by right).
    unfold root' in *. lia. }
  destruct (ensure_then asHistory CHistory (CWeek []) [] readWeek h0 root' V _ wk
              (fun _ => eq_refl) readWeek_empty Hcopy Hndcopy)
    as (h1 & w & fw & E1 & L1 & Hw & Hndw & K1 & M1).
  set (W1 := default [] (prop_get wk V)) in *.
  destruct (ensure_then asWeek CWeek (CDay []) [] readDay h1 w W1 _ dk
              (fun _ => eq_refl) readDay_empty Hw Hndw)
    as (h2 & d & fd & E2 & L2 & Hd & Hndd & K2 & _).
  set (D1 := default [] (prop_get dk W1)) in *.
  destruct (ensure_then asDay CDay (CPerformances []) [] readPerformances h2 d D1 _ x
              (fun _ => eq_refl) readPerformances_empty Hd Hndd)
    as (h3 & a & fa & E3 & L3 & Ha & Hnda & K3 & _).
  destruct (pushPerformance_updates h3 a _ fa p Ha) as (h4 & E4 & Ua).
  pose proof (K2 _ _ (K3 _ _ Ua)) as Uw. pose proof (K1 _ _ Uw) as Ur.
  exists weeks, h1, w, h2, d, h3, a, h4. split_and!; try done.
  - eapply updates_denotes; [|exact Ur]. by exists (root' :: fps).
  - assert (Hroot_h0 : denotes readHistory h0 root V).
    { eapply (denotes_keeps readHistory h); [by exists (root :: fps)|].
      intros y c _ Hy. by apply lookup_app_l_Some. }
    destruct (prop_get wk V) as [W|] eqn:HwkV.
    + destruct M1 as (-> & weeks' & Hweeks' & Hwk).
      unfold h0, root' in Hweeks'. rewrite load_alloc in Hweeks'.
      injection Hweeks' as <-.
      destruct Hroot_h0 as (fp0 & Hroot_h0 & Hnd0).
      eapply updates_denotes; [by exists fp0|].
      eapply (readObj_lift asHistory readWeek); try done.
      * eapply load_keeps; [done|].
        eapply keepsOutside_keeps; [apply (keepsOutside_alloc [])|].
        intros y _. apply not_elem_of_nil.
      * rewrite HwkV. exact Uw.
    + destruct M1 as (Hwfresh & -> & Hk01).
      destruct Uw as (vw & fpw & fpw' & Hw1 & _ & Hk14 & _ & _).
      pose proof (eq_trans (eq_sym Hw) Hw1) as Heq. injection Heq as <- <-.
      eapply (denotes_keeps readHistory h); [by exists (root :: fps)|].
      intros y c Hy Hget. apply Hk14.
      * intros Hyw. apply list_elem_of_singleton in Hyw.
        unfold h0 in Hwfresh. rewrite length_app in Hwfresh. cbn in Hwfresh. lia.
      * apply Hk01.
        -- intros Hyr. apply list_elem_of_singleton in Hyr. unfold root' in Hyr. lia.
        -- by apply lookup_app_l_Some.
  - destruct Ur as (vr & fpr & fpr' & Hr1 & _ & Hk04 & _ & _).
    pose proof (eq_trans (eq_sym Hcopy) Hr1) as Heq. injection Heq as <- <-.
    intros y c Hy Hget. apply Hk04; [|by apply lookup_app_l_Some].
    intros Hy'. apply elem_of_cons in Hy' as [->|Hy'].
    + apply lookup_lt_Some in Hget. unfold root' in Hget. lia.
    + apply Hy. by right.
Qed.

End RecordSteps.

Section Kinds.
Context `{B : Builtins}.
Implicit Types (h : heap) (l n : loc) (fp : list loc).

Lemma readObj_kind {A} (K : cell -> Prop) as_ (f : reader A) :
  (forall c ps, as_ c = Some ps -> K c) -> footprintOf K f ->
  footprintOf K (readObj as_ f).
Proof.
  intros Has Hf h n V fp x. rewrite readObj_Some.
  intros (ps & fps & Hps & Hr & ->) Hx.
  apply elem_of_cons in Hx as [->|Hx].
  - apply load_Some in Hps as (c & Hc & Hcps). eauto.
  - revert x Hx. eapply readProps_valid; [done|]. intros l v fl x Hl Hx. eauto.
Qed.

Lemma readHistory_kind : footprintOf (fun c => historyCell c = true) readHistory.
Proof.
  assert (footprintOf (fun c => historyCell c = true) readPerformances) as H0.
  { intros h a v fp x. unfold readPerformances.
    destruct (load asPerformances h a) as [l|] eqn:Hl; [|done]. cbn.
    intros [= <- <-] Hx. apply list_elem_of_singleton in Hx as ->.
    apply load_Some in Hl as (c & Hc & Hcl). exists c. split; [done|]. by destruct c. }
  repeat (apply readObj_kind; [intros c ps; by destruct c|]). done.
Qed.

Lemma readProgram_kind : footprintOf (fun c => historyCell c = false) readProgram.
Proof.
  apply readObj_kind; [intros c ps; by destruct c|].
  intros h a es fp x. rewrite readExercises_Some. intros (ls & Hls & HF & ->) Hx.
  apply elem_of_cons in Hx as [->|Hx].
  - apply load_Some in Hls as (c & Hc & Hcl). exists c. split; [done|]. by destruct c.
  - apply list_elem_of_lookup in Hx as [i Hi].
    destruct (Forall2_lookup_l _ _ _ _ _ HF Hi) as (e & _ & He).
    apply load_Some in He as (c & Hc & Hce). exists c. split; [done|]. by destruct c.
Qed.

(** What is done inside a History leaves a Program as it is, and
    conversely. *)
Lemma readProgram_outside_history h h' p P fpP r V fpH :
  readProgram h p = Some (P, fpP) -> readHistory h r = Some (V, fpH) ->
  keepsOutside fpH h h' -> readProgram h' p = Some (P, fpP).
Proof.
  intros Hp Hr Hk. eapply (framed_keeps (f:=readProgram)); [done|].
  eapply keepsOutside_keeps; [done|]. intros x Hx Hx'.
  destruct (readProgram_kind _ _ _ _ _ Hp Hx) as (c & Hc & Hkc).
  destruct (readHistory_kind _ _ _ _ _ Hr Hx') as (c' & Hc' & Hkc').
  congruence.
Qed.

Lemma readHistory_outside_program h h' p P fpP r V fpH :
  readProgram h p = Some (P, fpP) -> readHistory h r = Some (V, fpH) ->
  keepsOutside fpP h h' -> readHistory h' r = Some (V, fpH).
Proof.
  intros Hp Hr Hk. eapply (framed_keeps (f:=readHistory)); [done|].
  eapply keepsOutside_keeps; [done|]. intros x Hx Hx'.
  destruct (readProgram_kind _ _ _ _ _ Hp Hx') as (c & Hc & Hkc).
  destruct (readHistory_kind _ _ _ _ _ Hr Hx) as (c' & Hc' & Hkc').
  congruence.
Qed.

End Kinds.

Section RecordPerformance.
Context `{B : Builtins}.
Implicit Types (h : heap) (l n : loc) (fp : list loc) (s : State).

Lemma viewHistory_denotes h r V : denotes readHistory h r V -> viewHistory h r = Some V.
Proof. intros (fp & Hr & _). unfold viewHistory. by rewrite Hr. Qed.

Lemma viewProgram_denotes h r V : denotes readProgram h r V -> viewProgram h r = Some V.
Proof. intros (fp & Hr & _). unfold viewProgram. by rewrite Hr. Qed.

(** One run of [recordPerformance] on a filled form. *)
Lemma recordPerformance_run now ok s hi fp day exercise :
  readHistory (mem s) (history s) = Some (hi, fp) -> NoDup fp ->
  selectedDay (ui s) = Some day -> currentExercise (ui s) = Some exercise ->
  truthy (trim (setsText (ui s))) = true -> truthy (trim (repsText (ui s))) = true ->
  truthy day = true ->
  let weekKey := weekKeyOf (currentWeek s) in
  let hi' := recordV weekKey day (id exercise) (performanceOf now (ui s)) hi in
  exists s',
    recordPerformance now ok s = Ret s'
    /\ keepsOutside fp (mem s) (mem s')
    /\ program s' = program s /\ currentWeek s' = currentWeek s
    /\ selectedDay (ui s') = Some day /\ currentExercise (ui s') = Some exercise
    /\ if ok then
         denotes readHistory (mem s') (history s') hi'
         /\ storage s' = mkStorage (workoutProgram (storage s)) (Some hi')
         /\ trace s' = trace s ++ [SetItem "workoutHistory" (HistoryBlob hi') true]
       else
         history s' = history s /\ storage s' = storage s
         /\ trace s' = trace s ++ [SetItem "workoutHistory" (HistoryBlob hi') false;
                                   Alert "Error" "Failed to save workout history"]
         /\ denotes readHistory (mem s') (history s')
              (match prop_get weekKey hi with Some _ => hi' | None => hi end).
Proof.
  intros Hroot Hnd Hday Hex Hsets Hreps Htday. cbv zeta.
  destruct (record_steps (mem s) (history s) hi fp (weekKeyOf (currentWeek s)) day
              (id exercise) (performanceOf now (ui s)) Hroot Hnd)
    as (weeks & h1 & w & h2 & d & h3 & a & h4 & Hweeks & E1 & L1 & E2 & L2 & E3 & L3
        & E4 & Hnew & Hold & Hkeep).
  unfold recordPerformance. rewrite Hday, Hex, Hsets, Hreps, Htday. cbn [negb orb].
  rewrite Hweeks. cbn [typed mbind res_bind alloc].
  rewrite E1. cbn [mbind res_bind]. rewrite L1. cbn [mbind res_bind].
  rewrite E2. cbn [mbind res_bind]. rewrite L2. cbn [mbind res_bind].
  rewrite E3. cbn [mbind res_bind]. rewrite L3. cbn [mbind res_bind].
  rewrite E4. cbn [mbind res_bind].
  unfold saveHistory. cbn [mem withMem]. rewrite (viewHistory_denotes _ _ _ Hnew).
  cbn [typed mbind res_bind]. destruct ok; cbn [mbind res_bind].
  - eexists. split; [reflexivity|]. cbn. rewrite Hday, Hex. split_and!; done.
  - eexists. split; [reflexivity|]. cbn. rewrite Hday, Hex. split_and!; try done.
    by rewrite <- app_assoc.
Qed.

End RecordPerformance.

Section RecordTheorems.
Context `{B : Builtins}.
Implicit Types (h : heap) (l n : loc) (fp : list loc) (s : State) (hi : HistoryV).

(** The entry sequences of the History after a record. *)
Lemma entriesOf_recordV wk dk x p hi w d i :
  entriesOf (recordV wk dk x p hi) w d i =
  if String.eqb wk w && String.eqb dk d && String.eqb x i
  then entriesOf hi wk dk x ++ [p]
  else entriesOf hi w d i.
Proof.
  unfold entriesOf, entriesIn, recordV, upsert.
  rewrite prop_get_set.
  destruct (String.eqb_spec wk w) as [<-|Hw]; cbn [andb]; [|done].
  change (default [] (Some ?v)) with v.
  rewrite prop_get_set.
  destruct (String.eqb_spec dk d) as [<-|Hd]; cbn [andb]; [|done].
  cbn [mbind option_bind]. rewrite prop_get_set.
  destruct (String.eqb_spec x i) as [<-|Hi];
    [|by destruct (prop_get dk (default [] (prop_get wk hi)))].
  change (default [] (Some ?v)) with v.
  f_equal. by destruct (prop_get dk (default [] (prop_get wk hi))).
Qed.

(** The chain week -> day -> exercise id exists after a record. *)
Lemma recordV_chain wk dk x p hi :
  exists week dayData,
    prop_get wk (recordV wk dk x p hi) = Some week
    /\ prop_get dk week = Some dayData
    /\ prop_get x dayData = Some (entriesOf hi wk dk x ++ [p]).
Proof.
  unfold recordV, upsert.
  set (W0 := default [] (prop_get wk hi)).
  set (D0 := default [] (prop_get dk W0)).
  exists (prop_set dk (prop_set x (default [] (prop_get x D0) ++ [p]) D0) W0),
         (prop_set x (default [] (prop_get x D0) ++ [p]) D0).
  split_and!.
  - by rewrite prop_get_set, String.eqb_refl.
  - by rewrite prop_get_set, String.eqb_refl.
  - rewrite prop_get_set, String.eqb_refl. do 2 f_equal.
    unfold entriesOf, entriesIn. fold W0. unfold D0.
    by destruct (prop_get dk W0).
Qed.

(** The History in memory after one run of [recordPerformance] on a filled
    form, whatever the outcome of the save: the entry is in it when the save
    resolves and when the week was in the History already; after a failed
    save into a week that was not, the History is the one from before. *)
Lemma recordPerformance_memory now ok s hi day exercise :
  denotes readHistory (mem s) (history s) hi ->
  filled (ui s) day exercise ->
  let weekKey := weekKeyOf (currentWeek s) in
  let hi' := recordV weekKey day (id exercise) (performanceOf now (ui s)) hi in
  exists s',
    recordPerformance now ok s = Ret s'
    /\ currentWeek s' = currentWeek s
    /\ denotes readHistory (mem s') (history s')
         (if ok then hi' else match prop_get weekKey hi with Some _ => hi' | None => hi end)
    /\ (ok = false ->
        last (trace s') = Some (Alert "Error" "Failed to save workout history")).
Proof.
  intros (fp & Hroot & Hnd) (Hday & Hex & Hsets & Hreps & Htday). cbv zeta.
  destruct (recordPerformance_run now ok s hi fp day exercise
              Hroot Hnd Hday Hex Hsets Hreps Htday)
    as (s' & Hrun & _ & _ & Hweek & _ & _ & Hout).
  exists s'. destruct ok.
  - destruct Hout as (Hden & _). by split_and!.
  - destruct Hout as (_ & _ & Htr & Hden). split_and!; try done.
    intros _. rewrite Htr.
    change [SetItem "workoutHistory"
              (HistoryBlob (recordV (weekKeyOf (currentWeek s)) day (id exercise)
                              (performanceOf now (ui s)) hi)) false;
            Alert "Error" "Failed to save workout history"]
      with ([SetItem "workoutHistory"
               (HistoryBlob (recordV (weekKeyOf (currentWeek s)) day (id exercise)
                               (performanceOf now (ui s)) hi)) false]
            ++ [Alert "Error" "Failed to save workout history"]).
    by rewrite app_assoc, last_snoc.
Qed.

(** C4 (amended): a record with a filled form never fails for want of a
    week, a day or an exercise id in the History.  When the save resolves,
    and when the week is in the History already, the missing levels are
    created and the new entry goes to the end of the exercise's sequence
    for that week and day; a second record for the same week, day and
    exercise then puts its entry after the first, whatever the outcome of
    its save, and on an empty chain the sequence has length 1 after the
    first call and length 2 after the second.  When the save fails and the
    week is not in the History, the History in memory is the one from
    before the call: no level is created and nothing is appended. *)
Theorem C4_recordPerformance_appends (now1 now2 : Z) (ok1 ok2 : bool) (s : State)
    (hi : HistoryV) (day : string) (exercise : Exercise) (u2 : UI) :
  denotes readHistory (mem s) (history s) hi ->
  filled (ui s) day exercise -> filled u2 day exercise ->
  let weekKey := weekKeyOf (currentWeek s) in
  let i := id exercise in
  let p1 := performanceOf now1 (ui s) in
  let p2 := performanceOf now2 u2 in
  exists s1 s2 hi1 hi2,
    recordPerformance now1 ok1 s = Ret s1
    /\ denotes readHistory (mem s1) (history s1) hi1
    /\ recordPerformance now2 ok2 (withUI u2 s1) = Ret s2
    /\ denotes readHistory (mem s2) (history s2) hi2
    /\ (ok1 = true \/ is_Some (prop_get weekKey hi) ->
        entriesOf hi1 weekKey day i = entriesOf hi weekKey day i ++ [p1]
        /\ (exists week dayData,
              prop_get weekKey hi1 = Some week /\ prop_get day week = Some dayData
              /\ prop_get i dayData = Some (entriesOf hi weekKey day i ++ [p1]))
        /\ entriesOf hi2 weekKey day i = entriesOf hi weekKey day i ++ [p1; p2]
        /\ (entriesOf hi weekKey day i = [] ->
            entriesOf hi1 weekKey day i = [p1] /\ entriesOf hi2 weekKey day i = [p1; p2]))
    /\ (ok1 = false -> prop_get weekKey hi = None ->
        hi1 = hi
        /\ last (trace s1) = Some (Alert "Error" "Failed to save workout history")
        /\ hi2 = if ok2 then recordV weekKey day i p2 hi else hi).
Proof.
  intros Hden Hfilled Hfilled2. cbv zeta.
  destruct (recordPerformance_memory now1 ok1 s hi day exercise Hden Hfilled)
    as (s1 & Hrun1 & Hweek1 & Hden1 & Halert1).
  destruct (recordPerformance_memory now2 ok2 (withUI u2 s1) _ day exercise Hden1 Hfilled2)
    as (s2 & Hrun2 & _ & Hden2 & _).
  cbn [currentWeek withUI ui] in Hrun2, Hden2. rewrite Hweek1 in Hden2.
  set (weekKey := weekKeyOf (currentWeek s)) in *.
  set (p1 := performanceOf now1 (ui s)) in *.
  set (p2 := performanceOf now2 u2) in *.
  eexists s1, s2, _, _. split_and!; [exact Hrun1 | exact Hden1 | exact Hrun2 | exact Hden2 | |].
  - intros Happlied.
    assert (Hhi1 : (if ok1 then recordV weekKey day (id exercise) p1 hi
                    else match prop_get weekKey hi with
                         | Some _ => recordV weekKey day (id exercise) p1 hi
                         | None => hi
                         end) = recordV weekKey day (id exercise) p1 hi).
    { destruct ok1; [done|]. destruct Happlied as [?|[week Hweek]]; [done|].
      by rewrite Hweek. }
    rewrite Hhi1.
    destruct (recordV_chain weekKey day (id exercise) p1 hi)
      as (week & dayData & Hweek & Hchain).
    rewrite Hweek.
    assert (Hhi2 : (if ok2 then recordV weekKey day (id exercise) p2
                                  (recordV weekKey day (id exercise) p1 hi)
                    else recordV weekKey day (id exercise) p2
                           (recordV weekKey day (id exercise) p1 hi))
                   = recordV weekKey day (id exercise) p2
                       (recordV weekKey day (id exercise) p1 hi)) by (by destruct ok2).
    rewrite Hhi2. split_and!.
    + by rewrite entriesOf_recordV, !String.eqb_refl.
    + by exists week, dayData.
    + rewrite !entriesOf_recordV, !String.eqb_refl. cbn [andb]. by rewrite <- app_assoc.
    + intros Hnil. by rewrite !entriesOf_recordV, !String.eqb_refl, Hnil.
  - intros -> Hnone. rewrite !Hnone. split_and!; [done|by apply Halert1|done].
Qed.

(** C10: a successful record leaves the Program as it was and, in the
    History, changes the entry sequence of the recorded (week, day,
    exercise id) only, which keeps its old entries in front of the new
    one. *)
Theorem C10_recordPerformance_frame (now : Z) (s : State) (hi : HistoryV)
    (prog : ProgramV) (day : string) (exercise : Exercise) :
  denotes readHistory (mem s) (history s) hi ->
  programOf s = Some prog ->
  filled (ui s) day exercise ->
  let weekKey := weekKeyOf (currentWeek s) in
  exists s' hi',
    recordPerformance now true s = Ret s'
    /\ historyOf s' = Some hi'
    /\ program s' = program s /\ programOf s' = Some prog
    /\ (forall w d i, (w, d, i) <> (weekKey, day, id exercise) ->
          entriesOf hi' w d i = entriesOf hi w d i)
    /\ entriesOf hi weekKey day (id exercise) `prefix_of`
         entriesOf hi' weekKey day (id exercise)
    /\ entriesOf hi' weekKey day (id exercise) =
         entriesOf hi weekKey day (id exercise) ++ [performanceOf now (ui s)].
Proof.
  intros (fp & Hroot & Hnd) Hprog (Hday & Hex & Hsets & Hreps & Htday). cbv zeta.
  destruct (recordPerformance_run now true s hi fp day exercise
              Hroot Hnd Hday Hex Hsets Hreps Htday)
    as (s' & Hrun & Hkeep & Hp & _ & _ & _ & Hden & _ & _).
  exists s', (recordV (weekKeyOf (currentWeek s)) day (id exercise)
                      (performanceOf now (ui s)) hi).
  split_and!; try done.
  - by apply viewHistory_denotes.
  - unfold programOf, viewProgram in *. rewrite Hp.
    destruct (readProgram (mem s) (program s)) as [[P fpP]|] eqn:HP; [|done].
    injection Hprog as ->.
    by rewrite (readProgram_outside_history _ _ _ _ _ _ _ _ HP Hroot Hkeep).
  - intros w d i Hne. rewrite entriesOf_recordV.
    destruct (String.eqb_spec (weekKeyOf (currentWeek s)) w) as [<-|?]; [|done].
    destruct (String.eqb_spec day d) as [<-|?]; [|done].
    destruct (String.eqb_spec (id exercise) i) as [<-|?]; done.
  - rewrite entriesOf_recordV, !String.eqb_refl. by apply prefix_app_r.
  - by rewrite entriesOf_recordV, !String.eqb_refl.
Qed.

End RecordTheorems.

Section ExerciseArrays.
Context `{B : Builtins}.
Implicit Types (h : heap) (l n : loc) (fp : list loc) (s : State) (es : list Exercise).

Lemma indexOfId_Some wanted es i :
  indexOfId wanted es = Some i <->
  exists ex, es !! i = Some ex /\ id ex = wanted
    /\ forall j ex', (j < i)%nat -> es !! j = Some ex' -> id ex' <> wanted.
Proof.
  revert i. induction es as [|e es IH]; intros i; cbn [indexOfId].
  - split; [done | by intros (? & ? & _)].
  - destruct (String.eqb_spec (id e) wanted) as [He|He].
    + split.
      * intros [= <-]. exists e. split_and!; [done|done|]. intros j ex' Hj. lia.
      * intros (ex & Hi & Hid & Hfirst). destruct i as [|i]; [done|].
        exfalso. apply (Hfirst 0%nat e); [lia|done|done].
    + destruct (indexOfId wanted es) as [i'|] eqn:Hi'; cbn.
      * split.
        -- intros [= <-]. destruct (proj1 (IH i') eq_refl) as (ex & ? & ? & Hfirst).
           exists ex. split_and!; [done|done|]. intros [|j] ex' Hj; cbn.
           ++ by intros [= <-].
           ++ apply Hfirst. lia.
        -- intros (ex & Hi & Hid & Hfirst). destruct i as [|i]; cbn in Hi.
           ++ congruence.
           ++ f_equal. assert (Some i' = Some i) as [= ->]; [|done].
              apply IH. exists ex. split_and!; [done|done|].
              intros j ex' Hj Hget. apply (Hfirst (S j) ex'); [lia|done].
      * split; [done|]. intros (ex & Hi & Hid & Hfirst). destruct i as [|i]; cbn in Hi.
        -- congruence.
        -- assert (None = Some i) as Habs; [|done].
           apply IH. exists ex. split_and!; [done|done|].
           intros j ex' Hj Hget. apply (Hfirst (S j) ex'); [lia|done].
Qed.

Lemma indexOfId_None wanted es :
  indexOfId wanted es = None <-> forall ex, ex ∈ es -> id ex <> wanted.
Proof.
  induction es as [|e es IH]; cbn [indexOfId].
  - split; [|done]. intros _ ex Hex. by apply elem_of_nil in Hex.
  - destruct (String.eqb_spec (id e) wanted) as [He|He].
    + split; [done|]. intros Hall. exfalso. apply (Hall e); [left | done].
    + destruct (indexOfId wanted es); cbn.
      * split; [done|]. intros Hall. exfalso.
        assert (Some n = None) as Habs; [|done]. apply IH. intros ex Hex. apply Hall. by right.
      * split; [|done]. intros _ ex Hex. apply elem_of_cons in Hex as [->|Hex]; [done|].
        by apply IH.
Qed.

Lemma findIndexById_spec h wanted ls es :
  Forall2 (fun l e => load asExercise h l = Some e) ls es ->
  findIndexById h wanted ls = Ret (indexOfId wanted es).
Proof.
  induction 1 as [|l e ls es Hl HF IH]; [done|].
  cbn [findIndexById indexOfId]. rewrite Hl. cbn [typed mbind res_bind].
  destruct (String.eqb (id e) wanted); [done|]. rewrite IH. done.
Qed.

Lemma filterOutId_spec h exerciseId ls es :
  Forall2 (fun l e => load asExercise h l = Some e) ls es ->
  exists kept,
    filterOutId h exerciseId ls = Ret kept
    /\ Forall2 (fun l e => load asExercise h l = Some e) kept (withoutId exerciseId es).
Proof.
  induction 1 as [|l e ls es Hl HF (kept & Hkept & HFk)].
  - exists []. split; [done | constructor].
  - cbn [filterOutId]. rewrite Hl. cbn [typed mbind res_bind]. rewrite Hkept.
    cbn [mbind res_bind]. unfold withoutId in *. cbn [List.filter].
    destruct (negb (String.eqb (id e) exerciseId)); eexists; split; try done.
    by constructor.
Qed.

(** [arr.push(newExercise)] *)
Lemma pushExercise_updates h a es fa e :
  readExercises h a = Some (es, fa) ->
  exists h2,
    pushExercise (h ++ [CExercise e]) a (List.length h) = Ret h2
    /\ updates readExercises h h2 a (es ++ [e]).
Proof.
  intros Ha. pose proof Ha as Ha0.
  apply readExercises_Some in Ha as (ls & Hls & HF & ->).
  pose proof (load_lt _ _ _ _ Hls) as Halt.
  assert (Hold : forall x c, h !! x = Some c -> x <> a ->
            (<[a := CExercises (ls ++ [List.length h])]> (h ++ [CExercise e])) !! x = Some c).
  { intros x c Hx Hxa. rewrite list_lookup_insert_ne by done. by apply lookup_app_l_Some. }
  unfold pushExercise.
  assert (load asExercises (h ++ [CExercise e]) a = Some ls) as ->.
  { eapply load_keeps; [done|]. intros x c _. by apply lookup_app_l_Some. }
  cbn [typed mbind res_bind]. eexists. split; [reflexivity|].
  exists es, (a :: ls), (a :: ls ++ [List.length h]). split_and!; try done.
  - apply readExercises_Some. exists (ls ++ [List.length h]). split_and!; try done.
    + rewrite load_insert; [done|]. rewrite length_app. lia.
    + apply Forall2_app.
      * eapply Forall2_impl; [exact HF|]. cbn. intros l e' Hl.
        apply load_Some in Hl as (c & Hc & Hce). apply load_Some. exists c. split; [|done].
        apply Hold; [done|]. intros ->. apply load_Some in Hls as (c' & Hc' & Hcl).
        rewrite Hc in Hc'. injection Hc' as <-. by destruct c.
      * constructor; [|constructor]. unfold load.
        rewrite list_lookup_insert_ne by lia. by rewrite list_lookup_middle.
  - intros x c Hx Hget. apply Hold; [done|]. intros ->. apply Hx. left.
  - intros Hnd. apply NoDup_cons in Hnd as [Hna Hnd].
    assert (Hlt : forall x, x ∈ ls -> x < List.length h).
    { intros x Hx. eapply (framed_valid (f:=readExercises)); [exact Ha0 | by right]. }
    apply NoDup_cons. split.
    + intros Hx. apply elem_of_app in Hx as [Hx|Hx]; [done|].
      apply list_elem_of_singleton in Hx. lia.
    + apply NoDup_app. split_and!; [done | | apply NoDup_singleton].
      intros x Hx Hx'. apply list_elem_of_singleton in Hx'. apply Hlt in Hx. lia.
  - intros x Hx. apply elem_of_cons in Hx as [->|Hx]; [left; left|].
    apply elem_of_app in Hx as [Hx|Hx]; [left; by right|].
    apply list_elem_of_singleton in Hx. right. lia.
Qed.

(** The edit branch of [addExercise]. *)
Lemma renameIn_updates h a es fa wanted newName :
  readExercises h a = Some (es, fa) -> NoDup fa ->
  exists h2,
    renameIn h a wanted newName = Ret h2
    /\ updates readExercises h h2 a (renameV wanted newName es).
Proof.
  intros Ha Hnd. pose proof Ha as Ha0.
  apply readExercises_Some in Ha as (ls & Hls & HF & ->).
  apply NoDup_cons in Hnd as [Hna Hnd].
  unfold renameIn, renameV. rewrite Hls. cbn [typed mbind res_bind].
  rewrite (findIndexById_spec _ _ _ _ HF). cbn [mbind res_bind].
  destruct (indexOfId wanted es) as [i|] eqn:Hi.
  - apply indexOfId_Some in Hi as (ex & Hex & Hid & _).
    destruct (Forall2_lookup_r _ _ _ _ _ HF Hex) as (l & Hl & Hload).
    rewrite Hl, Hex. cbn [typed mbind res_bind]. rewrite Hload. cbn [typed mbind res_bind].
    eexists. split; [reflexivity|].
    set (ex' := mkExercise (id ex) newName).
    pose proof (load_lt _ _ _ _ Hload) as Hlt.
    assert (Hla : l <> a).
    { intros ->. apply Hna. by eapply list_elem_of_lookup_2. }
    exists es, (a :: ls), (a :: ls). split_and!; try done.
    + apply readExercises_Some. exists ls. split_and!; try done.
      * unfold load. by rewrite list_lookup_insert_ne.
      * apply Forall2_same_length_lookup. split.
        -- rewrite length_insert. by eapply Forall2_length.
        -- intros j x y Hx Hy. destruct (decide (j = i)) as [->|Hji].
           ++ rewrite list_lookup_insert_eq in Hy by (by eapply lookup_lt_Some).
              injection Hy as <-. rewrite Hl in Hx. injection Hx as <-.
              by rewrite load_insert.
           ++ rewrite list_lookup_insert_ne in Hy by done.
              assert (x <> l).
              { intros ->. apply Hji. by eapply NoDup_lookup. }
              unfold load. rewrite list_lookup_insert_ne by done.
              destruct (Forall2_lookup_l _ _ _ _ _ HF Hx) as (y' & Hy' & Hxy).
              rewrite Hy in Hy'. by injection Hy' as <-.
    + apply keepsOutside_insert. right. by eapply list_elem_of_lookup_2.
    + intros x Hx. by left.
  - eexists. split; [reflexivity|]. by eapply updates_refl.
Qed.

End ExerciseArrays.

Section ProgramHandlers.
Context `{B : Builtins}.
Implicit Types (h : heap) (l n : loc) (fp : list loc) (s : State) (es : list Exercise).

(** One run of [addExercise] on a form that passes the check. *)
Lemma addExercise_run now ok s P fp day es :
  readProgram (mem s) (program s) = Some (P, fp) -> NoDup fp ->
  selectedDay (ui s) = Some day -> truthy day = true ->
  truthy (trim (exerciseName (ui s))) = true ->
  prop_get day P = Some es ->
  let P' := prop_set day (exercisesAfterAdd now (ui s) es) P in
  exists s',
    addExercise now ok s = Ret s'
    /\ history s' = history s /\ keepsOutside fp (mem s) (mem s')
    /\ denotes readProgram (mem s') (program s') P'
    /\ exerciseName (ui s') = "" /\ editingExerciseId (ui s') = None
    /\ exerciseModalVisible (ui s') = false
    /\ if ok then
         storage s' = mkStorage (Some P') (workoutHistory (storage s))
         /\ trace s' = trace s ++ [SetItem "workoutProgram" (ProgramBlob P') true]
       else
         program s' = program s /\ storage s' = storage s
         /\ trace s' = trace s ++ [SetItem "workoutProgram" (ProgramBlob P') false;
                                   Alert "Error" "Failed to save program"].
Proof.
  intros Hroot Hnd Hday Htday Hname Hes. cbv zeta. pose proof Hroot as Hroot0.
  apply readObj_Some in Hroot as (days & fps & Hdays & Hr & ->).
  set (h := mem s) in *. set (root := program s) in *.
  set (root' := List.length h). set (h1 := h ++ [CProgram days]).
  pose proof (readProps_get _ _ _ _ day Hr) as Hget.
  destruct (prop_get day days) as [arr|] eqn:Harr; [|congruence].
  destruct Hget as (es0 & fa & Hes0 & Ha & _). rewrite Hes in Hes0. injection Hes0 as <-.
  assert (Hext : forall x c, h !! x = Some c -> h1 !! x = Some c).
  { intros x c Hx. by apply lookup_app_l_Some. }
  assert (Hvalid : forall y, y ∈ root :: fps -> y < List.length h).
  { intros y Hy. by eapply (framed_valid (f:=readProgram)). }
  assert (Hcopy : readProgram h1 root' = Some (P, root' :: fps)).
  { by eapply (readObj_copy asProgram readExercises). }
  assert (Hndcopy : NoDup (root' :: fps)).
  { apply NoDup_cons in Hnd as [_ Hnd]. apply NoDup_cons. split; [|done].
    intros Hy. assert (root' < List.length h) by (apply Hvalid; by right).
    unfold root' in *. lia. }
  assert (Hroot1 : readProgram h1 root = Some (P, root :: fps)).
  { eapply (framed_keeps (f:=readProgram)); [done|]. intros x c _. apply Hext. }
  assert (Ha1 : readExercises h1 arr = Some (es, fa)).
  { eapply (framed_keeps (f:=readExercises)); [done|]. intros x c _. apply Hext. }
  assert (Hdays1 : load asProgram h1 root = Some days).
  { eapply load_keeps; [done|]. intros x c _. apply Hext. }
  assert (Hdays1' : load asProgram h1 root' = Some days).
  { unfold h1, root'. by rewrite load_alloc. }
  assert (Hnda : NoDup fa).
  { destruct (readProps_child _ _ _ _ _ _ Hr Harr) as (? & fa' & pre & post & _ & Ha' & Heq).
    rewrite Ha in Ha'. injection Ha' as _ <-. rewrite Heq in Hnd.
    apply NoDup_cons in Hnd as [_ Hnd]. apply NoDup_app in Hnd as (_ & _ & Hnd).
    by apply NoDup_app in Hnd as (? & _ & _). }
  assert (Hsteps : exists h2,
    (if truthyO (editingExerciseId (ui s)) then
       renameIn h1 arr (default "" (editingExerciseId (ui s))) (exerciseName (ui s))
     else
       pushExercise
         (h1 ++ [CExercise (mkExercise (pretty now) (exerciseName (ui s)))])
         arr (List.length h1)) = Ret h2
    /\ updates readExercises h1 h2 arr (exercisesAfterAdd now (ui s) es)).
  { unfold exercisesAfterAdd.
    destruct (truthyO (editingExerciseId (ui s))).
    - by eapply renameIn_updates.
    - by eapply pushExercise_updates. }
  destruct Hsteps as (h2 & Hsteps & Uarr).
  pose proof (readObj_lift asProgram readExercises h1 h2 root' days P _ day arr _
                Hcopy Hndcopy Hdays1' Harr Uarr) as Unew.
  pose proof (readObj_lift asProgram readExercises h1 h2 root days P _ day arr _
                Hroot1 Hnd Hdays1 Harr Uarr) as Uold.
  assert (Hnew : denotes readProgram h2 root'
                   (prop_set day (exercisesAfterAdd now (ui s) es) P)).
  { eapply updates_denotes; [|exact Unew]. by exists (root' :: fps). }
  assert (Hold : denotes readProgram h2 root
                   (prop_set day (exercisesAfterAdd now (ui s) es) P)).
  { eapply updates_denotes; [|exact Uold]. by exists (root :: fps). }
  assert (Hkeep : keepsOutside (root :: fps) h h2).
  { destruct Uold as (v0 & fp0 & fp0' & Hr0 & _ & Hk & _ & _).
    pose proof (eq_trans (eq_sym Hroot1) Hr0) as Heq. injection Heq as <- <-.
    intros x c Hx Hgetx. apply Hk; [done|]. by apply Hext. }
  unfold addExercise. rewrite Hday, Hname, Htday. cbn [negb orb].
  fold h root. rewrite Hdays. cbn [typed mbind res_bind alloc]. fold h1 root'.
  rewrite Harr. cbn [defined mbind res_bind].
  rewrite Hsteps. cbn [mbind res_bind].
  unfold saveProgram. cbn [mem withMem]. rewrite (viewProgram_denotes _ _ _ Hnew).
  cbn [typed mbind res_bind]. destruct ok; cbn [mbind res_bind].
  - eexists. split; [reflexivity|]. cbn. split_and!; done.
  - eexists. split; [reflexivity|]. cbn. split_and!; try done.
    by rewrite <- app_assoc.
Qed.

(** One run of [removeExercise] with a day selected. *)
Lemma removeExercise_run ok exerciseId s P day es :
  programOf s = Some P ->
  selectedDay (ui s) = Some day -> truthy day = true ->
  prop_get day P = Some es ->
  let P' := prop_set day (withoutId exerciseId es) P in
  exists s',
    removeExercise ok exerciseId s = Ret s'
    /\ history s' = history s /\ ui s' = ui s /\ currentWeek s' = currentWeek s
    /\ (forall x c, mem s !! x = Some c -> mem s' !! x = Some c)
    /\ if ok then
         programOf s' = Some P'
         /\ storage s' = mkStorage (Some P') (workoutHistory (storage s))
         /\ trace s' = trace s ++ [SetItem "workoutProgram" (ProgramBlob P') true]
       else
         program s' = program s /\ programOf s' = Some P /\ storage s' = storage s
         /\ trace s' = trace s ++ [SetItem "workoutProgram" (ProgramBlob P') false;
                                   Alert "Error" "Failed to save program"].
Proof.
  intros HP Hday Htday Hes. cbv zeta. unfold programOf, viewProgram in HP.
  destruct (readProgram (mem s) (program s)) as [[P0 fp]|] eqn:Hroot; [|done].
  injection HP as ->. pose proof Hroot as Hroot0.
  apply readObj_Some in Hroot as (days & fps & Hdays & Hr & ->).
  set (h := mem s) in *. set (root := program s) in *.
  set (root' := List.length h). set (h1 := h ++ [CProgram days]).
  pose proof (readProps_get _ _ _ _ day Hr) as Hget.
  destruct (prop_get day days) as [arr|] eqn:Harr; [|congruence].
  destruct Hget as (es0 & fa & Hes0 & Ha & _). rewrite Hes in Hes0. injection Hes0 as <-.
  apply readExercises_Some in Ha as (ls & Hls & HF & ->).
  assert (Hext : forall x c, h !! x = Some c -> h1 !! x = Some c).
  { intros x c Hx. by apply lookup_app_l_Some. }
  assert (HF1 : Forall2 (fun l e => load asExercise h1 l = Some e) ls es).
  { eapply Forall2_load_keeps; [done|]. intros x c _. apply Hext. }
  destruct (filterOutId_spec h1 exerciseId ls es HF1) as (kept & Hkept & HFk).
  set (filtered := List.length h1). set (h2 := h1 ++ [CExercises kept]).
  set (h3 := <[root' := CProgram (prop_set day filtered days)]> h2).
  assert (Hlen1 : List.length h1 = S (List.length h)).
  { unfold h1. rewrite length_app. cbn. lia. }
  assert (Hext3 : forall x c, h !! x = Some c -> h3 !! x = Some c).
  { intros x c Hx. unfold h3. rewrite list_lookup_insert_ne.
    - unfold h2. by apply lookup_app_l_Some, Hext.
    - apply lookup_lt_Some in Hx. unfold root'. lia. }
  assert (Hext13 : forall x c, x <> root' -> h1 !! x = Some c -> h3 !! x = Some c).
  { intros x c Hne Hx. unfold h3. rewrite list_lookup_insert_ne by done.
    unfold h2. by apply lookup_app_l_Some. }
  assert (Hnew : viewProgram h3 root' = Some (prop_set day (withoutId exerciseId es) P)).
  { destruct (readProps_set (readExercises h) (readExercises h3) days P fps day filtered
                (withoutId exerciseId es) (filtered :: kept) Hr) as (fp' & Hfp').
    - intros l w fl Hl. eapply (framed_keeps (f:=readExercises)); [done|].
      intros x c _. apply Hext3.
    - apply readExercises_Some. exists kept. split_and!; try done.
      + unfold load, h3. rewrite list_lookup_insert_ne by (unfold filtered, root'; lia).
        unfold h2, filtered. by rewrite list_lookup_middle.
      + eapply Forall2_impl; [exact HFk|]. cbn. intros l e Hl.
        apply load_Some in Hl as (c & Hc & Hce). apply load_Some. exists c. split; [|done].
        apply Hext13; [|done]. intros ->. unfold h1, root' in Hc.
        rewrite list_lookup_middle in Hc by done. injection Hc as <-. done.
    - unfold viewProgram. replace (readProgram h3 root') with
        (Some (prop_set day (withoutId exerciseId es) P, root' :: fp')); [done|].
      symmetry. apply readObj_Some. exists (prop_set day filtered days), fp'.
      split_and!; try done. unfold h3. rewrite load_insert; [done|].
      unfold h2. rewrite length_app, Hlen1. unfold root'. lia. }
  assert (Hold : viewProgram h3 root = Some P).
  { unfold viewProgram. replace (readProgram h3 root) with (Some (P, root :: fps)); [done|].
    symmetry. eapply (framed_keeps (f:=readProgram)); [done|]. intros x c _. apply Hext3. }
  unfold removeExercise. rewrite Hday, Htday. cbn [negb].
  fold h root. rewrite Hdays. cbn [typed mbind res_bind alloc]. fold h1 root'.
  rewrite Harr. cbn [defined mbind res_bind].
  assert (load asExercises h1 arr = Some ls) as ->.
  { eapply load_keeps; [done|]. intros x c _. apply Hext. }
  cbn [typed mbind res_bind]. rewrite Hkept. cbn [mbind res_bind]. fold filtered h2.
  unfold storeProp.
  assert (load asProgram h2 root' = Some days) as ->.
  { unfold load, h2, h1, root'. rewrite lookup_app_l.
    - by rewrite list_lookup_middle.
    - rewrite length_app. cbn. lia. }
  cbn [typed mbind res_bind]. fold h3.
  unfold saveProgram. cbn [mem withMem]. rewrite Hnew.
  cbn [typed mbind res_bind]. destruct ok.
  - eexists. split; [reflexivity|]. cbn. split_and!; done.
  - eexists. split; [reflexivity|]. cbn. split_and!; try done.
    by rewrite <- app_assoc.
Qed.

End ProgramHandlers.

Section ProgramTheorems.
Context `{B : Builtins}.
Implicit Types (h : heap) (l n : loc) (fp : list loc) (s : State) (es : list Exercise).

Lemma keys_prop_set_present {A} k (v v' : A) (o : props A) :
  prop_get k o = Some v -> keys (prop_set k v' o) = keys o.
Proof.
  unfold keys. induction o as [|[k0 v0] o IH]; cbn; [done|].
  destruct (String.eqb k0 k); cbn; [done|]. intros Hk. f_equal. auto.
Qed.

Lemma renameV_found wanted newName es i ex :
  es !! i = Some ex -> id ex = wanted ->
  (forall j ex', (j < i)%nat -> es !! j = Some ex' -> id ex' <> wanted) ->
  renameV wanted newName es = <[i := mkExercise wanted newName]> es.
Proof.
  intros Hi Hid Hfirst. unfold renameV.
  assert (indexOfId wanted es = Some i) as -> by (apply indexOfId_Some; eauto).
  rewrite Hi. by rewrite Hid.
Qed.

Lemma renameV_missing wanted newName es :
  (forall ex, ex ∈ es -> id ex <> wanted) -> renameV wanted newName es = es.
Proof.
  intros Hall. unfold renameV.
  by assert (indexOfId wanted es = None) as -> by by apply indexOfId_None.
Qed.

Lemma renameV_ids wanted newName es : id <$> renameV wanted newName es = id <$> es.
Proof.
  unfold renameV. destruct (indexOfId wanted es) as [i|] eqn:Hi; [|done].
  destruct (es !! i) as [ex|] eqn:Hex; [|done].
  rewrite list_fmap_insert. cbn. apply list_insert_id. by rewrite list_lookup_fmap, Hex.
Qed.

Lemma exercisesAfterAdd_keeps now u es j ex :
  es !! j = Some ex ->
  exists ex', exercisesAfterAdd now u es !! j = Some ex' /\ id ex' = id ex.
Proof.
  intros Hj. unfold exercisesAfterAdd. destruct (truthyO (editingExerciseId u)).
  - assert (Hids := renameV_ids (default "" (editingExerciseId u)) (exerciseName u) es).
    assert (Hl : (id <$> renameV (default "" (editingExerciseId u)) (exerciseName u) es) !! j
                 = Some (id ex)) by (by rewrite Hids, list_lookup_fmap, Hj).
    rewrite list_lookup_fmap in Hl.
    destruct (renameV _ _ es !! j) as [ex'|]; [|done]. injection Hl as Hl. eauto.
  - exists ex. split; [|done]. by apply lookup_app_l_Some.
Qed.

(** C3 (amended): with a day selected and a name that is not blank,
    [addExercise] in edit mode renames the first exercise of the day that
    has the edited id, in place; in edit mode with an id that no exercise of
    the day has, it leaves the day's exercises as they are and creates
    nothing; without an edited id it appends a new exercise whose id is the
    decimal millisecond clock, new among the day's ids when none of them
    is that string.  Every exercise of the day keeps its place and its id,
    and the other days are not touched. *)
Theorem C3_addExercise_renames_or_appends (now : Z) (s : State) (P : ProgramV)
    (day : string) (es : list Exercise) :
  denotes readProgram (mem s) (program s) P ->
  selectedDay (ui s) = Some day -> truthy day = true ->
  truthy (trim (exerciseName (ui s))) = true ->
  prop_get day P = Some es ->
  let newName := exerciseName (ui s) in
  exists s' es',
    addExercise now true s = Ret s'
    /\ programOf s' = Some (prop_set day es' P)
    /\ keys (prop_set day es' P) = keys P
    /\ (forall d, d <> day -> prop_get d (prop_set day es' P) = prop_get d P)
    /\ prop_get day (prop_set day es' P) = Some es'
    /\ (forall j ex, es !! j = Some ex ->
          exists ex', es' !! j = Some ex' /\ id ex' = id ex)
    /\ (forall editingId i ex,
          editingExerciseId (ui s) = Some editingId -> editingId <> "" ->
          es !! i = Some ex -> id ex = editingId ->
          (forall j ex', (j < i)%nat -> es !! j = Some ex' -> id ex' <> editingId) ->
          es' = <[i := mkExercise editingId newName]> es)
    /\ (forall editingId,
          editingExerciseId (ui s) = Some editingId -> editingId <> "" ->
          (forall ex, ex ∈ es -> id ex <> editingId) ->
          es' = es)
    /\ (truthyO (editingExerciseId (ui s)) = false ->
          es' = es ++ [mkExercise (pretty now) newName]
          /\ ((forall ex, ex ∈ es -> id ex <> pretty now) -> NoDup (id <$> es) ->
              NoDup (id <$> es'))).
Proof.
  intros (fp & Hroot & Hnd) Hday Htday Hname Hes. cbv zeta.
  destruct (addExercise_run now true s P fp day es Hroot Hnd Hday Htday Hname Hes)
    as (s' & Hrun & _ & _ & Hden & _).
  exists s', (exercisesAfterAdd now (ui s) es). split_and!.
  - exact Hrun.
  - by apply viewProgram_denotes.
  - by eapply keys_prop_set_present.
  - intros d Hd. rewrite prop_get_set.
    destruct (String.eqb_spec day d); [congruence|done].
  - by rewrite prop_get_set, String.eqb_refl.
  - intros j ex. apply exercisesAfterAdd_keeps.
  - intros editingId i ex Hedit Hne Hi Hid Hfirst. unfold exercisesAfterAdd.
    rewrite Hedit. cbn [truthyO default]. unfold truthy.
    destruct (String.eqb_spec editingId ""); [done|]. cbn [negb].
    by eapply renameV_found.
  - intros editingId Hedit Hne Hall. unfold exercisesAfterAdd.
    rewrite Hedit. cbn [truthyO default]. unfold truthy.
    destruct (String.eqb_spec editingId ""); [done|]. cbn [negb].
    by apply renameV_missing.
  - intros Hfalsy. unfold exercisesAfterAdd. rewrite Hfalsy. split; [done|].
    intros Hfresh Hndids. rewrite fmap_app. cbn. apply NoDup_app. split_and!.
    + done.
    + intros x Hx Hx'. apply list_elem_of_singleton in Hx' as ->.
      apply list_elem_of_fmap in Hx as (ex & Hid & Hex). by eapply Hfresh.
    + apply NoDup_singleton.
Qed.

Lemma withoutId_sublist exerciseId es : withoutId exerciseId es `sublist_of` es.
Proof.
  unfold withoutId. induction es as [|e es IH]; cbn; [done|].
  destruct (negb _); [by apply sublist_skip | by apply sublist_cons].
Qed.

Lemma withoutId_elem_of exerciseId es ex :
  ex ∈ withoutId exerciseId es <-> ex ∈ es /\ id ex <> exerciseId.
Proof.
  unfold withoutId. rewrite list_elem_of_In, filter_In, <- list_elem_of_In.
  rewrite negb_true_iff. by rewrite String.eqb_neq.
Qed.

Lemma withoutId_absent exerciseId es :
  (forall ex, ex ∈ es -> id ex <> exerciseId) -> withoutId exerciseId es = es.
Proof.
  unfold withoutId. induction es as [|e es IH]; intros Hall; cbn; [done|].
  destruct (String.eqb_spec (id e) exerciseId) as [He|He]; cbn.
  - exfalso. apply (Hall e); [left | done].
  - f_equal. apply IH. intros ex Hex. apply Hall. by right.
Qed.

Lemma withoutId_unique exerciseId es i ex :
  es !! i = Some ex -> id ex = exerciseId ->
  (forall j ex', es !! j = Some ex' -> id ex' = exerciseId -> j = i) ->
  withoutId exerciseId es = delete i es.
Proof.
  revert i. induction es as [|e es IH]; intros i Hi Hid Huniq; [done|].
  unfold withoutId in *. cbn [List.filter].
  destruct i as [|i]; cbn in Hi.
  - injection Hi as ->. rewrite Hid, String.eqb_refl. cbn.
    apply (withoutId_absent exerciseId es). intros ex' Hex' Hid'.
    apply list_elem_of_lookup in Hex' as [j Hj].
    by specialize (Huniq (S j) ex' Hj Hid').
  - destruct (String.eqb_spec (id e) exerciseId) as [He|He]; cbn.
    + by specialize (Huniq 0%nat e eq_refl He).
    + f_equal. apply IH; [done|done|]. intros j ex' Hj Hid'.
      specialize (Huniq (S j) ex' Hj Hid'). lia.
Qed.

(** C5 (amended): with a day selected, [removeExercise] whose save
    resolves leaves in the day's sequence the exercises whose id is not the
    given one, in their order: nothing changes when no exercise has the id,
    and when exactly one has it the sequence loses that entry and is one
    shorter; the other days stay as they are.  When the save fails, the
    alert of the failed save is raised and the Program in memory is the one
    from before the call, the exercise still in it.  In both cases the
    History stays as it is. *)
Theorem C5_removeExercise_filters (ok : bool) (exerciseId : string) (s : State)
    (P : ProgramV) (day : string) (es : list Exercise) :
  programOf s = Some P ->
  selectedDay (ui s) = Some day -> truthy day = true ->
  prop_get day P = Some es ->
  exists s' es',
    removeExercise ok exerciseId s = Ret s'
    /\ programOf s' = Some (if ok then prop_set day es' P else P)
    /\ (ok = false ->
        program s' = program s
        /\ last (trace s') = Some (Alert "Error" "Failed to save program"))
    /\ keys (prop_set day es' P) = keys P
    /\ (forall d, d <> day -> prop_get d (prop_set day es' P) = prop_get d P)
    /\ prop_get day (prop_set day es' P) = Some es'
    /\ es' `sublist_of` es
    /\ (forall ex, ex ∈ es' <-> ex ∈ es /\ id ex <> exerciseId)
    /\ ((forall ex, ex ∈ es -> id ex <> exerciseId) -> es' = es)
    /\ (forall i ex,
          es !! i = Some ex -> id ex = exerciseId ->
          (forall j ex', es !! j = Some ex' -> id ex' = exerciseId -> j = i) ->
          es' = delete i es /\ S (List.length es') = List.length es)
    /\ history s' = history s
    /\ (forall hi, historyOf s = Some hi -> historyOf s' = Some hi).
Proof.
  intros HP Hday Htday Hes.
  destruct (removeExercise_run ok exerciseId s P day es HP Hday Htday Hes)
    as (s' & Hrun & Hhist & _ & _ & Hext & Hout).
  exists s', (withoutId exerciseId es). split_and!; try done.
  - destruct ok; [by destruct Hout|]. by destruct Hout as (_ & ? & _).
  - intros ->. destruct Hout as (Hprog & _ & _ & Htr). split; [done|].
    rewrite Htr.
    change [SetItem "workoutProgram"
              (ProgramBlob (prop_set day (withoutId exerciseId es) P)) false;
            Alert "Error" "Failed to save program"]
      with ([SetItem "workoutProgram"
               (ProgramBlob (prop_set day (withoutId exerciseId es) P)) false]
            ++ [Alert "Error" "Failed to save program"]).
    by rewrite app_assoc, last_snoc.
  - by eapply keys_prop_set_present.
  - intros d Hd. rewrite prop_get_set.
    destruct (String.eqb_spec day d); [congruence|done].
  - by rewrite prop_get_set, String.eqb_refl.
  - apply withoutId_sublist.
  - apply withoutId_elem_of.
  - apply withoutId_absent.
  - intros i ex Hi Hid Huniq. rewrite (withoutId_unique _ _ _ _ Hi Hid Huniq).
    split; [done|]. rewrite length_delete by eauto.
    apply lookup_lt_Some in Hi. lia.
  - intros hi. unfold historyOf, viewHistory. rewrite Hhist.
    destruct (readHistory (mem s) (history s)) as [[hi0 fp]|] eqn:Hr; [|done].
    intros [= ->]. by rewrite (framed_keeps (f:=readHistory) _ (mem s') _ _ _ Hr
                                 (fun x c _ Hx => Hext x c Hx)).
Qed.

End ProgramTheorems.

Section Loading.
Context `{B : Builtins}.
Implicit Types (h : heap) (l n : loc) (fp : list loc) (s : State).

Lemma alloc_prefix c h : h `prefix_of` (alloc c h).2.
Proof. cbn. by apply prefix_app_r. Qed.


Lemma allocProps_prefix {A} (alloc1 : A -> heap -> loc * heap) (ps : props A) h :
  (forall x h0, h0 `prefix_of` (alloc1 x h0).2) ->
  h `prefix_of` (allocProps alloc1 ps h).2.
Proof.
  intros H1. revert h. induction ps as [|[k x] ps IH]; intros h; cbn; [done|].
  pose proof (H1 x h) as Hx. destruct (alloc1 x h) as [l h1].
  pose proof (IH h1) as Hxs. destruct (allocProps alloc1 ps h1) as [ls h2].
  cbn in *. by etrans.
Qed.



Lemma parseDay_prefix d h : h `prefix_of` (parseDay d h).2.
Proof.
  unfold parseDay.
  pose proof (allocProps_prefix (fun ps : list Performance => alloc (CPerformances ps))
                d h (fun e h0 => alloc_prefix _ h0)) as H1.
  destruct (allocProps _ d h) as [ls h1]. cbn in *. by apply prefix_app_r.
Qed.

Lemma parseWeek_prefix w h : h `prefix_of` (parseWeek w h).2.
Proof.
  unfold parseWeek.
  pose proof (allocProps_prefix parseDay w h parseDay_prefix) as H1.
  destruct (allocProps _ w h) as [ls h1]. cbn in *. by apply prefix_app_r.
Qed.

Lemma parseHistory_prefix hi h : h `prefix_of` (parseHistory hi h).2.
Proof.
  unfold parseHistory.
  pose proof (allocProps_prefix parseWeek hi h parseWeek_prefix) as H1.
  destruct (allocProps _ hi h) as [ls h1]. cbn in *. by apply prefix_app_r.
Qed.

Lemma viewProgram_prefix h h' p P :
  viewProgram h p = Some P -> h `prefix_of` h' -> viewProgram h' p = Some P.
Proof.
  unfold viewProgram. intros HP Hpre.
  destruct (readProgram h p) as [[P0 fp]|] eqn:Hr; [|done]. injection HP as ->.
  rewrite (framed_keeps (f:=readProgram) h h' p P fp Hr); [done|].
  intros x c _ Hx. by eapply prefix_lookup_Some.
Qed.



End Loading.

Section Failures.
Context `{B : Builtins}.
Implicit Types (h : heap) (l n : loc) (fp : list loc) (s : State).

(** C6: when the check at the head of [addExercise] or of
    [recordPerformance] fails (a blank name, blank sets or reps, no day or
    no exercise selected), the handler returns after one alert: the heap,
    both state variables, the form and the storage are as before, and the
    trace has gained the alert and no call to the storage. *)
Theorem C6_validation_aborts (now : Z) (ok : bool) (s : State) :
  ((truthy (trim (exerciseName (ui s))) = false
    \/ truthyO (selectedDay (ui s)) = false) ->
   addExercise now ok s = Ret (alert "Error" "Please enter an exercise name" s))
  /\ ((truthy (trim (setsText (ui s))) = false
       \/ truthy (trim (repsText (ui s))) = false
       \/ truthyO (selectedDay (ui s)) = false
       \/ currentExercise (ui s) = None) ->
      recordPerformance now ok s = Ret (alert "Error" "Please enter sets and reps" s))
  /\ (forall title message,
        let s' := alert title message s in
        mem s' = mem s /\ program s' = program s /\ history s' = history s
        /\ programOf s' = programOf s /\ historyOf s' = historyOf s
        /\ ui s' = ui s /\ currentWeek s' = currentWeek s /\ storage s' = storage s
        /\ trace s' = trace s ++ [Alert title message])
  /\ truthy (trim "") = false.
Proof.
  split_and!.
  - intros Hbad. unfold addExercise.
    destruct (selectedDay (ui s)) as [day|]; [|done]. cbn [truthyO] in Hbad.
    destruct Hbad as [-> | ->]; [done|]. by rewrite orb_true_r.
  - intros Hbad. unfold recordPerformance.
    destruct (selectedDay (ui s)) as [day|]; [|done].
    destruct (currentExercise (ui s)) as [exercise|]; [|done]. cbn [truthyO] in Hbad.
    destruct Hbad as [-> | [-> | [-> | ?]]]; [done| |by rewrite !orb_true_r|done].
    by rewrite orb_true_r.
  - done.
  - done.
Qed.

(** C2 (amended): when the save fails, the handler raises the alert of the
    failed save and does not replace the state variable.  After
    [addExercise] the Program in memory shows the rename or the new
    exercise all the same, as it does after a successful save; after
    [removeExercise] it is the Program of before the call.  After
    [recordPerformance] the History in memory shows the new entry when it
    had the week already, and is the History of before the call when it had
    not. *)
Theorem C2_failed_save_in_memory (now : Z) (exerciseId : string) (s : State) :
  (forall P day es,
     denotes readProgram (mem s) (program s) P ->
     selectedDay (ui s) = Some day -> truthy day = true ->
     truthy (trim (exerciseName (ui s))) = true -> prop_get day P = Some es ->
     exists s' sOk,
       addExercise now false s = Ret s' /\ addExercise now true s = Ret sOk
       /\ last (trace s') = Some (Alert "Error" "Failed to save program")
       /\ program s' = program s /\ storage s' = storage s
       /\ programOf s' = Some (prop_set day (exercisesAfterAdd now (ui s) es) P)
       /\ programOf s' = programOf sOk)
  /\ (forall P day es,
        programOf s = Some P ->
        selectedDay (ui s) = Some day -> truthy day = true -> prop_get day P = Some es ->
        exists s' sOk,
          removeExercise false exerciseId s = Ret s'
          /\ removeExercise true exerciseId s = Ret sOk
          /\ last (trace s') = Some (Alert "Error" "Failed to save program")
          /\ program s' = program s /\ storage s' = storage s
          /\ programOf s' = Some P
          /\ programOf sOk = Some (prop_set day (withoutId exerciseId es) P))
  /\ (forall hi day exercise,
        denotes readHistory (mem s) (history s) hi -> filled (ui s) day exercise ->
        let weekKey := weekKeyOf (currentWeek s) in
        let hi' := recordV weekKey day (id exercise) (performanceOf now (ui s)) hi in
        exists s' sOk,
          recordPerformance now false s = Ret s'
          /\ recordPerformance now true s = Ret sOk
          /\ last (trace s') = Some (Alert "Error" "Failed to save workout history")
          /\ history s' = history s /\ storage s' = storage s
          /\ historyOf sOk = Some hi'
          /\ (weekKey ∈ keys hi -> historyOf s' = Some hi')
          /\ (weekKey ∉ keys hi -> historyOf s' = Some hi)).
Proof.
  split_and!.
  - intros P day es (fp & Hroot & Hnd) Hday Htday Hname Hes.
    destruct (addExercise_run now false s P fp day es Hroot Hnd Hday Htday Hname Hes)
      as (s' & Hrun & _ & _ & Hden & _ & _ & _ & Hp & Hst & Htr).
    destruct (addExercise_run now true s P fp day es Hroot Hnd Hday Htday Hname Hes)
      as (sOk & HrunOk & _ & _ & HdenOk & _).
    exists s', sOk. split_and!; try done.
    + rewrite Htr. by rewrite last_app.
    + by apply viewProgram_denotes.
    + unfold programOf.
      by rewrite (viewProgram_denotes _ _ _ Hden), (viewProgram_denotes _ _ _ HdenOk).
  - intros P day es HP Hday Htday Hes.
    destruct (removeExercise_run false exerciseId s P day es HP Hday Htday Hes)
      as (s' & Hrun & _ & _ & _ & _ & Hp & Hview & Hst & Htr).
    destruct (removeExercise_run true exerciseId s P day es HP Hday Htday Hes)
      as (sOk & HrunOk & _ & _ & _ & _ & HviewOk & _).
    exists s', sOk. split_and!; try done. rewrite Htr. by rewrite last_app.
  - intros hi day exercise (fp & Hroot & Hnd) (Hday & Hex & Hsets & Hreps & Htday). cbv zeta.
    destruct (recordPerformance_run now false s hi fp day exercise
                Hroot Hnd Hday Hex Hsets Hreps Htday)
      as (s' & Hrun & _ & _ & _ & _ & _ & Hh & Hst & Htr & Hden).
    destruct (recordPerformance_run now true s hi fp day exercise
                Hroot Hnd Hday Hex Hsets Hreps Htday)
      as (sOk & HrunOk & _ & _ & _ & _ & _ & HdenOk & _).
    exists s', sOk. split_and!; try done.
    + rewrite Htr. by rewrite last_app.
    + by apply viewHistory_denotes.
    + intros Hin. apply prop_get_keys in Hin as [w Hw]. rewrite Hw in Hden.
      by apply viewHistory_denotes.
    + intros Hnin. apply prop_get_None in Hnin. rewrite Hnin in Hden.
      by apply viewHistory_denotes.
Qed.

End Failures.

(** ** Week numbers *)

Section Weeks.
Context `{B : Builtins}.
Implicit Types (s : State).

(** X1: [changeWeek] never leaves the positive week numbers and touches no
    other part of the state; a step that would leave them does nothing, and
    a step forward followed by a step back, or back and forward from a week
    after the first, returns to the state it started from. *)
Theorem changeWeek_keeps_week_positive (delta : Z) (s : State) :
  (0 < currentWeek s)%Z ->
  let s' := changeWeek delta s in
  (0 < currentWeek s')%Z
  /\ ((0 < currentWeek s + delta)%Z -> currentWeek s' = (currentWeek s + delta)%Z)
  /\ ((currentWeek s + delta <= 0)%Z -> s' = s)
  /\ mem s' = mem s /\ program s' = program s /\ history s' = history s
  /\ ui s' = ui s /\ storage s' = storage s /\ trace s' = trace s
  /\ changeWeek (-1) (changeWeek 1 s) = s
  /\ ((1 < currentWeek s)%Z -> changeWeek 1 (changeWeek (-1) s) = s).
Proof.
  intros Hpos. unfold changeWeek. cbv zeta.
  destruct s as [h p hi w u st tr]. cbn [currentWeek] in *.
  split_and!.
  - destruct (Z.ltb_spec 0 (w + delta)); cbn; lia.
  - intros Hd. destruct (Z.ltb_spec 0 (w + delta)); [done | lia].
  - intros Hd. destruct (Z.ltb_spec 0 (w + delta)); [lia | done].
  - by destruct (0 <? w + delta)%Z.
  - by destruct (0 <? w + delta)%Z.
  - by destruct (0 <? w + delta)%Z.
  - by destruct (0 <? w + delta)%Z.
  - by destruct (0 <? w + delta)%Z.
  - by destruct (0 <? w + delta)%Z.
  - destruct (Z.ltb_spec 0 (w + 1)); [|lia]. cbn.
    destruct (Z.ltb_spec 0 (w + 1 + -1)); [|lia].
    unfold setCurrentWeek. cbn. f_equal. lia.
  - intros Hw. destruct (Z.ltb_spec 0 (w + -1)); [|lia]. cbn.
    destruct (Z.ltb_spec 0 (w + -1 + 1)); [|lia].
    unfold setCurrentWeek. cbn. f_equal. lia.
Qed.


(** Week numbers that differ have keys that differ. *)
Lemma weekKeyOf_inj (w1 w2 : Z) : weekKeyOf w1 = weekKeyOf w2 -> w1 = w2.
Proof.
  unfold weekKeyOf. intros Heq. apply (inj pretty).
  by apply (inj (String.app "week")) in Heq.
Qed.

End Weeks.

(** ** Values of the History *)

Section HistoryValues.
Context `{B : Builtins}.
Implicit Types (hi : HistoryV) (week : WeekHistoryV).

Lemma elem_of_prop_set {A} k (v : A) (o : props A) x :
  x ∈ prop_set k v o -> x = (k, v) \/ x ∈ o.
Proof.
  induction o as [|[k' v'] o IH]; cbn.
  - intros Hx. apply list_elem_of_singleton in Hx. by left.
  - destruct (String.eqb_spec k' k) as [->|Hne].
    + intros Hx. apply elem_of_cons in Hx as [->|Hx]; [by left | right; by right].
    + intros Hx. apply elem_of_cons in Hx as [->|Hx]; [right; left|].
      destruct (IH Hx); [by left | right; by right].
Qed.

Lemma keys_prop_set_absent {A} k (v : A) (o : props A) :
  prop_get k o = None -> keys (prop_set k v o) = keys o ++ [k].
Proof.
  unfold keys. induction o as [|[k' v'] o IH]; cbn; [done|].
  destruct (String.eqb k' k); [done|]. intros Hk. cbn. f_equal. by apply IH.
Qed.

Lemma prop_set_set {A} k (v v' : A) (o : props A) :
  prop_set k v (prop_set k v' o) = prop_set k v o.
Proof.
  induction o as [|[k0 v0] o IH]; cbn.
  - by rewrite String.eqb_refl.
  - destruct (String.eqb k0 k) eqn:Hk; cbn; rewrite Hk; [done|]. by rewrite IH.
Qed.

(** A History without empty sequences stays so when an entry is recorded. *)
Lemma entriesNonEmpty_recordV wk dk x p hi :
  entriesNonEmpty hi -> entriesNonEmpty (recordV wk dk x p hi).
Proof.
  intros Hne w week d dayData i perfs Hw Hd Hi.
  unfold recordV, upsert in Hw. apply elem_of_prop_set in Hw as [Hw|Hw]; [|eauto].
  injection Hw as -> ->.
  assert (Hold : forall d' dd, (d', dd) ∈ default [] (prop_get wk hi) ->
                 exists wk', (wk', default [] (prop_get wk hi)) ∈ hi).
  { intros d' dd Hin. destruct (prop_get wk hi) as [W|] eqn:HW.
    - exists wk. by apply prop_get_Some.
    - by apply elem_of_nil in Hin. }
  apply elem_of_prop_set in Hd as [Hd|Hd].
  - injection Hd as -> ->.
    apply elem_of_prop_set in Hi as [Hi|Hi].
    + injection Hi as -> ->. cbn beta. intros Habs. by apply app_eq_nil in Habs as [_ ?].
    + destruct (prop_get dk (default [] (prop_get wk hi))) as [D|] eqn:HD.
      * apply prop_get_Some in HD. destruct (Hold _ _ HD) as [wk' Hwk']. eauto.
      * by apply elem_of_nil in Hi.
  - destruct (Hold _ _ Hd) as [wk' Hwk']. eauto.
Qed.

Lemma entriesNonEmpty_nil : entriesNonEmpty [].
Proof. intros w week d dayData i perfs Hw. by apply elem_of_nil in Hw. Qed.

(** [getLastPerformance] returns, with the result of the query. *)
Lemma getLastPerformance_query hi i :
  getLastPerformance hi i = Ret (queryLastPerformance hi i).
Proof.
  destruct (weekKeys_descending (keys hi)) as [Hperm _].
  unfold getLastPerformance. cbv zeta. rewrite scanWeeks_find; [done|].
  intros w Hw. apply prop_get_keys. by rewrite <- Hperm.
Qed.

Lemma scanOrder_elem_of hi w week d :
  prop_get w hi = Some week -> d ∈ keys week -> (w, d) ∈ scanOrder hi.
Proof.
  intros Hw Hd. destruct (weekKeys_descending (keys hi)) as [Hperm _].
  unfold scanOrder. apply list_elem_of_bind. exists w. split.
  - apply list_elem_of_bind. exists d. rewrite Hw. split; [left | done].
  - rewrite Hperm. apply prop_get_is_Some. eauto.
Qed.

Lemma entriesOf_scanOrder hi w d i :
  entriesOf hi w d i <> [] -> (w, d) ∈ scanOrder hi.
Proof.
  unfold entriesOf, entriesIn. intros He.
  destruct (prop_get w hi) as [week|] eqn:Hw; [|done].
  change (default [] (Some week)) with week in He.
  destruct (prop_get d week) as [day|] eqn:Hd; [|done].
  eapply scanOrder_elem_of; [done|]. apply prop_get_is_Some. eauto.
Qed.

(** An exercise that has an entry somewhere has a last performance. *)
Lemma queryLastPerformance_is_Some hi i w d :
  entriesOf hi w d i <> [] -> is_Some (queryLastPerformance hi i).
Proof.
  intros He. unfold queryLastPerformance.
  destruct (List.find _ (scanOrder hi)) as [wd|] eqn:Hfind.
  - apply find_some in Hfind as [_ Hlen]. unfold hasEntries in Hlen.
    destruct (entriesOf hi wd.1 wd.2 i) as [|q qs] eqn:Hq; [by cbn in Hlen|].
    destruct (last (q :: qs)) eqn:Hlast; [eauto|]. by apply last_None in Hlast.
  - pose proof He as Hin. apply entriesOf_scanOrder, list_elem_of_In in Hin.
    pose proof (find_none _ _ Hfind _ Hin) as Hf. unfold hasEntries in Hf.
    cbn [fst snd] in Hf. destruct (entriesOf hi w d i); done.
Qed.

Lemma find_first {X} (f : X -> bool) (l1 l2 : list X) x :
  (forall y, y ∈ l1 -> f y = false) -> f x = true ->
  List.find f (l1 ++ x :: l2) = Some x.
Proof.
  intros Hl1 Hx. induction l1 as [|y l1 IH]; cbn.
  - by rewrite Hx.
  - rewrite (Hl1 y) by left. apply IH. intros z Hz. apply Hl1. by right.
Qed.

Lemma find_ext_in {X} (f g : X -> bool) (l : list X) :
  (forall y, y ∈ l -> f y = g y) -> List.find f l = List.find g l.
Proof.
  induction l as [|y l IH]; intros Hfg; cbn; [done|].
  rewrite (Hfg y) by left. destruct (g y); [done|]. apply IH.
  intros z Hz. apply Hfg. by right.
Qed.

Lemma find_bind_ext {X W} (f : X -> bool) (G G' : W -> list X) (l : list W) :
  (forall w, w ∈ l -> List.find f (G' w) = List.find f (G w)) ->
  List.find f (l ≫= G') = List.find f (l ≫= G).
Proof.
  induction l as [|w l IH]; intros HG; [done|].
  rewrite !bind_cons, !find_app, (HG w) by left.
  destruct (List.find f (G w)); [done|]. apply IH. intros w' Hw'. apply HG. by right.
Qed.

Lemma bind_filter_nil {X W} (P : W -> Prop) `{!forall w, Decision (P w)}
    (G : W -> list X) (l : list W) :
  (forall w, w ∈ l -> ~ P w -> G w = []) -> filter P l ≫= G = l ≫= G.
Proof.
  induction l as [|w l IH]; intros HG; [done|].
  rewrite filter_cons, bind_cons. destruct (decide (P w)).
  - rewrite bind_cons, IH; [done|]. intros w' Hw'. apply HG. by right.
  - rewrite (HG w) by (done || left). rewrite IH; [done|].
    intros w' Hw'. apply HG. by right.
Qed.

Lemma StronglySorted_filter {X} (R : relation X) (P : X -> Prop)
    `{!forall x, Decision (P x)} (l : list X) :
  StronglySorted R l -> StronglySorted R (filter P l).
Proof.
  induction 1 as [|x l Hl IH Hx]; [constructor|].
  rewrite filter_cons. destruct (decide (P x)); [|done].
  constructor; [done|]. apply Forall_forall. intros y Hy.
  apply list_elem_of_filter in Hy as [_ Hy]. by eapply Forall_forall in Hx.
Qed.

(** The sorted week keys with one more key are the sorted week keys with
    that key put in. *)
Lemma weekKeys_without wk (l : list string) :
  wk ∉ l -> filter (fun w => w <> wk) (reverse (sort (l ++ [wk]))) = reverse (sort l).
Proof.
  intros Hwk.
  destruct (weekKeys_descending (l ++ [wk])) as [Hperm' Hsorted'].
  destruct (weekKeys_descending l) as [Hperm Hsorted].
  apply (StronglySorted_unique_strong (flip str_le)).
  - intros x1 x2 _ _ H1 H2. unfold flip, str_le in *. by apply String.leb_antisym.
  - by apply StronglySorted_filter.
  - done.
  - rewrite Hperm', Hperm, filter_app.
    assert (filter (fun w => w <> wk) [wk] = []) as ->.
    { rewrite filter_cons. by destruct (decide (wk <> wk)). }
    rewrite app_nil_r. clear -Hwk. induction l as [|x l IH]; [done|].
    rewrite filter_cons. apply not_elem_of_cons in Hwk as [Hx Hl].
    destruct (decide (x <> wk)) as [?|Hn]; [by rewrite IH|].
    exfalso. apply Hn. intros ->. by apply Hx.
Qed.

Lemma prop_get_recordV wk dk x p hi w :
  prop_get w (recordV wk dk x p hi) =
  if String.eqb wk w
  then Some (upsert dk [] (upsert x [] (fun l => l ++ [p])) (default [] (prop_get wk hi)))
  else prop_get w hi.
Proof. unfold recordV. unfold upsert at 1. apply prop_get_set. Qed.

Lemma keys_upsert {A} k (e : A) (g : A -> A) (o : props A) :
  keys (upsert k e g o) =
  match prop_get k o with Some _ => keys o | None => keys o ++ [k] end.
Proof.
  unfold upsert. destruct (prop_get k o) as [v|] eqn:Hk.
  - by eapply keys_prop_set_present.
  - by apply keys_prop_set_absent.
Qed.

Lemma hasEntries_recordV_other wk dk x p hi i wd :
  i <> x -> hasEntries (recordV wk dk x p hi) i wd = hasEntries hi i wd.
Proof.
  intros Hi. unfold hasEntries. rewrite entriesOf_recordV.
  destruct (String.eqb_spec x i) as [->|_]; [done|]. by rewrite !andb_false_r.
Qed.

(** The pairs of one week, before and after an entry is recorded, agree on
    the first pair that has entries of another exercise. *)
Lemma find_week_recordV wk dk x p hi i w :
  List.find (hasEntries hi i)
    (keys (default [] (prop_get w (recordV wk dk x p hi))) ≫= fun d => [(w, d)]) =
  List.find (hasEntries hi i)
    (keys (default [] (prop_get w hi)) ≫= fun d => [(w, d)]).
Proof.
  rewrite prop_get_recordV. destruct (String.eqb_spec wk w) as [<-|Hne]; [|done].
  match goal with |- context [default [] (Some ?v)] =>
    change (default [] (Some v)) with v end.
  rewrite keys_upsert.
  destruct (prop_get dk (default [] (prop_get wk hi))) as [D|] eqn:HD; [done|].
  rewrite bind_app, find_app, bind_singleton.
  assert (hasEntries hi i (wk, dk) = false) as Hf.
  { unfold hasEntries, entriesOf, entriesIn. cbn [fst snd]. by rewrite HD. }
  cbn [List.find]. rewrite Hf. by destruct (List.find _ _).
Qed.

(** Recording an entry of one exercise leaves the last performance of
    every other exercise as it was. *)
Lemma queryLastPerformance_recordV_other wk dk x p hi i :
  i <> x ->
  queryLastPerformance (recordV wk dk x p hi) i = queryLastPerformance hi i.
Proof.
  intros Hi. unfold queryLastPerformance.
  assert (Hfind : List.find (hasEntries (recordV wk dk x p hi) i)
                            (scanOrder (recordV wk dk x p hi)) =
                  List.find (hasEntries hi i) (scanOrder hi)).
  { erewrite find_ext_in; [|intros y _; by apply hasEntries_recordV_other].
    unfold scanOrder.
    rewrite (find_bind_ext _ _ _ _ (fun w _ => find_week_recordV wk dk x p hi i w)).
    f_equal. unfold recordV, upsert at 1.
    destruct (prop_get wk hi) as [W|] eqn:HW.
    - by erewrite keys_prop_set_present.
    - rewrite keys_prop_set_absent by done.
      rewrite <- (weekKeys_without wk (keys hi)) by (by apply prop_get_None).
      symmetry. apply bind_filter_nil. intros w _ Hw.
      assert (w = wk) as -> by (destruct (decide (w = wk)); [done|by destruct Hw]).
      by rewrite HW. }
  rewrite Hfind. destruct (List.find _ (scanOrder hi)) as [wd|]; [|done].
  rewrite entriesOf_recordV.
  destruct (String.eqb_spec x i) as [->|_]; [done|]. by rewrite !andb_false_r.
Qed.

(** After an entry is recorded the exercise has a last performance; it is
    the new entry when the exercise has no entry on another day of the week
    nor in a week whose key does not sort before the key of this week. *)
Lemma queryLastPerformance_recordV_new wk dk x p hi :
  (forall w d, (w, d) <> (wk, dk) -> str_le wk w -> entriesOf hi w d x = []) ->
  queryLastPerformance (recordV wk dk x p hi) x = Some p.
Proof.
  intros Hnone. set (hi' := recordV wk dk x p hi).
  destruct (recordV_chain wk dk x p hi) as (week' & dayData' & Hw & Hd & Hx).
  fold hi' in Hw.
  destruct (weekKeys_descending (keys hi')) as [Hperm Hsorted].
  assert (Hwk : wk ∈ reverse (sort (keys hi'))).
  { rewrite Hperm. apply prop_get_is_Some. eauto. }
  apply list_elem_of_split_l in Hwk as (ws1 & ws2 & Hws & Hws1).
  assert (Hdk : dk ∈ keys week') by (apply prop_get_is_Some; eauto).
  apply list_elem_of_split_l in Hdk as (ds1 & ds2 & Hds & Hds1).
  assert (Hentries : entriesOf hi' wk dk x = entriesOf hi wk dk x ++ [p]).
  { unfold hi'. by rewrite entriesOf_recordV, !String.eqb_refl. }
  unfold queryLastPerformance.
  assert (Hfind : List.find (hasEntries hi' x) (scanOrder hi') = Some (wk, dk)).
  { unfold scanOrder. rewrite Hws, bind_app, bind_cons, Hw.
    change (default [] (Some week')) with week'.
    rewrite Hds, bind_app, bind_cons, <- !app_assoc, app_assoc. cbn [app].
    apply find_first.
    - intros [w d] Hy. unfold hasEntries. cbn [fst snd]. unfold hi'.
      rewrite entriesOf_recordV. apply elem_of_app in Hy as [Hy|Hy].
      + apply list_elem_of_bind in Hy as (w' & Hy & Hw').
        apply list_elem_of_bind in Hy as (d' & Hy & _).
        apply list_elem_of_singleton in Hy. injection Hy as -> ->.
        destruct (String.eqb_spec wk w') as [->|Hne]; [done|]. cbn [andb].
        rewrite Hnone; [done|congruence|].
        rewrite Hws in Hsorted.
        apply (StronglySorted_app_1_elem_of _ _ _ w' wk) in Hsorted; [done|done|left].
      + apply list_elem_of_bind in Hy as (d' & Hy & Hd').
        apply list_elem_of_singleton in Hy. injection Hy as -> ->.
        destruct (String.eqb_spec dk d') as [->|Hne]; [done|].
        rewrite andb_false_r. cbn [andb].
        rewrite Hnone; [done|congruence|]. unfold str_le. by destruct (String.leb_total wk wk).
    - unfold hasEntries. cbn [fst snd]. rewrite Hentries, length_app.
      apply Nat.ltb_lt. cbn. lia. }
  rewrite Hfind. cbn [fst snd]. rewrite Hentries. apply last_snoc.
Qed.

End HistoryValues.

(** ** The week view *)

Section Rendering.
Context `{B : Builtins}.
Implicit Types (hi : HistoryV) (week : WeekHistoryV) (P : ProgramV).

Lemma mapR_Ret {A C} (f : A -> res C) (l : list A) :
  (forall x, x ∈ l -> exists y, f x = Ret y) ->
  exists ys, mapR f l = Ret ys /\ Forall2 (fun x y => f x = Ret y) l ys.
Proof.
  induction l as [|x l IH]; intros Hf.
  - exists []. split; [done | constructor].
  - destruct (Hf x) as [y Hy]; [left|].
    destruct IH as (ys & Hys & HF); [intros x' Hx'; apply Hf; by right|].
    exists (y :: ys). cbn [mapR]. rewrite Hy. cbn [mbind res_bind]. rewrite Hys.
    split; [done | by constructor].
Qed.

Lemma mapR_TypeError {A C} (f : A -> res C) (l : list A) x :
  x ∈ l -> f x = TypeError -> (forall x', x' ∈ l -> f x' <> Stuck) ->
  mapR f l = TypeError.
Proof.
  induction l as [|a l IH]; intros Hx Hfx Hns; [by apply elem_of_nil in Hx|].
  cbn [mapR]. destruct (f a) as [y| |] eqn:Hfa; cbn [mbind res_bind].
  - apply elem_of_cons in Hx as [->|Hx]; [congruence|].
    rewrite IH; [done|done|done|]. intros x' Hx'. apply Hns. by right.
  - done.
  - exfalso. by apply (Hns a); [left|].
Qed.

Lemma mapR_not_Stuck {A C} (f : A -> res C) (l : list A) :
  (forall x, x ∈ l -> f x <> Stuck) -> mapR f l <> Stuck.
Proof.
  induction l as [|a l IH]; intros Hns; [done|].
  cbn [mapR]. destruct (f a) as [y| |] eqn:Hfa; cbn [mbind res_bind].
  - destruct (mapR f l) eqn:Hl; cbn [mbind res_bind]; [done|done|].
    exfalso. apply IH; [|done]. intros x Hx. apply Hns. by right.
  - done.
  - exfalso. by apply (Hns a); [left|].
Qed.

Lemma renderRow_not_Stuck P day (dayData : DayHistoryV) i :
  renderRow P day dayData i <> Stuck.
Proof.
  unfold renderRow. destruct (prop_get i dayData) as [perfs|]; [|done].
  cbn [defined mbind res_bind]. by destruct (last perfs).
Qed.

Lemma renderRow_empty P day (dayData : DayHistoryV) i :
  prop_get i dayData = Some [] -> renderRow P day dayData i = TypeError.
Proof. unfold renderRow. by intros ->. Qed.

Lemma renderRow_entries P day (dayData : DayHistoryV) i :
  i ∈ keys dayData -> prop_get i dayData <> Some [] ->
  exists perfs p, prop_get i dayData = Some perfs /\ last perfs = Some p
    /\ renderRow P day dayData i = Ret (exerciseNameOf P day i, p).
Proof.
  intros Hi Hne. apply prop_get_keys in Hi as [perfs Hperfs].
  destruct (last perfs) as [p|] eqn:Hlast.
  - exists perfs, p. split_and!; [done|done|]. by eapply renderRow_last.
  - apply last_None in Hlast as ->. done.
Qed.

Lemma renderDay_not_Stuck P week day : renderDay P week day <> Stuck.
Proof.
  unfold renderDay. destruct (prop_get day week) as [dayData|]; [|done].
  destruct (List.length (keys dayData) =? 0)%nat; [done|].
  destruct (mapR _ _) eqn:Hrows; cbn [mbind res_bind]; [done|done|].
  exfalso. eapply mapR_not_Stuck; [|done]. intros i _. apply renderRow_not_Stuck.
Qed.

Lemma renderDay_none P week day :
  (forall dayData, prop_get day week = Some dayData -> keys dayData = []) ->
  renderDay P week day = Ret None.
Proof.
  intros Hnone. unfold renderDay. destruct (prop_get day week) as [dayData|]; [|done].
  by rewrite (Hnone dayData eq_refl).
Qed.

Lemma renderDay_rows P week day (dayData : DayHistoryV) :
  prop_get day week = Some dayData -> keys dayData <> [] ->
  (forall i, i ∈ keys dayData -> prop_get i dayData <> Some []) ->
  exists rows,
    renderDay P week day = Ret (Some (day, rows))
    /\ Forall2 (fun i r => renderRow P day dayData i = Ret r) (keys dayData) rows.
Proof.
  intros Hday Hkeys Hne. unfold renderDay. rewrite Hday.
  destruct (keys dayData) as [|k ks] eqn:Hk; [done|]. cbn [List.length Nat.eqb].
  rewrite <- Hk in *.
  destruct (mapR_Ret (renderRow P day dayData) (keys dayData)) as (rows & Hrows & HF).
  { intros i Hi. destruct (renderRow_entries P day dayData i Hi (Hne i Hi))
      as (perfs & p & _ & _ & Hrow). eauto. }
  exists rows. by rewrite Hrows.
Qed.

Lemma renderDay_TypeError P week day (dayData : DayHistoryV) i :
  prop_get day week = Some dayData -> i ∈ keys dayData ->
  prop_get i dayData = Some [] -> renderDay P week day = TypeError.
Proof.
  intros Hday Hi Hempty. unfold renderDay. rewrite Hday.
  destruct (keys dayData) as [|k ks] eqn:Hk; [by apply elem_of_nil in Hi|].
  cbn [List.length Nat.eqb]. rewrite <- Hk in *.
  rewrite (mapR_TypeError _ _ i); [done|done|by apply renderRow_empty|].
  intros i' _. apply renderRow_not_Stuck.
Qed.

(** The children of the week view of a week without an empty row. *)
Lemma renderWeekHistory_children hi P w week :
  prop_get (weekKeyOf w) hi = Some week -> ~ emptyRow week ->
  exists children,
    renderWeekHistory hi P w = Ret (HistoryContainer children)
    /\ Forall2 (fun day child => renderDay P week day = Ret child) weekdays children.
Proof.
  intros Hweek Hne. unfold renderWeekHistory. cbv zeta. rewrite Hweek.
  destruct (mapR_Ret (renderDay P week) weekdays) as (children & Hch & HF).
  { intros day Hday. destruct (prop_get day week) as [dayData|] eqn:Hd.
    - destruct (decide (keys dayData = [])) as [Hk|Hk].
      + exists None. apply renderDay_none. intros dd. rewrite Hd. by intros [= <-].
      + destruct (renderDay_rows P week day dayData Hd Hk) as (rows & Hrows & _); [|eauto].
        intros i Hi Hempty. apply Hne. by exists day, dayData, i.
    - exists None. apply renderDay_none. intros dd. by rewrite Hd. }
  exists children. by rewrite Hch.
Qed.

(** X3: the week view is the empty state when the History has no key for
    the week; otherwise it throws the [TypeError] of reading a field of
    [undefined] when, under one of the seven weekdays, an exercise id has
    an empty entry sequence, and it returns the container with one child
    per weekday when there is no such id. *)
Theorem renderWeekHistory_throws_on_empty_row (history : HistoryV) (program : ProgramV)
    (currentWeek : Z) :
  match prop_get (weekKeyOf currentWeek) history with
  | None => renderWeekHistory history program currentWeek = Ret EmptyState
  | Some week =>
      (emptyRow week -> renderWeekHistory history program currentWeek = TypeError)
      /\ (~ emptyRow week ->
          exists children,
            renderWeekHistory history program currentWeek = Ret (HistoryContainer children)
            /\ List.length children = 7%nat)
  end.
Proof.
  destruct (prop_get (weekKeyOf currentWeek) history) as [week|] eqn:Hweek.
  - split.
    + intros (day & dayData & i & Hday & Hd & Hi & Hempty).
      unfold renderWeekHistory. cbv zeta. rewrite Hweek.
      rewrite (mapR_TypeError _ _ day); [done|done| |].
      * by eapply renderDay_TypeError.
      * intros day' _. apply renderDay_not_Stuck.
    + intros Hne.
      destruct (renderWeekHistory_children history program currentWeek week Hweek Hne)
        as (children & Hrun & HF).
      exists children. split; [done|]. by rewrite <- (Forall2_length _ _ _ HF).
  - unfold renderWeekHistory. cbv zeta. by rewrite Hweek.
Qed.

(** A History without empty sequences has no empty row. *)
Lemma entriesNonEmpty_rows hi wk week :
  entriesNonEmpty hi -> prop_get wk hi = Some week -> ~ emptyRow week.
Proof.
  intros Hne Hweek (day & dayData & i & _ & Hd & _ & Hempty).
  apply prop_get_Some in Hweek, Hd, Hempty. by eapply Hne.
Qed.

(** Recording an entry makes no empty row. *)
Lemma emptyRow_recordV wk dk x p hi week' :
  (forall week, prop_get wk hi = Some week -> ~ emptyRow week) ->
  prop_get wk (recordV wk dk x p hi) = Some week' -> ~ emptyRow week'.
Proof.
  intros Hne. rewrite prop_get_recordV, String.eqb_refl. intros [= <-].
  intros (day & dayData & i & Hday & Hd & Hi & Hempty).
  set (W0 := default [] (prop_get wk hi)) in *.
  assert (Hold : forall d dd, prop_get d W0 = Some dd ->
                 prop_get wk hi = Some W0).
  { intros d dd. unfold W0. by destruct (prop_get wk hi). }
  unfold upsert at 1 in Hd. rewrite prop_get_set in Hd.
  destruct (String.eqb_spec dk day) as [<-|Hdk].
  - injection Hd as <-. unfold upsert in Hempty. rewrite prop_get_set in Hempty.
    destruct (String.eqb_spec x i) as [<-|Hxi].
    + injection Hempty as Hempty. by apply app_eq_nil in Hempty as [_ ?].
    + destruct (prop_get dk W0) as [D0|] eqn:HD0; [|done].
      change (default [] (Some D0)) with D0 in Hempty.
      apply (Hne W0); [by eapply Hold|]. exists dk, D0, i. split_and!; try done.
      apply prop_get_is_Some. eauto.
  - apply (Hne W0); [by eapply Hold|]. by exists day, dayData, i.
Qed.

(** The week view after an entry is recorded on a weekday shows the entry
    in the section of that day, under the name the exercise resolves to. *)
Lemma renderWeekHistory_recordV hi P w dk x p :
  dk ∈ weekdays ->
  (forall week, prop_get (weekKeyOf w) hi = Some week -> ~ emptyRow week) ->
  exists children rows,
    renderWeekHistory (recordV (weekKeyOf w) dk x p hi) P w = Ret (HistoryContainer children)
    /\ Some (dk, rows) ∈ children
    /\ (exerciseNameOf P dk x, p) ∈ rows.
Proof.
  intros Hdk Hne.
  destruct (recordV_chain (weekKeyOf w) dk x p hi) as (week' & dayData' & Hw & Hd & Hx).
  pose proof (emptyRow_recordV _ dk x p hi week' Hne Hw) as Hne'.
  destruct (renderWeekHistory_children _ P w week' Hw Hne') as (children & Hrun & HF).
  apply list_elem_of_lookup in Hdk as [j Hj].
  destruct (Forall2_lookup_l _ _ _ _ _ HF Hj) as (child & Hchild & Hrender).
  assert (Hkeys : x ∈ keys dayData') by (apply prop_get_is_Some; eauto).
  destruct (renderDay_rows P week' dk dayData' Hd) as (rows & Hrows & HFr).
  { intros Hnil. rewrite Hnil in Hkeys. by apply elem_of_nil in Hkeys. }
  { intros i Hi Hempty. apply Hne'. exists dk, dayData', i. split_and!; try done.
    by eapply list_elem_of_lookup_2. }
  rewrite Hrows in Hrender. injection Hrender as <-.
  apply list_elem_of_lookup in Hkeys as [k Hk].
  destruct (Forall2_lookup_l _ _ _ _ _ HFr Hk) as (row & Hrow & Hrenders).
  erewrite renderRow_last in Hrenders; [|exact Hx|apply last_snoc].
  injection Hrenders as <-.
  exists children, rows. split_and!; [done| |].
  - by eapply list_elem_of_lookup_2.
  - by eapply list_elem_of_lookup_2.
Qed.

End Rendering.

(** ** Values of the Program *)

Section ProgramValues.
Context `{B : Builtins}.
Implicit Types (P : ProgramV) (es : list Exercise).

Lemma renameV_cons wanted newName e es :
  renameV wanted newName (e :: es) =
  if String.eqb (id e) wanted then mkExercise (id e) newName :: es
  else e :: renameV wanted newName es.
Proof.
  unfold renameV. cbn [indexOfId]. destruct (String.eqb (id e) wanted); [done|].
  destruct (indexOfId wanted es) as [i|]; cbn; [|done].
  by destruct (es !! i).
Qed.

(** The exercise an id resolves to after a rename. *)
Lemma find_renameV i wanted newName es :
  List.find (fun ex => String.eqb (id ex) i) (renameV wanted newName es) =
  (fun ex => if String.eqb (id ex) wanted then mkExercise (id ex) newName else ex) <$>
    List.find (fun ex => String.eqb (id ex) i) es.
Proof.
  induction es as [|e es IH]; [done|]. rewrite renameV_cons.
  destruct (String.eqb_spec (id e) wanted) as [Hw|Hw]; cbn [List.find id].
  - destruct (String.eqb_spec (id e) i) as [Hi|Hi]; cbn.
    + by rewrite (proj2 (String.eqb_eq _ _) Hw).
    + destruct (List.find _ es) as [ex|] eqn:Hfind; [|done]. cbn.
      apply find_some in Hfind as [_ Hex]. apply String.eqb_eq in Hex.
      destruct (String.eqb_spec (id ex) wanted); [congruence|done].
  - destruct (String.eqb_spec (id e) i) as [Hi|Hi]; cbn.
    + by rewrite (proj2 (String.eqb_neq _ _) Hw).
    + apply IH.
Qed.

Lemma find_withoutId_other i x es :
  i <> x ->
  List.find (fun ex => String.eqb (id ex) i) (withoutId x es) =
  List.find (fun ex => String.eqb (id ex) i) es.
Proof.
  intros Hi. unfold withoutId. induction es as [|e es IH]; [done|]. cbn.
  destruct (String.eqb_spec (id e) x) as [Hx|Hx]; cbn.
  - destruct (String.eqb_spec (id e) i); [congruence|done].
  - by rewrite IH.
Qed.

Lemma find_withoutId_same x es :
  List.find (fun ex => String.eqb (id ex) x) (withoutId x es) = None.
Proof.
  unfold withoutId. induction es as [|e es IH]; [done|]. cbn.
  destruct (String.eqb_spec (id e) x) as [Hx|Hx]; cbn; [done|].
  by destruct (String.eqb_spec (id e) x).
Qed.

Lemma exerciseNameOf_other_day P day es' d i :
  d <> day -> exerciseNameOf (prop_set day es' P) d i = exerciseNameOf P d i.
Proof.
  intros Hd. unfold exerciseNameOf. rewrite prop_get_set.
  by destruct (String.eqb_spec day d).
Qed.

Lemma exerciseNameOf_same_find P day es es' i :
  prop_get day P = Some es ->
  List.find (fun ex => String.eqb (id ex) i) es' =
  List.find (fun ex => String.eqb (id ex) i) es ->
  exerciseNameOf (prop_set day es' P) day i = exerciseNameOf P day i.
Proof.
  intros Hes Hfind. unfold exerciseNameOf.
  rewrite prop_get_set, String.eqb_refl, Hes. cbn [mbind option_bind]. by rewrite Hfind.
Qed.

Lemma exerciseNameOf_found P day es' i ex :
  List.find (fun ex => String.eqb (id ex) i) es' = Some ex -> name ex <> "" ->
  exerciseNameOf (prop_set day es' P) day i = name ex.
Proof.
  intros Hfind Hname. unfold exerciseNameOf.
  rewrite prop_get_set, String.eqb_refl. cbn [mbind option_bind]. rewrite Hfind.
  cbn [mbind option_bind]. unfold truthy. by destruct (String.eqb_spec (name ex) "").
Qed.

Lemma exerciseNameOf_missing P day es' i :
  List.find (fun ex => String.eqb (id ex) i) es' = None ->
  exerciseNameOf (prop_set day es' P) day i = "Unknown Exercise".
Proof.
  intros Hfind. unfold exerciseNameOf.
  rewrite prop_get_set, String.eqb_refl. cbn [mbind option_bind]. by rewrite Hfind.
Qed.

Lemma hasWeekdays_prop_set P day es' :
  hasWeekdays P -> hasWeekdays (prop_set day es' P).
Proof.
  intros HP d Hd. rewrite prop_get_set. destruct (String.eqb day d); [eauto|by apply HP].
Qed.

Lemma hasWeekdays_default : hasWeekdays defaultProgram.
Proof.
  intros d Hd. unfold weekdays in Hd.
  repeat (apply elem_of_cons in Hd as [->|Hd]; [by eexists|]).
  by apply elem_of_nil in Hd.
Qed.

Lemma weekday_truthy day : day ∈ weekdays -> truthy day = true.
Proof.
  unfold weekdays. intros Hd. repeat (apply elem_of_cons in Hd as [->|Hd]; [done|]).
  by apply elem_of_nil in Hd.
Qed.

End ProgramValues.

(** ** Blank text *)

Section Blank.

Lemma list_ascii_of_rev_app (s acc : string) :
  list_ascii_of_string (String.rev_app s acc) =
  List.rev_append (list_ascii_of_string s) (list_ascii_of_string acc).
Proof.
  revert acc. induction s as [|c s IH]; intros acc; [done|]. cbn. by rewrite IH.
Qed.

Lemma list_ascii_of_rev (s : string) :
  list_ascii_of_string (String.rev s) = List.rev (list_ascii_of_string s).
Proof. unfold String.rev. by rewrite list_ascii_of_rev_app, rev_append_rev, app_nil_r. Qed.

Lemma blank_rev (s : string) : blank (String.rev s) = blank s.
Proof.
  unfold blank. rewrite list_ascii_of_rev.
  destruct (forallb isWhiteSpace (list_ascii_of_string s)) eqn:Hs.
  - apply forallb_forall. intros c Hc. apply in_rev in Hc.
    by eapply forallb_forall in Hs.
  - destruct (forallb isWhiteSpace (List.rev _)) eqn:Hr; [|done].
    rewrite <- Hs. symmetry. apply forallb_forall. intros c Hc.
    apply in_rev in Hc. by eapply forallb_forall in Hr.
Qed.

Lemma rev_empty (s : string) : String.rev s = "" -> s = "".
Proof.
  intros Hs. apply (f_equal list_ascii_of_string) in Hs.
  rewrite list_ascii_of_rev in Hs. cbn in Hs.
  destruct s as [|c s]; [done|]. cbn in Hs.
  by apply app_eq_nil in Hs as [_ ?].
Qed.

Lemma trimStart_empty (s : string) : trimStart s = "" <-> blank s = true.
Proof.
  unfold blank. induction s as [|c s IH]; [done|]. cbn.
  destruct (isWhiteSpace c); [done|]. by split.
Qed.

Lemma trimStart_blank (s : string) : blank (trimStart s) = true -> trimStart s = "".
Proof.
  unfold blank. induction s as [|c s IH]; [done|]. cbn.
  destruct (isWhiteSpace c) eqn:Hc; [done|]. cbn. by rewrite Hc.
Qed.

(** The test [!text.trim()] holds of the texts of white space only. *)
Lemma trim_blank (s : string) : truthy (trim s) = false <-> blank s = true.
Proof.
  unfold truthy, trim, trimEnd. rewrite negb_false_iff, String.eqb_eq. split.
  - intros Ht. apply rev_empty, trimStart_empty in Ht. rewrite blank_rev in Ht.
    apply trimStart_blank in Ht. by apply trimStart_empty.
  - intros Hs. apply trimStart_empty in Hs. by rewrite Hs.
Qed.

Lemma trim_truthy (s : string) : truthy (trim s) = true -> s <> "".
Proof. by intros Ht ->. Qed.

End Blank.

(** ** [JSON.parse] builds the tree of the value *)

Section Parsing.
Context `{B : Builtins}.
Implicit Types (h : heap) (l n : loc) (fp : list loc).

(** [alloc1] extends the heap with a tree that [f] reads as the value it
    was given. *)
Local Abbreviation builds alloc1 f :=
  (forall x h,
     h `prefix_of` (alloc1 x h).2
     /\ exists fp, f (alloc1 x h).2 (alloc1 x h).1 = Some (x, fp) /\ NoDup fp
          /\ forall y, y ∈ fp -> List.length h <= y).

Lemma prefix_keeps fp h h' : h `prefix_of` h' -> keeps fp h h'.
Proof. intros Hpre x c _ Hx. by eapply prefix_lookup_Some. Qed.

Lemma allocProps_read {A} (alloc1 : A -> heap -> loc * heap) (f : reader A)
    `{!Framed f} :
  builds alloc1 f ->
  forall (ps : props A) h,
    h `prefix_of` (allocProps alloc1 ps h).2
    /\ exists fp,
         readProps (f (allocProps alloc1 ps h).2) (allocProps alloc1 ps h).1 = Some (ps, fp)
         /\ NoDup fp /\ forall y, y ∈ fp -> List.length h <= y.
Proof.
  intros Hbuilds ps. induction ps as [|[k x] ps IH]; intros h.
  - cbn. split; [done|]. exists []. split_and!; [done|constructor|].
    intros y Hy. by apply elem_of_nil in Hy.
  - cbn [allocProps]. destruct (Hbuilds x h) as (Hpre1 & fp1 & Hx & Hnd1 & Hnew1).
    destruct (alloc1 x h) as [l h1] eqn:Halloc. cbn [fst snd] in *.
    destruct (IH h1) as (Hpre2 & fp2 & Hps & Hnd2 & Hnew2).
    destruct (allocProps alloc1 ps h1) as [ls h2] eqn:Hallocs. cbn [fst snd] in *.
    split; [by etrans|]. exists (fp1 ++ fp2). split_and!.
    + apply readProps_cons. exists x, fp1, ps, fp2. split_and!; try done.
      eapply (framed_keeps (f:=f)); [done|]. by apply prefix_keeps.
    + apply NoDup_app. split_and!; [done| |done]. intros y Hy1 Hy2.
      apply Hnew2 in Hy2. pose proof (framed_valid (f:=f) _ _ _ _ y Hx Hy1). lia.
    + intros y Hy. apply elem_of_app in Hy as [Hy|Hy]; [by apply Hnew1|].
      apply Hnew2 in Hy. apply prefix_length in Hpre1. lia.
Qed.

(** An object made of the properties [alloc1] builds. *)
Lemma allocObj_read {A} as_ (mk : props loc -> cell)
    (alloc1 : A -> heap -> loc * heap) (f : reader A) `{!Framed f} :
  (forall ps, as_ (mk ps) = Some ps) -> builds alloc1 f ->
  builds (fun V h => alloc (mk (allocProps alloc1 V h).1) (allocProps alloc1 V h).2)
         (readObj as_ f).
Proof.
  intros Has Hbuilds V h.
  destruct (allocProps_read alloc1 f Hbuilds V h) as (Hpre & fp & Hps & Hnd & Hnew).
  destruct (allocProps alloc1 V h) as [ps h1]. cbn [fst snd alloc] in *. split.
  - etrans; [done|]. by apply prefix_app_r.
  - exists (List.length h1 :: fp).
    assert (Hlt : forall y, y ∈ fp -> y < List.length h1).
    { eapply readProps_valid; [done|]. intros l v fl y Hl Hy.
      by eapply (framed_valid (f:=f)). }
    split_and!.
    + apply readObj_Some. exists ps, fp. split_and!; [by rewrite load_alloc| |done].
      eapply readProps_ext; [done|]. intros l v fl Hl _.
      eapply (framed_keeps (f:=f)); [done|]. apply prefix_keeps. by apply prefix_app_r.
    + apply NoDup_cons. split; [|done]. intros Hy. apply Hlt in Hy. lia.
    + intros y Hy. apply elem_of_cons in Hy as [->|Hy]; [|by apply Hnew].
      by apply prefix_length.
Qed.

Lemma parsePerformances_builds :
  builds (fun (entries : list Performance) h => alloc (CPerformances entries) h)
         readPerformances.
Proof.
  intros entries h. cbn [alloc fst snd]. split; [by apply prefix_app_r|].
  exists [List.length h]. unfold readPerformances. rewrite load_alloc. cbn.
  split_and!; [done|apply NoDup_singleton|].
  intros y Hy. apply list_elem_of_singleton in Hy. lia.
Qed.

Lemma parseDay_builds : builds parseDay readDay.
Proof.
  intros d h.
  pose proof (allocObj_read asDay CDay _ readPerformances (fun ps => eq_refl)
                parsePerformances_builds d h) as Hb.
  unfold parseDay. cbn beta in Hb. by destruct (allocProps _ d h).
Qed.

Lemma parseWeek_builds : builds parseWeek readWeek.
Proof.
  intros w h.
  pose proof (allocObj_read asWeek CWeek _ readDay (fun ps => eq_refl)
                parseDay_builds w h) as Hb.
  unfold parseWeek. cbn beta in Hb. by destruct (allocProps _ w h).
Qed.

Lemma parseHistory_builds : builds parseHistory readHistory.
Proof.
  intros hi h.
  pose proof (allocObj_read asHistory CHistory _ readWeek (fun ps => eq_refl)
                parseWeek_builds hi h) as Hb.
  unfold parseHistory. cbn beta in Hb. by destruct (allocProps _ hi h).
Qed.

Lemma allocList_exercises (es : list Exercise) h :
  let r := allocList (fun e => alloc (CExercise e)) es h in
  h `prefix_of` r.2
  /\ Forall2 (fun l e => load asExercise r.2 l = Some e) r.1 es
  /\ NoDup r.1
  /\ forall y, y ∈ r.1 -> List.length h <= y < List.length r.2.
Proof.
  cbv zeta. revert h. induction es as [|e es IH]; intros h.
  - cbn. split_and!; [done|constructor|constructor|].
    intros y Hy. by apply elem_of_nil in Hy.
  - cbn [allocList alloc]. destruct (IH (h ++ [CExercise e])) as (Hpre & HF & Hnd & Hnew).
    destruct (allocList _ es (h ++ [CExercise e])) as [ls h2]. cbn [fst snd] in *.
    assert (Hlen : S (List.length h) <= List.length h2).
    { apply prefix_length in Hpre. rewrite length_app in Hpre. cbn in Hpre. lia. }
    split_and!.
    + etrans; [|done]. by apply prefix_app_r.
    + constructor; [|done]. unfold load.
      rewrite (prefix_lookup_Some _ _ _ (CExercise e) (list_lookup_middle h [] _ _ eq_refl) Hpre).
      done.
    + apply NoDup_cons. split; [|done]. intros Hy. apply Hnew in Hy.
      rewrite length_app in Hy. cbn in Hy. lia.
    + intros y Hy. apply elem_of_cons in Hy as [->|Hy]; [lia|].
      apply Hnew in Hy. rewrite length_app in Hy. cbn in Hy. lia.
Qed.

Lemma parseExercises_builds : builds parseExercises readExercises.
Proof.
  intros es h. unfold parseExercises.
  destruct (allocList_exercises es h) as (Hpre & HF & Hnd & Hnew).
  destruct (allocList _ es h) as [ls h1]. cbn [fst snd alloc] in *. split.
  - etrans; [done|]. by apply prefix_app_r.
  - exists (List.length h1 :: ls). split_and!.
    + apply readExercises_Some. exists ls. split_and!; [by rewrite load_alloc| |done].
      eapply Forall2_load_keeps; [done|]. apply prefix_keeps. by apply prefix_app_r.
    + apply NoDup_cons. split; [|done]. intros Hy. apply Hnew in Hy. lia.
    + intros y Hy. apply elem_of_cons in Hy as [->|Hy]; [|by apply Hnew].
      by apply prefix_length.
Qed.

Lemma parseProgram_builds : builds parseProgram readProgram.
Proof.
  intros p h.
  pose proof (allocObj_read asProgram CProgram _ readExercises (fun ps => eq_refl)
                parseExercises_builds p h) as Hb.
  unfold parseProgram. cbn beta in Hb. by destruct (allocProps _ p h).
Qed.

(** The tree [JSON.parse] builds denotes the value, and what the heap
    held before denotes what it did. *)
Lemma parseProgram_denotes p h :
  h `prefix_of` (parseProgram p h).2
  /\ denotes readProgram (parseProgram p h).2 (parseProgram p h).1 p.
Proof.
  destruct (parseProgram_builds p h) as (Hpre & fp & Hr & Hnd & _).
  split; [done|]. by exists fp.
Qed.

Lemma parseHistory_denotes hi h :
  h `prefix_of` (parseHistory hi h).2
  /\ denotes readHistory (parseHistory hi h).2 (parseHistory hi h).1 hi.
Proof.
  destruct (parseHistory_builds hi h) as (Hpre & fp & Hr & Hnd & _).
  split; [done|]. by exists fp.
Qed.

Lemma denotes_prefix {A} (f : reader A) `{!Framed f} h h' l v :
  denotes f h l v -> h `prefix_of` h' -> denotes f h' l v.
Proof.
  intros (fp & Hr & Hnd) Hpre. exists fp. split; [|done].
  eapply (framed_keeps (f:=f)); [done|]. by apply prefix_keeps.
Qed.

End Parsing.

(** ** [loadData] beyond the first run *)

Section LoadData.
Context `{B : Builtins}.
Implicit Types (h : heap) (l n : loc) (fp : list loc) (s : State).

(** The heap of the first render. *)
Lemma initial_history_denotes h :
  [CProgram []; CHistory []] `prefix_of` h -> denotes readHistory h 1 [].
Proof.
  intros Hpre. eapply (denotes_prefix readHistory); [|exact Hpre].
  exists [1]. split; [done|apply NoDup_singleton].
Qed.

Lemma initial_program_denotes h :
  [CProgram []; CHistory []] `prefix_of` h -> denotes readProgram h 0 [].
Proof.
  intros Hpre. eapply (denotes_prefix readProgram); [|exact Hpre].
  exists [0]. split; [done|apply NoDup_singleton].
Qed.

(** The heap after [weekdays.forEach] has filled the new program. *)
Lemma default_program_denotes h :
  [CProgram []; CHistory [];
   CProgram [("Monday", 3); ("Tuesday", 4); ("Wednesday", 5); ("Thursday", 6);
             ("Friday", 7); ("Saturday", 8); ("Sunday", 9)];
   CExercises []; CExercises []; CExercises []; CExercises [];
   CExercises []; CExercises []; CExercises []] `prefix_of` h ->
  denotes readProgram h 2 defaultProgram.
Proof.
  intros Hpre. eapply (denotes_prefix readProgram); [|exact Hpre].
  exists [2; 3; 4; 5; 6; 7; 8; 9]. split; [done|].
  apply (bool_decide_unpack _). by vm_compute.
Qed.

(** X4: when both keys of the storage hold a value and both reads resolve,
    [loadData] puts exactly these values in the two state variables, as
    trees of new cells; it writes nothing and raises no alert, whatever
    the storage would answer to a write. *)
Theorem loadData_restores (week : Z) (st : Storage) (io : LoadIO)
    (p : ProgramV) (hi : HistoryV) :
  getProgramOk io = true -> getHistoryOk io = true ->
  workoutProgram st = Some p -> workoutHistory st = Some hi ->
  exists s',
    loadData io (initialState week st) = Ret s'
    /\ denotes readProgram (mem s') (program s') p
    /\ denotes readHistory (mem s') (history s') hi
    /\ programOf s' = Some p /\ historyOf s' = Some hi
    /\ storage s' = st
    /\ trace s' = [GetItem "workoutProgram" true; GetItem "workoutHistory" true]
    /\ ui s' = initialUI /\ currentWeek s' = week.
Proof.
  intros Hgp Hgh Hp Hhi. unfold loadData. rewrite Hgp, Hgh. cbn. rewrite Hp, Hhi.
  destruct (parseProgram_denotes p [CProgram []; CHistory []]) as [Hpre1 Hden1].
  destruct (parseProgram p _) as [lp h1]. cbn [fst snd] in *.
  unfold loadHistoryPart. cbn.
  destruct (parseHistory_denotes hi h1) as [Hpre2 Hden2].
  destruct (parseHistory hi h1) as [lh h2]. cbn [fst snd] in *.
  eexists. split; [reflexivity|]. cbn.
  assert (Hden1' : denotes readProgram h2 lp p) by (by eapply (denotes_prefix readProgram)).
  split_and!; try done.
  - by apply viewProgram_denotes.
  - by apply viewHistory_denotes.
Qed.

(** X5: when a call to the storage fails, [loadData] returns after the
    alert of the failed load.  A read that fails leaves both state
    variables with the empty objects of the first render and attempts no
    write.  On a first run, when the write of the new program fails, the
    program of the seven weekdays is in memory all the same, and the stored
    History, if there is one, is not loaded.  When only the write of the
    empty history fails, the Program is the stored one, or the new one. *)
Theorem loadData_failures (week : Z) (st : Storage) (io : LoadIO) :
  (getProgramOk io = false \/ getHistoryOk io = false ->
   exists s',
     loadData io (initialState week st) = Ret s'
     /\ programOf s' = Some [] /\ historyOf s' = Some []
     /\ storage s' = st
     /\ last (trace s') = Some (Alert "Error" "Failed to load workout data")
     /\ (forall key value ok, SetItem key value ok ∉ trace s'))
  /\ (getProgramOk io = true -> getHistoryOk io = true ->
      workoutProgram st = None -> setProgramOk io = false ->
      exists s',
        loadData io (initialState week st) = Ret s'
        /\ programOf s' = Some defaultProgram /\ historyOf s' = Some []
        /\ storage s' = st
        /\ trace s' = [GetItem "workoutProgram" true; GetItem "workoutHistory" true;
                       SetItem "workoutProgram" (ProgramBlob defaultProgram) false;
                       Alert "Error" "Failed to load workout data"])
  /\ (getProgramOk io = true -> getHistoryOk io = true ->
      workoutHistory st = None -> setHistoryOk io = false ->
      workoutProgram st <> None \/ setProgramOk io = true ->
      exists s',
        loadData io (initialState week st) = Ret s'
        /\ programOf s' = Some (default defaultProgram (workoutProgram st))
        /\ historyOf s' = Some []
        /\ workoutHistory (storage s') = None
        /\ last (trace s') = Some (Alert "Error" "Failed to load workout data")).
Proof.
  split_and!.
  - intros Hfail. unfold loadData.
    destruct (getProgramOk io) eqn:Hgp; cbn [negb].
    + destruct Hfail as [?|Hgh]; [done|]. rewrite Hgh. cbn [negb].
      eexists. split; [reflexivity|]. cbn. split_and!; try done.
      intros key value ok Hin. repeat (apply elem_of_cons in Hin as [?|Hin]; [done|]).
      by apply elem_of_nil in Hin.
    + eexists. split; [reflexivity|]. cbn. split_and!; try done.
      intros key value ok Hin. repeat (apply elem_of_cons in Hin as [?|Hin]; [done|]).
      by apply elem_of_nil in Hin.
  - intros Hgp Hgh Hp Hsp. unfold loadData. rewrite Hgp, Hgh. cbn. rewrite Hp. cbn.
    rewrite Hsp. eexists. split; [reflexivity|]. cbn. split_and!; done.
  - intros Hgp Hgh Hhi Hsh Hprog. unfold loadData. rewrite Hgp, Hgh. cbn. rewrite Hhi.
    destruct (workoutProgram st) as [p|] eqn:Hp.
    + destruct (parseProgram_denotes p [CProgram []; CHistory []]) as [Hpre1 Hden1].
      destruct (parseProgram p _) as [lp h1]. cbn [fst snd] in *.
      unfold loadHistoryPart. rewrite Hsh. eexists. split; [reflexivity|]. cbn.
      split_and!; try done.
      * by apply viewProgram_denotes.
      * by apply viewHistory_denotes, initial_history_denotes.
    + destruct Hprog as [?|Hsp]; [done|]. cbn. rewrite Hsp.
      unfold loadHistoryPart. rewrite Hsh. eexists. split; [reflexivity|]. by cbn.
Qed.

(** What [loadData] leaves is sound when both reads resolve and the stored
    values have the shapes the component relies on. *)
Lemma loadData_sound (week : Z) (st : Storage) (io : LoadIO) :
  getProgramOk io = true -> getHistoryOk io = true ->
  (forall p, workoutProgram st = Some p -> hasWeekdays p) ->
  (forall hi, workoutHistory st = Some hi -> entriesNonEmpty hi) ->
  exists s',
    loadData io (initialState week st) = Ret s' /\ sound s'
    /\ ui s' = initialUI /\ currentWeek s' = week.
Proof.
  intros Hgp Hgh HP Hhi. unfold loadData. rewrite Hgp, Hgh. cbn.
  assert (Hdefault := hasWeekdays_default). assert (Hnil := entriesNonEmpty_nil).
  destruct (workoutProgram st) as [p|] eqn:Hp.
  - destruct (parseProgram_denotes p [CProgram []; CHistory []]) as [Hpre1 Hden1].
    destruct (parseProgram p _) as [lp h1]. cbn [fst snd] in *.
    unfold loadHistoryPart. cbn.
    destruct (workoutHistory st) as [hi|] eqn:Hhist.
    + destruct (parseHistory_denotes hi h1) as [Hpre2 Hden2].
      destruct (parseHistory hi h1) as [lh h2]. cbn [fst snd] in *.
      assert (denotes readProgram h2 lp p) by (by eapply (denotes_prefix readProgram)).
      eexists. split; [reflexivity|]. split; [|done]. unfold sound. cbn.
      split_and!; [eauto|eauto|done|..]; intros ? ?; simplify_eq; eauto.
    + assert (denotes readHistory h1 1 []) by (apply initial_history_denotes; first [done | by eexists]).
      destruct (setHistoryOk io); (eexists; split; [reflexivity|]; split; [|done]);
        unfold sound; cbn;
        (split_and!; [eauto|eauto|done|..]; intros ? ?; simplify_eq; eauto).
  - cbn. destruct (setProgramOk io).
    + unfold loadHistoryPart. cbn. destruct (workoutHistory st) as [hi|] eqn:Hhist.
      * match goal with |- context [parseHistory hi ?h] =>
          destruct (parseHistory_denotes hi h) as [Hpre2 Hden2];
          destruct (parseHistory hi h) as [lh h2] end.
        cbn [fst snd] in *.
        assert (denotes readProgram h2 2 defaultProgram)
          by (apply default_program_denotes; first [done | by eexists]).
        eexists. split; [reflexivity|]. split; [|done]. unfold sound. cbn.
        split_and!; [eauto|eauto|done|..]; intros ? ?; simplify_eq; eauto.
      * match goal with |- context [withMem ?h _] =>
          assert (denotes readProgram h 2 defaultProgram)
            by (apply default_program_denotes; first [done | by eexists]);
          assert (denotes readHistory h 1 []) by (apply initial_history_denotes; first [done | by eexists]) end.
        destruct (setHistoryOk io); (eexists; split; [reflexivity|]; split; [|done]);
          unfold sound; cbn;
          (split_and!; [eauto|eauto|done|..]; intros ? ?; simplify_eq; eauto).
    + match goal with |- context [withMem ?h _] =>
        assert (denotes readProgram h 2 defaultProgram)
          by (apply default_program_denotes; first [done | by eexists]);
        assert (denotes readHistory h 1 []) by (apply initial_history_denotes; first [done | by eexists]) end.
      eexists. split; [reflexivity|]. split; [|done]. unfold sound. cbn.
      split_and!; [eauto|eauto|done|..]; intros ? ?; simplify_eq; eauto.
Qed.

End LoadData.

(** ** The handlers keep the heap in shape *)

Section Trees.
Context `{B : Builtins}.
Implicit Types (h : heap) (l n : loc) (fp : list loc) (s : State) (es : list Exercise).

Lemma bind_Ret {A C} (m : res A) (f : A -> res C) (c : C) :
  m ≫= f = Ret c -> exists a, m = Ret a /\ f a = Ret c.
Proof. destruct m as [a| |]; [eauto|done|done]. Qed.

(** One property is given another child, made of cells of the old child
    and of new cells. *)
Lemma readProps_replace {A} (f f' : loc -> option (A * list loc)) (bound : nat)
    ps V fp k c v fc c' v' fc' :
  readProps f ps = Some (V, fp) -> NoDup fp ->
  (forall x, x ∈ fp -> x < bound) ->
  prop_get k ps = Some c -> f c = Some (v, fc) ->
  (forall l w fl, f l = Some (w, fl) -> f' l = Some (w, fl)) ->
  f' c' = Some (v', fc') -> NoDup fc' ->
  (forall x, x ∈ fc' -> x ∈ fc \/ bound <= x) ->
  exists fp', readProps f' (prop_set k c' ps) = Some (prop_set k v' V, fp') /\ NoDup fp'
    /\ (forall x, x ∈ fp' -> x ∈ fp \/ bound <= x).
Proof.
  intros Hr Hnd Hb Hk Hc Hframe Hc' Hnd' Hgrow.
  revert V fp Hr Hnd Hb Hk. induction ps as [|[k0 c0] ps IH]; intros V fp; [done|].
  rewrite readProps_cons. intros (v0 & f0 & V' & fs & Hc0 & Hps & -> & ->) Hnd Hb.
  apply NoDup_app in Hnd as (Hnd0 & Hdisj & Hnds).
  cbn [prop_get prop_set]. destruct (String.eqb k0 k) eqn:Hk0.
  - intros [= ->]. rewrite Hc in Hc0. injection Hc0 as <- <-.
    exists (fc' ++ fs). split_and!.
    + apply readProps_cons. exists v', fc', V', fs. split_and!; try done.
      eapply readProps_ext; [done|]. intros l w fl Hl _. by apply Hframe.
    + apply NoDup_app. split_and!; [done| |done].
      intros x Hx Hxs. destruct (Hgrow x Hx) as [Hx'|Hx'].
      * by eapply Hdisj.
      * assert (x < bound) by (apply Hb, elem_of_app; by right). lia.
    + intros x Hx. apply elem_of_app in Hx as [Hx|Hx].
      * destruct (Hgrow x Hx); [left; apply elem_of_app; by left | by right].
      * left. apply elem_of_app. by right.
  - intros Hk.
    destruct (readProps_child _ _ _ _ _ _ Hps Hk) as (v2 & fc2 & pre & post & _ & Hc2 & ->).
    rewrite Hc in Hc2. injection Hc2 as <- <-.
    destruct (IH V' (pre ++ fc ++ post)) as (fp'' & Hr'' & Hnd'' & Hgrow''); try done.
    { intros x Hx. apply Hb. apply elem_of_app. by right. }
    exists (f0 ++ fp''). split_and!.
    + apply readProps_cons. exists v0, f0, (prop_set k v' V'), fp''. split_and!; try done.
      by apply Hframe.
    + apply NoDup_app. split_and!; [done| |done].
      intros x Hx Hx'. destruct (Hgrow'' x Hx') as [Hx''|Hx''].
      * by eapply Hdisj.
      * assert (x < bound) by (apply Hb, elem_of_app; by left). lia.
    + intros x Hx. apply elem_of_app in Hx as [Hx|Hx].
      * left. apply elem_of_app. by left.
      * destruct (Hgrow'' x Hx); [left; apply elem_of_app; by right | by right].
Qed.

Lemma filterOutId_sublist h exerciseId (ls kept : list loc) :
  filterOutId h exerciseId ls = Ret kept -> kept `sublist_of` ls.
Proof.
  revert kept. induction ls as [|l ls IH]; intros kept.
  - cbn. by intros [= <-].
  - cbn [filterOutId]. intros Hrun.
    apply bind_Ret in Hrun as (ex & _ & Hrun). apply bind_Ret in Hrun as (kept' & Hk & Hrun).
    injection Hrun as <-. specialize (IH _ Hk).
    destruct (negb _); [by apply sublist_skip | by apply sublist_cons].
Qed.

(** After a successful [removeExercise] the Program is a tree again. *)
Lemma removeExercise_tree exerciseId s P fp day es :
  readProgram (mem s) (program s) = Some (P, fp) -> NoDup fp ->
  selectedDay (ui s) = Some day -> truthy day = true ->
  prop_get day P = Some es ->
  exists s',
    removeExercise true exerciseId s = Ret s'
    /\ denotes readProgram (mem s') (program s')
         (prop_set day (withoutId exerciseId es) P).
Proof.
  intros Hroot Hnd Hday Htday Hes.
  apply readObj_Some in Hroot as (days & fps & Hdays & Hr & ->).
  set (h := mem s) in *. set (root := program s) in *.
  set (root' := List.length h). set (h1 := h ++ [CProgram days]).
  pose proof (readProps_get _ _ _ _ day Hr) as Hget.
  destruct (prop_get day days) as [arr|] eqn:Harr; [|congruence].
  destruct Hget as (es0 & fa & Hes0 & Ha & Hfa). rewrite Hes in Hes0. injection Hes0 as <-.
  pose proof Ha as Ha0.
  apply readExercises_Some in Ha as (ls & Hls & HF & ->).
  assert (Hext : forall x c, h !! x = Some c -> h1 !! x = Some c).
  { intros x c Hx. by apply lookup_app_l_Some. }
  assert (HF1 : Forall2 (fun l e => load asExercise h1 l = Some e) ls es).
  { eapply Forall2_load_keeps; [done|]. intros x c _. apply Hext. }
  destruct (filterOutId_spec h1 exerciseId ls es HF1) as (kept & Hkept & HFk).
  pose proof (filterOutId_sublist _ _ _ _ Hkept) as Hsub.
  set (filtered := List.length h1). set (h2 := h1 ++ [CExercises kept]).
  set (h3 := <[root' := CProgram (prop_set day filtered days)]> h2).
  assert (Hlen1 : List.length h1 = S (List.length h)).
  { unfold h1. rewrite length_app. cbn. lia. }
  assert (Hext3 : forall x c, h !! x = Some c -> h3 !! x = Some c).
  { intros x c Hx. unfold h3. rewrite list_lookup_insert_ne.
    - unfold h2. by apply lookup_app_l_Some, Hext.
    - apply lookup_lt_Some in Hx. unfold root'. lia. }
  assert (Hext13 : forall x c, x <> root' -> h1 !! x = Some c -> h3 !! x = Some c).
  { intros x c Hne Hx. unfold h3. rewrite list_lookup_insert_ne by done.
    unfold h2. by apply lookup_app_l_Some. }
  apply NoDup_cons in Hnd as [Hroot Hnd].
  assert (Hvalid : forall x, x ∈ fps -> x < List.length h).
  { eapply readProps_valid; [done|]. intros l v fl x Hl Hx.
    by eapply (framed_valid (f:=readExercises)). }
  assert (Hndls : NoDup (arr :: ls)).
  { destruct (readProps_child _ _ _ _ _ _ Hr Harr) as (? & fa' & pre & post & _ & Ha' & Heq).
    rewrite Ha0 in Ha'. injection Ha' as _ <-. rewrite Heq in Hnd.
    apply NoDup_app in Hnd as (_ & _ & Hnd). by apply NoDup_app in Hnd as (? & _ & _). }
  apply NoDup_cons in Hndls as [_ Hndls].
  assert (Hfiltered : readExercises h3 filtered =
                      Some (withoutId exerciseId es, filtered :: kept)).
  { apply readExercises_Some. exists kept. split_and!; try done.
    - unfold load, h3. rewrite list_lookup_insert_ne by (unfold filtered, root'; lia).
      unfold h2, filtered. by rewrite list_lookup_middle.
    - eapply Forall2_impl; [exact HFk|]. cbn. intros l e Hl.
      apply load_Some in Hl as (c & Hc & Hce). apply load_Some. exists c. split; [|done].
      apply Hext13; [|done]. intros ->. unfold h1, root' in Hc.
      rewrite list_lookup_middle in Hc by done. injection Hc as <-. done. }
  destruct (readProps_replace (readExercises h) (readExercises h3) (List.length h1)
              days P fps day arr es (arr :: ls) filtered
              (withoutId exerciseId es) (filtered :: kept) Hr Hnd)
    as (fp' & Hfp' & Hnd' & Hgrow); try done.
  { intros x Hx. apply Hvalid in Hx. lia. }
  { intros l w fl Hl. eapply (framed_keeps (f:=readExercises)); [done|].
    intros x c _. apply Hext3. }
  { apply NoDup_cons. split; [|by eapply sublist_NoDup].
    intros Hin. assert (filtered ∈ ls) as Hin' by (by eapply elem_of_sublist).
    assert (filtered < List.length h); [|unfold filtered in *; lia].
    apply Hvalid, Hfa. by right. }
  { intros x Hx. apply elem_of_cons in Hx as [->|Hx]; [right; unfold filtered; lia|].
    left. right. by eapply elem_of_sublist. }
  assert (Hnew : readProgram h3 root' =
                 Some (prop_set day (withoutId exerciseId es) P, root' :: fp')).
  { apply readObj_Some. exists (prop_set day filtered days), fp'.
    split_and!; try done. unfold h3. rewrite load_insert; [done|].
    unfold h2. rewrite length_app, Hlen1. unfold root'. lia. }
  unfold removeExercise. rewrite Hday, Htday. cbn [negb].
  fold h root. rewrite Hdays. cbn [typed mbind res_bind alloc]. fold h1 root'.
  rewrite Harr. cbn [defined mbind res_bind].
  assert (load asExercises h1 arr = Some ls) as ->.
  { eapply load_keeps; [done|]. intros x c _. apply Hext. }
  cbn [typed mbind res_bind]. rewrite Hkept. cbn [mbind res_bind]. fold filtered h2.
  unfold storeProp.
  assert (load asProgram h2 root' = Some days) as ->.
  { unfold load, h2, h1, root'. rewrite lookup_app_l.
    - by rewrite list_lookup_middle.
    - rewrite length_app. cbn. lia. }
  cbn [typed mbind res_bind]. fold h3.
  unfold saveProgram. cbn [mem withMem]. unfold viewProgram. rewrite Hnew.
  cbn [fmap option_fmap option_map fst typed mbind res_bind].
  eexists. split; [reflexivity|]. cbn. exists (root' :: fp'). split; [done|].
  apply NoDup_cons. split; [|done]. intros Hin.
  destruct (Hgrow _ Hin) as [Hin'|Hin']; [apply Hvalid in Hin'|]; unfold root' in *; lia.
Qed.

End Trees.

(** ** No use of the screen throws *)

Section Soundness.
Context `{B : Builtins}.
Implicit Types (h : heap) (l n : loc) (fp : list loc) (s : State) (es : list Exercise).

(** What [addExercise] leaves of the navigation and of the other form. *)
Lemma addExercise_navigation now ok s s' :
  addExercise now ok s = Ret s' ->
  selectedDay (ui s') = selectedDay (ui s) /\ currentWeek s' = currentWeek s
  /\ history s' = history s /\ modalVisible (ui s') = modalVisible (ui s)
  /\ performanceModalVisible (ui s') = performanceModalVisible (ui s)
  /\ currentExercise (ui s') = currentExercise (ui s)
  /\ weightText (ui s') = weightText (ui s) /\ setsText (ui s') = setsText (ui s)
  /\ repsText (ui s') = repsText (ui s) /\ notesText (ui s') = notesText (ui s).
Proof.
  unfold addExercise. destruct (selectedDay (ui s)) as [day|] eqn:Hday.
  - destruct (_ || _); [by intros [= <-]|]. intros Hrun.
    apply bind_Ret in Hrun as (days & _ & Hrun). cbn [alloc] in Hrun.
    apply bind_Ret in Hrun as (h2 & _ & Hrun).
    apply bind_Ret in Hrun as (s1 & Hsave & Hrun). injection Hrun as <-.
    unfold saveProgram in Hsave. apply bind_Ret in Hsave as (text & _ & Hsave).
    destruct ok; injection Hsave as <-; cbn; by rewrite Hday.
  - by intros [= <-].
Qed.

(** Soundness looks at the heap, the two state variables, the selected day
    and the storage only. *)
Lemma sound_ext s s' :
  mem s' = mem s -> program s' = program s -> history s' = history s ->
  selectedDay (ui s') = selectedDay (ui s) -> storage s' = storage s ->
  sound s -> sound s'.
Proof. unfold sound. by intros -> -> -> -> ->. Qed.

Lemma addExercise_sound now ok s :
  sound s -> exists s', addExercise now ok s = Ret s' /\ sound s'.
Proof.
  intros Hsound. pose proof Hsound as
    ((P & (fp & HrP & HndP) & HW) & (hi & (fph & Hrh & Hndh) & Hne) & Hsel & HsP & Hsh).
  destruct (selectedDay (ui s)) as [day|] eqn:Hday.
  - specialize (Hsel day eq_refl). pose proof (weekday_truthy day Hsel) as Htday.
    destruct (truthy (trim (exerciseName (ui s)))) eqn:Hname.
    + destruct (HW day Hsel) as [es Hes].
      destruct (addExercise_run now ok s P fp day es HrP HndP Hday Htday Hname Hes)
        as (s' & Hrun & Hh & Hkeep & Hden & _ & _ & _ & Hok).
      exists s'. split; [done|].
      destruct (addExercise_navigation _ _ _ _ Hrun) as (Hsel' & _).
      unfold sound. split_and!.
      * eexists. split; [done|]. by apply hasWeekdays_prop_set.
      * exists hi. split; [|done]. exists fph. split; [|done]. rewrite Hh.
        by eapply readHistory_outside_program.
      * rewrite Hsel', Hday. by intros ? [= <-].
      * destruct ok.
        -- destruct Hok as [-> _]. cbn. intros ? [= <-]. by apply hasWeekdays_prop_set.
        -- destruct Hok as (_ & -> & _). done.
      * destruct ok.
        -- destruct Hok as [-> _]. done.
        -- destruct Hok as (_ & -> & _). done.
    + exists (alert "Error" "Please enter an exercise name" s). split; [|done].
      unfold addExercise. by rewrite Hday, Hname.
  - exists (alert "Error" "Please enter an exercise name" s). split; [|done].
    unfold addExercise. by rewrite Hday.
Qed.

Lemma removeExercise_sound ok exerciseId s :
  sound s -> exists s', removeExercise ok exerciseId s = Ret s' /\ sound s'.
Proof.
  intros Hsound. pose proof Hsound as
    ((P & (fp & HrP & HndP) & HW) & (hi & (fph & Hrh & Hndh) & Hne) & Hsel & HsP & Hsh).
  destruct (selectedDay (ui s)) as [day|] eqn:Hday.
  - specialize (Hsel day eq_refl). pose proof (weekday_truthy day Hsel) as Htday.
    destruct (HW day Hsel) as [es Hes].
    assert (HP : programOf s = Some P) by (apply viewProgram_denotes; by exists fp).
    destruct (removeExercise_run ok exerciseId s P day es HP Hday Htday Hes)
      as (s' & Hrun & Hh & Hui & _ & Hext & Hok).
    exists s'. split; [done|].
    assert (Hhist : readHistory (mem s') (history s') = Some (hi, fph)).
    { rewrite Hh. eapply (framed_keeps (f:=readHistory)); [done|]. intros x c _. apply Hext. }
    unfold sound. rewrite Hui, Hday. destruct ok.
    + destruct Hok as (_ & -> & _).
      destruct (removeExercise_tree exerciseId s P fp day es HrP HndP Hday Htday Hes)
        as (s'' & Hrun' & Hden).
      rewrite Hrun in Hrun'. injection Hrun' as <-. cbn. split_and!.
      * eexists. split; [done|]. by apply hasWeekdays_prop_set.
      * exists hi. split; [by exists fph|done].
      * by intros ? [= <-].
      * intros ? [= <-]. by apply hasWeekdays_prop_set.
      * done.
    + destruct Hok as (Hp & _ & -> & _). split_and!; try done.
      * exists P. split; [|done]. exists fp. split; [|done]. rewrite Hp.
        eapply (framed_keeps (f:=readProgram)); [done|]. intros x c _. apply Hext.
      * exists hi. split; [by exists fph|done].
      * by intros ? [= <-].
  - exists s. split; [|done]. unfold removeExercise. by rewrite Hday.
Qed.

Lemma recordPerformance_sound now ok s :
  sound s -> exists s', recordPerformance now ok s = Ret s' /\ sound s'.
Proof.
  intros Hsound. pose proof Hsound as
    ((P & (fp & HrP & HndP) & HW) & (hi & (fph & Hrh & Hndh) & Hne) & Hsel & HsP & Hsh).
  assert (Halert : sound (alert "Error" "Please enter sets and reps" s)) by done.
  destruct (selectedDay (ui s)) as [day|] eqn:Hday;
    [|eexists; split; [|exact Halert]; unfold recordPerformance; by rewrite Hday].
  destruct (currentExercise (ui s)) as [exercise|] eqn:Hex;
    [|eexists; split; [|exact Halert]; unfold recordPerformance; by rewrite Hday, Hex].
  specialize (Hsel day eq_refl). pose proof (weekday_truthy day Hsel) as Htday.
  destruct (truthy (trim (setsText (ui s)))) eqn:Hsets;
    [|eexists; split; [|exact Halert]; unfold recordPerformance;
      by rewrite Hday, Hex, Hsets].
  destruct (truthy (trim (repsText (ui s)))) eqn:Hreps;
    [|eexists; split; [|exact Halert]; unfold recordPerformance;
      by rewrite Hday, Hex, Hsets, Hreps].
  destruct (recordPerformance_run now ok s hi fph day exercise
              Hrh Hndh Hday Hex Hsets Hreps Htday)
    as (s' & Hrun & Hkeep & Hp & _ & Hday' & _ & Hok).
  exists s'. split; [done|].
  assert (Hprog : readProgram (mem s') (program s') = Some (P, fp)).
  { rewrite Hp. by eapply readProgram_outside_history. }
  unfold sound. rewrite Hday'. destruct ok.
  - destruct Hok as (Hden & -> & _). cbn. split_and!.
    + exists P. split; [by exists fp|done].
    + eexists. split; [done|]. by apply entriesNonEmpty_recordV.
    + by intros ? [= <-].
    + done.
    + intros ? [= <-]. by apply entriesNonEmpty_recordV.
  - destruct Hok as (_ & -> & _ & Hden). split_and!; try done.
    + exists P. split; [by exists fp|done].
    + eexists. split; [done|].
      destruct (prop_get _ hi); [by apply entriesNonEmpty_recordV|done].
    + by intros ? [= <-].
Qed.

Lemma handle_sound e s :
  sound s -> onScreen e -> exists s', handle e s = Ret s' /\ sound s'.
Proof.
  intros Hsound He. destruct e; cbn [handle];
    try (by apply addExercise_sound || by apply removeExercise_sound
         || by apply recordPerformance_sound);
    try (eexists; split; [reflexivity|]; by eapply sound_ext).
  - (* the back arrow *)
    eexists. split; [reflexivity|]. destruct Hsound as (HP & Hh & _ & Hst).
    unfold sound. cbn. split_and!; try done; by destruct Hst.
  - (* the week before *)
    eexists. split; [reflexivity|]. unfold changeWeek. cbv zeta.
    destruct (0 <? _)%Z; [by eapply sound_ext|done].
  - (* the week after *)
    eexists. split; [reflexivity|]. unfold changeWeek. cbv zeta.
    destruct (0 <? _)%Z; [by eapply sound_ext|done].
  - (* a day card *)
    eexists. split; [reflexivity|]. destruct Hsound as (HP & Hh & _ & Hst).
    unfold sound. cbn. split_and!; try done; [|by destruct Hst..].
    by intros ? [= <-].
Qed.

Lemma run_sound events s :
  sound s -> Forall onScreen events -> exists s', run events s = Ret s' /\ sound s'.
Proof.
  intros Hsound Hon. revert s Hsound.
  induction Hon as [|e events He Hon IH]; intros s Hsound; [by exists s|].
  destruct (handle_sound e s Hsound He) as (s1 & Hrun1 & Hsound1).
  destruct (IH s1 Hsound1) as (s' & Hrun & Hsound').
  exists s'. cbn [run]. by rewrite Hrun1.
Qed.

(** The week view of a sound state renders. *)
Lemma sound_renders s :
  sound s ->
  exists p hi view,
    programOf s = Some p /\ historyOf s = Some hi
    /\ renderWeekHistory hi p (currentWeek s) = Ret view.
Proof.
  intros ((P & HdenP & _) & (hi & Hdenh & Hne) & _).
  destruct (prop_get (weekKeyOf (currentWeek s)) hi) as [week|] eqn:Hweek.
  - destruct (renderWeekHistory_children hi P (currentWeek s) week Hweek)
      as (children & Hrun & _); [by eapply entriesNonEmpty_rows|].
    exists P, hi, (HistoryContainer children). split_and!; [| |done].
    + by apply viewProgram_denotes.
    + by apply viewHistory_denotes.
  - exists P, hi, EmptyState. split_and!.
    + by apply viewProgram_denotes.
    + by apply viewHistory_denotes.
    + unfold renderWeekHistory. cbv zeta. by rewrite Hweek.
Qed.

End Soundness.

(** ** The handlers followed by the views, by each other, by a restart *)

Section Compositions.
Context `{B : Builtins}.
Implicit Types (h : heap) (l n : loc) (fp : list loc) (s : State) (es : list Exercise).

(** X6: from a sound state no sequence of uses of the controls throws:
    every handler returns, in a sound state, and there the week view
    renders. *)
Theorem sound_states_never_throw (events : list event) (s : State) :
  sound s -> Forall onScreen events ->
  exists s' p hi view,
    run events s = Ret s' /\ sound s'
    /\ programOf s' = Some p /\ historyOf s' = Some hi
    /\ renderWeekHistory hi p (currentWeek s') = Ret view.
Proof.
  intros Hsound Hon. destruct (run_sound events s Hsound Hon) as (s' & Hrun & Hsound').
  destruct (sound_renders s' Hsound') as (p & hi & view & Hp & Hhi & Hview).
  by exists s', p, hi, view.
Qed.

(** X7: when its two reads resolve, [loadData] ends in a sound state on a
    first run, and on every start from the storage a sound state has left,
    whatever the outcome of the writes. *)
Theorem sessions_start_sound (week : Z) (io : LoadIO) :
  getProgramOk io = true -> getHistoryOk io = true ->
  (exists s', loadData io (initialState week (mkStorage None None)) = Ret s' /\ sound s')
  /\ (forall s, sound s ->
        exists s', loadData io (initialState week (storage s)) = Ret s' /\ sound s').
Proof.
  intros Hgp Hgh. split.
  - destruct (loadData_sound week (mkStorage None None) io Hgp Hgh) as (s' & Hrun & Hs & _);
      [done|done|]. by exists s'.
  - intros s (_ & _ & _ & HsP & Hsh).
    destruct (loadData_sound week (storage s) io Hgp Hgh HsP Hsh) as (s' & Hrun & Hs & _).
    by exists s'.
Qed.

(** [addExercise] and [removeExercise] on a day the Program has no key
    for. *)
Lemma missing_day_throws now ok exerciseId s P day :
  programOf s = Some P -> selectedDay (ui s) = Some day -> truthy day = true ->
  prop_get day P = None ->
  (truthy (trim (exerciseName (ui s))) = true -> addExercise now ok s = TypeError)
  /\ removeExercise ok exerciseId s = TypeError.
Proof.
  intros HP Hday Htday Hnone. unfold programOf, viewProgram in HP.
  destruct (readProgram (mem s) (program s)) as [[P0 fp]|] eqn:Hroot; [|done].
  injection HP as ->.
  apply readObj_Some in Hroot as (days & fps & Hdays & Hr & ->).
  pose proof (readProps_get _ _ _ _ day Hr) as Hget.
  destruct (prop_get day days) as [arr|] eqn:Harr.
  { destruct Hget as (? & ? & ? & _). congruence. }
  split.
  - intros Hname. unfold addExercise. rewrite Hday, Hname, Htday. cbn [negb orb].
    rewrite Hdays. cbn [typed mbind res_bind alloc]. rewrite Harr.
    by destruct (truthyO _).
  - unfold removeExercise. rewrite Hday, Htday. cbn [negb].
    rewrite Hdays. cbn [typed mbind res_bind alloc]. by rewrite Harr.
Qed.

(** X8: when a read of [loadData] fails the Program stays the empty
    object of the first render, which has no key for any day: selecting a
    day, opening the exercise form, typing a name and saving then throws
    the [TypeError] of calling [push] on [undefined]. *)
Theorem failed_read_then_save_throws (week : Z) (st : Storage) (io : LoadIO)
    (day text : string) (now : Z) (ok : bool) :
  getProgramOk io = false \/ getHistoryOk io = false ->
  day ∈ weekdays -> truthy (trim text) = true ->
  exists s0,
    loadData io (initialState week st) = Ret s0
    /\ programOf s0 = Some []
    /\ run [PressDay day; PressAdd; ChangeExerciseName text; SaveExercise now ok] s0
       = TypeError.
Proof.
  intros Hfail Hday Htext.
  assert (Hload : exists s0, loadData io (initialState week st) = Ret s0
                    /\ programOf s0 = Some []).
  { unfold loadData. destruct (getProgramOk io) eqn:Hgp; cbn [negb].
    - destruct Hfail as [?|Hgh]; [done|]. rewrite Hgh. cbn [negb]. by eexists.
    - by eexists. }
  destruct Hload as (s0 & Hload & Hprog). exists s0. split_and!; [done|done|].
  cbn [run handle mbind res_bind].
  set (s1 := setExerciseName text (openExerciseModal (setSelectedDay (Some day) s0))).
  destruct (missing_day_throws now ok "" s1 [] day) as [Hadd _]; try done.
  - by apply weekday_truthy.
  - by rewrite Hadd.
Qed.

(** The Program a record leaves. *)
Lemma recordPerformance_program s s' hi fp prog :
  readHistory (mem s) (history s) = Some (hi, fp) ->
  keepsOutside fp (mem s) (mem s') -> program s' = program s ->
  programOf s = Some prog -> programOf s' = Some prog.
Proof.
  intros Hroot Hkeep Hp Hprog. unfold programOf, viewProgram in *. rewrite Hp.
  destruct (readProgram (mem s) (program s)) as [[P fpP]|] eqn:HP; [|done].
  injection Hprog as ->.
  by rewrite (readProgram_outside_history _ _ _ _ _ _ _ _ HP Hroot Hkeep).
Qed.

(** X9: after a successful record the exercise has a last performance.
    It is the new entry when the exercise has no entry on another day of
    the week nor in any week whose key does not sort before the key of the
    current week.  The last performance of every other exercise is what it
    was. *)
Theorem recordPerformance_then_getLastPerformance (now : Z) (s : State)
    (hi : HistoryV) (day : string) (exercise : Exercise) :
  denotes readHistory (mem s) (history s) hi ->
  filled (ui s) day exercise ->
  let weekKey := weekKeyOf (currentWeek s) in
  exists s' hi',
    recordPerformance now true s = Ret s' /\ historyOf s' = Some hi'
    /\ (exists q, getLastPerformance hi' (id exercise) = Ret (Some q))
    /\ ((forall w d, (w, d) <> (weekKey, day) -> str_le weekKey w ->
                     entriesOf hi w d (id exercise) = []) ->
        getLastPerformance hi' (id exercise) = Ret (Some (performanceOf now (ui s))))
    /\ (forall i, i <> id exercise ->
          getLastPerformance hi' i = getLastPerformance hi i).
Proof.
  intros (fp & Hroot & Hnd) (Hday & Hex & Hsets & Hreps & Htday). cbv zeta.
  destruct (recordPerformance_run now true s hi fp day exercise
              Hroot Hnd Hday Hex Hsets Hreps Htday)
    as (s' & Hrun & _ & _ & _ & _ & _ & Hden & _).
  eexists s', _. split_and!; [done|by apply viewHistory_denotes|..].
  - rewrite getLastPerformance_query.
    destruct (queryLastPerformance_is_Some
                (recordV (weekKeyOf (currentWeek s)) day (id exercise)
                         (performanceOf now (ui s)) hi)
                (id exercise) (weekKeyOf (currentWeek s)) day) as [q Hq];
      [|exists q; by rewrite Hq].
    rewrite entriesOf_recordV, !String.eqb_refl. cbn [andb].
    intros Habs. by apply app_eq_nil in Habs as [_ ?].
  - intros Hnone. rewrite getLastPerformance_query.
    by rewrite queryLastPerformance_recordV_new.
  - intros i Hi. rewrite !getLastPerformance_query.
    by rewrite queryLastPerformance_recordV_other.
Qed.

(** X10: after a successful record on a weekday, in a History whose week
    had no empty row, the view of the current week has a section for the
    day that shows the entry under the name of the exercise; the view of
    every other week is what it was. *)
Theorem recordPerformance_then_renderWeekHistory (now : Z) (s : State)
    (hi : HistoryV) (prog : ProgramV) (day : string) (exercise : Exercise) :
  denotes readHistory (mem s) (history s) hi ->
  programOf s = Some prog ->
  filled (ui s) day exercise -> day ∈ weekdays ->
  (forall week, prop_get (weekKeyOf (currentWeek s)) hi = Some week -> ~ emptyRow week) ->
  exists s' hi' children rows,
    recordPerformance now true s = Ret s'
    /\ historyOf s' = Some hi' /\ programOf s' = Some prog
    /\ currentWeek s' = currentWeek s
    /\ renderWeekHistory hi' prog (currentWeek s') = Ret (HistoryContainer children)
    /\ Some (day, rows) ∈ children
    /\ (exerciseNameOf prog day (id exercise), performanceOf now (ui s)) ∈ rows
    /\ (forall w, w <> currentWeek s ->
          renderWeekHistory hi' prog w = renderWeekHistory hi prog w).
Proof.
  intros (fp & Hroot & Hnd) Hprog (Hday & Hex & Hsets & Hreps & Htday) Hweekday Hne.
  destruct (recordPerformance_run now true s hi fp day exercise
              Hroot Hnd Hday Hex Hsets Hreps Htday)
    as (s' & Hrun & Hkeep & Hp & Hweek & _ & _ & Hden & _).
  destruct (renderWeekHistory_recordV hi prog (currentWeek s) day (id exercise)
              (performanceOf now (ui s)) Hweekday Hne)
    as (children & rows & Hview & Hchild & Hrow).
  eexists s', _, children, rows. split_and!.
  - done.
  - by apply viewHistory_denotes.
  - by eapply recordPerformance_program.
  - done.
  - by rewrite Hweek.
  - done.
  - done.
  - intros w Hw. unfold renderWeekHistory. cbv zeta. rewrite prop_get_recordV.
    destruct (String.eqb_spec (weekKeyOf (currentWeek s)) (weekKeyOf w)) as [Heq|_]; [|done].
    apply weekKeyOf_inj in Heq. congruence.
Qed.

(** X11: a successful [removeExercise] deletes nothing of the History, so
    the entries of the removed exercise stay; in the week view its rows
    get the placeholder name, and every other id resolves to the name it
    had. *)
Theorem removeExercise_orphans_history (exerciseId : string) (s : State)
    (P : ProgramV) (day : string) (es : list Exercise) :
  programOf s = Some P ->
  selectedDay (ui s) = Some day -> truthy day = true ->
  prop_get day P = Some es ->
  exists s' P',
    removeExercise true exerciseId s = Ret s'
    /\ programOf s' = Some P'
    /\ (forall hi, historyOf s = Some hi -> historyOf s' = Some hi)
    /\ exerciseNameOf P' day exerciseId = "Unknown Exercise"
    /\ (forall d i, (d, i) <> (day, exerciseId) ->
          exerciseNameOf P' d i = exerciseNameOf P d i).
Proof.
  intros HP Hday Htday Hes.
  destruct (removeExercise_run true exerciseId s P day es HP Hday Htday Hes)
    as (s' & Hrun & Hh & _ & _ & Hext & Hview & _).
  eexists s', _. split_and!; [done|done|..].
  - intros hi Hhi. unfold historyOf, viewHistory in *. rewrite Hh.
    destruct (readHistory (mem s) (history s)) as [[hi0 fp]|] eqn:Hr; [|done].
    injection Hhi as ->.
    rewrite (framed_keeps (f:=readHistory) _ (mem s') _ _ _ Hr); [done|].
    intros x c _. apply Hext.
  - apply exerciseNameOf_missing, find_withoutId_same.
  - intros d i Hne. destruct (decide (d = day)) as [->|Hd].
    + eapply exerciseNameOf_same_find; [done|]. apply find_withoutId_other. congruence.
    + by apply exerciseNameOf_other_day.
Qed.

(** X12: after a successful [addExercise] the week view resolves the id of
    the exercise that was renamed, or of the one that was added under an id
    new to the day, to the name that was typed, and every other id to the
    name it had. *)
Theorem addExercise_name_resolves (now : Z) (s : State) (P : ProgramV)
    (day : string) (es : list Exercise) :
  denotes readProgram (mem s) (program s) P ->
  selectedDay (ui s) = Some day -> truthy day = true ->
  truthy (trim (exerciseName (ui s))) = true ->
  prop_get day P = Some es ->
  let affected :=
    if truthyO (editingExerciseId (ui s)) then default "" (editingExerciseId (ui s))
    else pretty now in
  exists s' P',
    addExercise now true s = Ret s' /\ programOf s' = Some P'
    /\ (truthyO (editingExerciseId (ui s)) = true ->
        (exists ex, ex ∈ es /\ id ex = affected) ->
        exerciseNameOf P' day affected = exerciseName (ui s))
    /\ (truthyO (editingExerciseId (ui s)) = false ->
        (forall ex, ex ∈ es -> id ex <> affected) ->
        exerciseNameOf P' day affected = exerciseName (ui s))
    /\ (forall d i, (d, i) <> (day, affected) ->
          exerciseNameOf P' d i = exerciseNameOf P d i).
Proof.
  intros (fp & Hroot & Hnd) Hday Htday Hname Hes. cbv zeta.
  destruct (addExercise_run now true s P fp day es Hroot Hnd Hday Htday Hname Hes)
    as (s' & Hrun & _ & _ & Hden & _).
  pose proof (trim_truthy _ Hname) as Hne.
  eexists s', _. split_and!; [done|by apply viewProgram_denotes|..];
    unfold exercisesAfterAdd; destruct (truthyO (editingExerciseId (ui s))) eqn:Hedit.
  - intros _ (ex & Hin & Hid). set (eid := default "" (editingExerciseId (ui s))) in *.
    destruct (List.find (fun ex => String.eqb (id ex) eid) es) as [ex0|] eqn:Hfind.
    + pose proof Hfind as Hfind0. apply find_some in Hfind0 as [_ Hid0].
      rewrite (exerciseNameOf_found P day _ eid
                 (mkExercise (id ex0) (exerciseName (ui s)))); [done| |done].
      rewrite find_renameV, Hfind. cbn. by rewrite Hid0.
    + apply list_elem_of_In in Hin. pose proof (find_none _ _ Hfind _ Hin) as Hf.
      cbn in Hf. apply String.eqb_neq in Hf. done.
  - done.
  - done.
  - intros _ Hfresh.
    rewrite (exerciseNameOf_found P day _ (pretty now)
               (mkExercise (pretty now) (exerciseName (ui s)))); [done| |done].
    rewrite find_app.
    destruct (List.find _ es) as [ex0|] eqn:Hfind.
    + apply find_some in Hfind as [Hin Hid0]. apply list_elem_of_In in Hin.
      apply String.eqb_eq in Hid0. by destruct (Hfresh ex0 Hin).
    + cbn. by rewrite String.eqb_refl.
  - intros d i Hdi. destruct (decide (d = day)) as [->|Hd];
      [|by apply exerciseNameOf_other_day].
    eapply exerciseNameOf_same_find; [done|]. rewrite find_renameV.
    destruct (List.find _ es) as [ex0|] eqn:Hfind; [|done]. cbn.
    apply find_some in Hfind as [_ Hid0]. apply String.eqb_eq in Hid0.
    destruct (String.eqb_spec (id ex0) (default "" (editingExerciseId (ui s))));
      [congruence|done].
  - intros d i Hdi. destruct (decide (d = day)) as [->|Hd];
      [|by apply exerciseNameOf_other_day].
    eapply exerciseNameOf_same_find; [done|]. rewrite find_app.
    destruct (List.find _ es) as [ex0|] eqn:Hfind; [done|]. cbn.
    destruct (String.eqb_spec (pretty now) i); [congruence|done].
Qed.

End Compositions.

(** ** The forms *)

Section Forms.
Context `{B : Builtins}.
Implicit Types (h : heap) (l n : loc) (fp : list loc) (s : State) (es : list Exercise).

(** A run of [addExercise] that goes past the check attempts a save. *)
Lemma addExercise_trace now ok s s' day :
  addExercise now ok s = Ret s' ->
  selectedDay (ui s) = Some day -> truthy day = true ->
  truthy (trim (exerciseName (ui s))) = true ->
  exists b rest, trace s' = trace s ++ SetItem "workoutProgram" b ok :: rest.
Proof.
  unfold addExercise. intros Hrun Hday Htday Hname.
  rewrite Hday, Hname, Htday in Hrun. cbn [negb orb] in Hrun.
  apply bind_Ret in Hrun as (days & _ & Hrun). cbn [alloc] in Hrun.
  apply bind_Ret in Hrun as (h2 & _ & Hrun).
  apply bind_Ret in Hrun as (s1 & Hsave & Hrun). injection Hrun as <-.
  unfold saveProgram in Hsave. apply bind_Ret in Hsave as (text & _ & Hsave).
  destruct ok; injection Hsave as <-; cbn; [by eexists _, []|].
  eexists _, [_]. by rewrite <- app_assoc.
Qed.

(** A run of [recordPerformance] that goes past the check attempts a save
    and leaves the form empty and closed. *)
Lemma recordPerformance_form now ok s s' day exercise :
  recordPerformance now ok s = Ret s' -> filled (ui s) day exercise ->
  weightText (ui s') = "" /\ setsText (ui s') = "" /\ repsText (ui s') = ""
  /\ notesText (ui s') = "" /\ performanceModalVisible (ui s') = false
  /\ exists b rest, trace s' = trace s ++ SetItem "workoutHistory" b ok :: rest.
Proof.
  unfold recordPerformance. intros Hrun (Hday & Hex & Hsets & Hreps & Htday).
  rewrite Hday, Hex, Hsets, Hreps, Htday in Hrun. cbn [negb orb] in Hrun.
  apply bind_Ret in Hrun as (weeks & _ & Hrun). cbn [alloc] in Hrun.
  do 7 (apply bind_Ret in Hrun as (? & _ & Hrun)).
  apply bind_Ret in Hrun as (s1 & Hsave & Hrun). injection Hrun as <-.
  unfold saveHistory in Hsave. apply bind_Ret in Hsave as (text & _ & Hsave).
  destruct ok; injection Hsave as <-; cbn; split_and!; try done; [by eexists _, []|].
  eexists _, [_]. by rewrite <- app_assoc.
Qed.

(** X13: an exercise is added under an id new to the day, its save
    resolving or not, and then removed.  When the save of the removal
    resolves, the Program in memory is the one from before the add and the
    storage holds it, beside the History it held: the storage is the one
    from before the add when that held the Program of the memory.  When
    the save of the removal fails, the added exercise stays in memory and
    the storage is what the add left. *)
Theorem addExercise_then_removeExercise (now : Z) (ok : bool) (s : State) (P : ProgramV)
    (day : string) (es : list Exercise) :
  denotes readProgram (mem s) (program s) P ->
  selectedDay (ui s) = Some day -> truthy day = true ->
  truthy (trim (exerciseName (ui s))) = true ->
  prop_get day P = Some es ->
  truthyO (editingExerciseId (ui s)) = false ->
  (forall ex, ex ∈ es -> id ex <> pretty now) ->
  exists s1,
    addExercise now ok s = Ret s1
    /\ programOf s1 =
       Some (prop_set day (es ++ [mkExercise (pretty now) (exerciseName (ui s))]) P)
    /\ (exists s2,
          removeExercise true (pretty now) s1 = Ret s2
          /\ programOf s2 = Some P
          /\ storage s2 = mkStorage (Some P) (workoutHistory (storage s))
          /\ (workoutProgram (storage s) = Some P -> storage s2 = storage s))
    /\ (exists s2,
          removeExercise false (pretty now) s1 = Ret s2
          /\ programOf s2 = programOf s1
          /\ storage s2 = storage s1).
Proof.
  intros (fp & Hroot & Hnd) Hday Htday Hname Hes Hedit Hfresh.
  destruct (addExercise_run now ok s P fp day es Hroot Hnd Hday Htday Hname Hes)
    as (s1 & Hrun1 & _ & _ & Hden1 & _ & _ & _ & Hout1).
  destruct (addExercise_navigation _ _ _ _ Hrun1) as (Hsel1 & _).
  unfold exercisesAfterAdd in Hden1, Hout1. rewrite Hedit in Hden1, Hout1.
  set (new := mkExercise (pretty now) (exerciseName (ui s))) in *.
  apply viewProgram_denotes in Hden1.
  assert (Hhist1 : workoutHistory (storage s1) = workoutHistory (storage s)).
  { destruct ok; [by destruct Hout1 as [-> _]|by destruct Hout1 as (_ & -> & _)]. }
  assert (Hsel : selectedDay (ui s1) = Some day) by (by rewrite Hsel1).
  assert (Hes1 : prop_get day (prop_set day (es ++ [new]) P) = Some (es ++ [new])).
  { by rewrite prop_get_set, String.eqb_refl. }
  assert (Hback : prop_set day (withoutId (pretty now) (es ++ [new]))
                    (prop_set day (es ++ [new]) P) = P).
  { rewrite prop_set_set. unfold withoutId. rewrite List.filter_app.
    fold (withoutId (pretty now) es). rewrite withoutId_absent by done.
    cbn. rewrite String.eqb_refl. cbn. rewrite app_nil_r. by apply prop_set_same. }
  exists s1. split_and!; [exact Hrun1 | exact Hden1 | |].
  - destruct (removeExercise_run true (pretty now) s1 _ day (es ++ [new])
                Hden1 Hsel Htday Hes1)
      as (s2 & Hrun2 & _ & _ & _ & _ & Hview2 & Hst2 & _).
    rewrite Hback in Hview2, Hst2. rewrite Hhist1 in Hst2.
    exists s2. split_and!; [exact Hrun2 | exact Hview2 | exact Hst2 |].
    intros Hstored. rewrite Hst2, <- Hstored. by destruct (storage s).
  - destruct (removeExercise_run false (pretty now) s1 _ day (es ++ [new])
                Hden1 Hsel Htday Hes1)
      as (s2 & Hrun2 & _ & _ & _ & _ & _ & Hview2 & Hst2 & _).
    exists s2. split_and!; [exact Hrun2 | | exact Hst2].
    etrans; [exact Hview2 | symmetry; exact Hden1].
Qed.

(** What [loadData] makes of a stored program. *)
Lemma loadData_program (week : Z) (st : Storage) (io : LoadIO) (p : ProgramV) :
  getProgramOk io = true -> getHistoryOk io = true ->
  workoutProgram st = Some p ->
  exists s', loadData io (initialState week st) = Ret s' /\ programOf s' = Some p.
Proof.
  intros Hgp Hgh Hp. unfold loadData. rewrite Hgp, Hgh. cbn. rewrite Hp.
  destruct (parseProgram_denotes p [CProgram []; CHistory []]) as [Hpre1 Hden1].
  destruct (parseProgram p _) as [lp h1]. cbn [fst snd] in *.
  apply viewProgram_denotes in Hden1.
  unfold loadHistoryPart. cbn. destruct (workoutHistory st) as [hi|].
  - pose proof (parseHistory_prefix hi h1) as Hpre2.
    destruct (parseHistory hi h1) as [lh h2]. cbn [fst snd] in *.
    eexists. split; [reflexivity|]. unfold programOf. cbn.
    by eapply viewProgram_prefix.
  - destruct (setHistoryOk io); by eexists.
Qed.

(** X14: the Program that a successful [addExercise] or [removeExercise]
    has saved is the Program a later start of the component loads.  After a
    save that failed, a later start loads the Program the storage held
    before. *)
Theorem program_survives_restart (now : Z) (exerciseId : string) (s : State)
    (P : ProgramV) (day : string) (es : list Exercise) (week : Z) (io : LoadIO) :
  denotes readProgram (mem s) (program s) P ->
  selectedDay (ui s) = Some day -> truthy day = true ->
  prop_get day P = Some es ->
  getProgramOk io = true -> getHistoryOk io = true ->
  (truthy (trim (exerciseName (ui s))) = true ->
   exists s1 s2,
     addExercise now true s = Ret s1
     /\ programOf s1 = Some (prop_set day (exercisesAfterAdd now (ui s) es) P)
     /\ loadData io (initialState week (storage s1)) = Ret s2
     /\ programOf s2 = programOf s1)
  /\ (exists s1 s2,
        removeExercise true exerciseId s = Ret s1
        /\ programOf s1 = Some (prop_set day (withoutId exerciseId es) P)
        /\ loadData io (initialState week (storage s1)) = Ret s2
        /\ programOf s2 = programOf s1)
  /\ (forall stored, workoutProgram (storage s) = Some stored ->
      truthy (trim (exerciseName (ui s))) = true ->
      exists s1 s2,
        addExercise now false s = Ret s1
        /\ programOf s1 = Some (prop_set day (exercisesAfterAdd now (ui s) es) P)
        /\ loadData io (initialState week (storage s1)) = Ret s2
        /\ programOf s2 = Some stored).
Proof.
  intros (fp & Hroot & Hnd) Hday Htday Hes Hgp Hgh. split_and!.
  - intros Hname.
    destruct (addExercise_run now true s P fp day es Hroot Hnd Hday Htday Hname Hes)
      as (s1 & Hrun1 & _ & _ & Hden1 & _ & _ & _ & Hst & _).
    apply viewProgram_denotes in Hden1.
    edestruct (loadData_program week (storage s1) io) as (s2 & Hrun2 & Hp2);
      [done|done|by rewrite Hst|].
    exists s1, s2. split_and!; try done. by rewrite Hp2.
  - assert (HP : programOf s = Some P) by (apply viewProgram_denotes; by exists fp).
    destruct (removeExercise_run true exerciseId s P day es HP Hday Htday Hes)
      as (s1 & Hrun1 & _ & _ & _ & _ & Hview1 & Hst & _).
    edestruct (loadData_program week (storage s1) io) as (s2 & Hrun2 & Hp2);
      [done|done|by rewrite Hst|].
    exists s1, s2. split_and!; try done. by rewrite Hp2.
  - intros stored Hstored Hname.
    destruct (addExercise_run now false s P fp day es Hroot Hnd Hday Htday Hname Hes)
      as (s1 & Hrun1 & _ & _ & Hden1 & _ & _ & _ & _ & Hst & _).
    apply viewProgram_denotes in Hden1.
    destruct (loadData_program week (storage s1) io stored Hgp Hgh) as (s2 & Hrun2 & Hp2).
    { by rewrite Hst. }
    by exists s1, s2.
Qed.

(** X15: a run of [addExercise] or of [recordPerformance] that goes past
    the check empties its form and closes it, whether or not the save
    resolves; the same handler called again rejects the empty form and
    changes nothing. *)
Theorem save_empties_the_form (now now' : Z) (ok ok' : bool) (s : State) :
  (forall P day es,
     denotes readProgram (mem s) (program s) P ->
     selectedDay (ui s) = Some day -> truthy day = true ->
     truthy (trim (exerciseName (ui s))) = true -> prop_get day P = Some es ->
     exists s',
       addExercise now ok s = Ret s'
       /\ exerciseName (ui s') = "" /\ editingExerciseId (ui s') = None
       /\ exerciseModalVisible (ui s') = false
       /\ addExercise now' ok' s' = Ret (alert "Error" "Please enter an exercise name" s'))
  /\ (forall hi day exercise,
        denotes readHistory (mem s) (history s) hi -> filled (ui s) day exercise ->
        exists s',
          recordPerformance now ok s = Ret s'
          /\ weightText (ui s') = "" /\ setsText (ui s') = "" /\ repsText (ui s') = ""
          /\ notesText (ui s') = "" /\ performanceModalVisible (ui s') = false
          /\ currentExercise (ui s') = Some exercise
          /\ recordPerformance now' ok' s' =
             Ret (alert "Error" "Please enter sets and reps" s')).
Proof.
  split.
  - intros P day es (fp & Hroot & Hnd) Hday Htday Hname Hes.
    destruct (addExercise_run now ok s P fp day es Hroot Hnd Hday Htday Hname Hes)
      as (s' & Hrun & _ & _ & _ & Hn & He & Hm & _).
    destruct (addExercise_navigation _ _ _ _ Hrun) as (Hsel & _).
    exists s'. split_and!; try done.
    unfold addExercise. by rewrite Hsel, Hday, Hn.
  - intros hi day exercise (fp & Hroot & Hnd) Hfilled.
    pose proof Hfilled as (Hday & Hex & Hsets & Hreps & Htday).
    destruct (recordPerformance_run now ok s hi fp day exercise
                Hroot Hnd Hday Hex Hsets Hreps Htday)
      as (s' & Hrun & _ & _ & _ & Hday' & Hex' & _).
    destruct (recordPerformance_form _ _ _ _ _ _ Hrun Hfilled)
      as (Hw & Hs & Hr & Hn & Hm & _).
    exists s'. split_and!; try done.
    unfold recordPerformance. by rewrite Hday', Hex', Hs.
Qed.

(** X16: the exercise form, from the control that opens it to Save.  Opened
    with [+] it adds an exercise, whatever the form held before.  Opened
    with the pencil of an exercise it renames that exercise in its place,
    and saved without typing it leaves the Program as it is.  The pencil of
    an exercise whose id is the empty string adds an exercise instead. *)
Theorem exercise_form_flows (now : Z) (text : string) (item : Exercise) (i : nat)
    (s : State) (P : ProgramV) (day : string) (es : list Exercise) :
  denotes readProgram (mem s) (program s) P ->
  selectedDay (ui s) = Some day -> truthy day = true ->
  prop_get day P = Some es ->
  truthy (trim text) = true ->
  let first :=
    es !! i = Some item
    /\ forall j ex, (j < i)%nat -> es !! j = Some ex -> id ex <> id item in
  (exists s',
     run [PressAdd; ChangeExerciseName text; SaveExercise now true] s = Ret s'
     /\ programOf s' = Some (prop_set day (es ++ [mkExercise (pretty now) text]) P))
  /\ (id item <> "" -> first ->
      exists s',
        run [PressEdit item; ChangeExerciseName text; SaveExercise now true] s = Ret s'
        /\ programOf s' = Some (prop_set day (<[i := mkExercise (id item) text]> es) P))
  /\ (id item <> "" -> first -> truthy (trim (name item)) = true ->
      exists s',
        run [PressEdit item; SaveExercise now true] s = Ret s'
        /\ programOf s' = Some P)
  /\ (id item = "" ->
      exists s',
        run [PressEdit item; ChangeExerciseName text; SaveExercise now true] s = Ret s'
        /\ programOf s' = Some (prop_set day (es ++ [mkExercise (pretty now) text]) P)).
Proof.
  intros (fp & Hroot & Hnd) Hday Htday Hes Htext. cbv zeta.
  cbn [run handle mbind res_bind].
  assert (Hsave : forall s1 : State,
            mem s1 = mem s -> program s1 = program s ->
            selectedDay (ui s1) = selectedDay (ui s) ->
            truthy (trim (exerciseName (ui s1))) = true ->
            exists s',
              addExercise now true s1 = Ret s'
              /\ programOf s' = Some (prop_set day (exercisesAfterAdd now (ui s1) es) P)).
  { intros s1 Hm Hp Hsel Hname.
    destruct (addExercise_run now true s1 P fp day es)
      as (s' & Hrun & _ & _ & Hden & _); try done.
    - by rewrite Hm, Hp.
    - by rewrite Hsel.
    - exists s'. split; [done|]. by apply viewProgram_denotes. }
  assert (Htruthy : id item <> "" -> truthy (id item) = true).
  { intros Hid. unfold truthy. by destruct (String.eqb_spec (id item) ""). }
  split_and!.
  - set (s1 := setExerciseName text (openExerciseModal s)).
    assert (Hn : exerciseName (ui s1) = text) by reflexivity.
    assert (He : editingExerciseId (ui s1) = None) by reflexivity.
    destruct (Hsave s1) as (s' & Hrun & Hview); [reflexivity..|by rewrite Hn|].
    clearbody s1. exists s'. rewrite Hrun. split; [done|].
    rewrite Hview. unfold exercisesAfterAdd. by rewrite He, Hn.
  - intros Hid [Hi Hfirst].
    set (s1 := setExerciseName text (editExercise item s)).
    assert (Hn : exerciseName (ui s1) = text) by reflexivity.
    assert (He : editingExerciseId (ui s1) = Some (id item)) by reflexivity.
    destruct (Hsave s1) as (s' & Hrun & Hview); [reflexivity..|by rewrite Hn|].
    clearbody s1. exists s'. rewrite Hrun. split; [done|].
    rewrite Hview. unfold exercisesAfterAdd. rewrite He, Hn.
    change (truthyO (Some (id item))) with (truthy (id item)).
    change (default "" (Some (id item))) with (id item).
    rewrite (Htruthy Hid). cbv iota.
    by rewrite (renameV_found (id item) text es i item Hi eq_refl Hfirst).
  - intros Hid [Hi Hfirst] Hname.
    set (s1 := editExercise item s).
    assert (Hn : exerciseName (ui s1) = name item) by reflexivity.
    assert (He : editingExerciseId (ui s1) = Some (id item)) by reflexivity.
    destruct (Hsave s1) as (s' & Hrun & Hview); [reflexivity..|by rewrite Hn|].
    clearbody s1. exists s'. rewrite Hrun. split; [done|].
    rewrite Hview. unfold exercisesAfterAdd. rewrite He, Hn.
    change (truthyO (Some (id item))) with (truthy (id item)).
    change (default "" (Some (id item))) with (id item).
    rewrite (Htruthy Hid). cbv iota.
    rewrite (renameV_found (id item) (name item) es i item Hi eq_refl Hfirst).
    assert (mkExercise (id item) (name item) = item) as -> by (by destruct item).
    rewrite list_insert_id by done. by rewrite prop_set_same.
  - intros Hid.
    set (s1 := setExerciseName text (editExercise item s)).
    assert (Hn : exerciseName (ui s1) = text) by reflexivity.
    assert (He : editingExerciseId (ui s1) = Some (id item)) by reflexivity.
    destruct (Hsave s1) as (s' & Hrun & Hview); [reflexivity..|by rewrite Hn|].
    clearbody s1. exists s'. rewrite Hrun. split; [done|].
    rewrite Hview. unfold exercisesAfterAdd. rewrite He, Hn.
    change (truthyO (Some (id item))) with (truthy (id item)). by rewrite Hid.
Qed.

(** X17: [addExercise] stops at its alert, having done nothing else,
    exactly when no day is selected or the name is made of white space
    only, and [recordPerformance] exactly when no day or no exercise is
    selected or the sets or the reps are made of white space only. *)
Theorem validation_rejects_blank_text (now : Z) (ok : bool) (s : State) :
  (addExercise now ok s = Ret (alert "Error" "Please enter an exercise name" s)
   <-> truthyO (selectedDay (ui s)) = false \/ blank (exerciseName (ui s)) = true)
  /\ (recordPerformance now ok s = Ret (alert "Error" "Please enter sets and reps" s)
      <-> truthyO (selectedDay (ui s)) = false \/ currentExercise (ui s) = None
          \/ blank (setsText (ui s)) = true \/ blank (repsText (ui s)) = true).
Proof.
  split; split.
  - intros Hrun. destruct (selectedDay (ui s)) as [day|] eqn:Hday; [|by left].
    cbn [truthyO]. destruct (truthy day) eqn:Htday; [|by left]. right.
    apply trim_blank. destruct (truthy (trim (exerciseName (ui s)))) eqn:Hname; [|done].
    destruct (addExercise_trace _ _ _ _ _ Hrun Hday Htday Hname) as (b & rest & Htr).
    cbn in Htr. apply app_inv_head in Htr. done.
  - intros Hbad. unfold addExercise.
    destruct (selectedDay (ui s)) as [day|]; [|done]. cbn [truthyO] in Hbad.
    destruct Hbad as [-> | Hb]; [by rewrite orb_true_r|].
    apply trim_blank in Hb. by rewrite Hb.
  - intros Hrun. destruct (selectedDay (ui s)) as [day|] eqn:Hday; [|by left].
    cbn [truthyO]. destruct (truthy day) eqn:Htday; [|by left]. right.
    destruct (currentExercise (ui s)) as [exercise|] eqn:Hex; [|by left]. right.
    destruct (truthy (trim (setsText (ui s)))) eqn:Hsets; [|left; by apply trim_blank].
    destruct (truthy (trim (repsText (ui s)))) eqn:Hreps; [|right; by apply trim_blank].
    destruct (recordPerformance_form now ok s _ day exercise Hrun) as (_ & _ & _ & _ & _ & Htr);
      [done|].
    destruct Htr as (b & rest & Htr). cbn in Htr. apply app_inv_head in Htr. done.
  - intros Hbad. unfold recordPerformance.
    destruct (selectedDay (ui s)) as [day|]; [|done].
    destruct (currentExercise (ui s)) as [exercise|]; cbn [truthyO] in Hbad.
    + destruct Hbad as [-> | [? | [Hb | Hb]]]; [by rewrite !orb_true_r|done|..];
        apply trim_blank in Hb; rewrite Hb; [done|by rewrite orb_true_r].
    + done.
Qed.







(** What a save appends to the trace and does to the storage. *)
Lemma saveProgram_inv ok l s s' :
  saveProgram ok l s = Ret s' ->
  exists p,
    (ok = true
     /\ trace s' = trace s ++ [SetItem "workoutProgram" (ProgramBlob p) true]
     /\ storage s' = mkStorage (Some p) (workoutHistory (storage s)))
    \/ (ok = false
        /\ trace s' = trace s ++ [SetItem "workoutProgram" (ProgramBlob p) false;
                                  Alert "Error" "Failed to save program"]
        /\ storage s' = storage s).
Proof.
  unfold saveProgram. intros Hrun. apply bind_Ret in Hrun as (p & _ & Hrun). exists p.
  destruct ok; injection Hrun as <-; cbn; [by left|]. right. by rewrite <- app_assoc.
Qed.

Lemma saveHistory_inv ok l s s' :
  saveHistory ok l s = Ret s' ->
  exists hi,
    (ok = true
     /\ trace s' = trace s ++ [SetItem "workoutHistory" (HistoryBlob hi) true]
     /\ storage s' = mkStorage (workoutProgram (storage s)) (Some hi))
    \/ (ok = false
        /\ trace s' = trace s ++ [SetItem "workoutHistory" (HistoryBlob hi) false;
                                  Alert "Error" "Failed to save workout history"]
        /\ storage s' = storage s).
Proof.
  unfold saveHistory. intros Hrun. apply bind_Ret in Hrun as (hi & _ & Hrun). exists hi.
  destruct ok; injection Hrun as <-; cbn; [by left|]. right. by rewrite <- app_assoc.
Qed.

(** X19: a use of a control reads nothing from the storage and appends to
    the trace nothing, one alert, one successful write, or one failed write
    followed by its alert.  The write goes to the key of the control: the
    program for Save of the exercise form and for the trash can, the
    history for Save of the performance form; no other control writes.  The
    value under the other key, and under both when nothing was written or
    the write failed, is what it was. *)
Theorem controls_write_their_own_key (e : event) (s s' : State) :
  handle e s = Ret s' ->
  exists suffix,
    trace s' = trace s ++ suffix
    /\ (suffix = []
        \/ (exists title message, suffix = [Alert title message])
        \/ (exists key value, savesTo e = Some key /\ suffix = [SetItem key value true])
        \/ (exists key value message,
              savesTo e = Some key
              /\ suffix = [SetItem key value false; Alert "Error" message]
              /\ storage s' = storage s))
    /\ (forall key ok, GetItem key ok ∉ suffix)
    /\ (savesTo e <> Some "workoutProgram" ->
        workoutProgram (storage s') = workoutProgram (storage s))
    /\ (savesTo e <> Some "workoutHistory" ->
        workoutHistory (storage s') = workoutHistory (storage s))
    /\ ((forall key value, SetItem key value true ∉ suffix) -> storage s' = storage s).
Proof.
  assert (Hquiet : forall s0 : State, trace s0 = trace s -> storage s0 = storage s ->
            exists suffix,
              trace s0 = trace s ++ suffix
              /\ (suffix = []
                  \/ (exists title message, suffix = [Alert title message])
                  \/ (exists key value, savesTo e = Some key
                        /\ suffix = [SetItem key value true])
                  \/ (exists key value message, savesTo e = Some key
                        /\ suffix = [SetItem key value false; Alert "Error" message]
                        /\ storage s0 = storage s))
              /\ (forall key ok, GetItem key ok ∉ suffix)
              /\ (savesTo e <> Some "workoutProgram" ->
                  workoutProgram (storage s0) = workoutProgram (storage s))
              /\ (savesTo e <> Some "workoutHistory" ->
                  workoutHistory (storage s0) = workoutHistory (storage s))
              /\ ((forall key value, SetItem key value true ∉ suffix) ->
                  storage s0 = storage s)).
  { intros s0 Htr Hst. exists []. rewrite app_nil_r, Hst. split_and!; try done; [by left|].
    intros key ok Hin. by apply elem_of_nil in Hin. }
  assert (Halert : forall title message,
            exists suffix,
              trace (alert title message s) = trace s ++ suffix
              /\ (suffix = []
                  \/ (exists title message, suffix = [Alert title message])
                  \/ (exists key value, savesTo e = Some key
                        /\ suffix = [SetItem key value true])
                  \/ (exists key value message, savesTo e = Some key
                        /\ suffix = [SetItem key value false; Alert "Error" message]
                        /\ storage (alert title message s) = storage s))
              /\ (forall key ok, GetItem key ok ∉ suffix)
              /\ (savesTo e <> Some "workoutProgram" ->
                  workoutProgram (storage (alert title message s)) =
                  workoutProgram (storage s))
              /\ (savesTo e <> Some "workoutHistory" ->
                  workoutHistory (storage (alert title message s)) =
                  workoutHistory (storage s))
              /\ ((forall key value, SetItem key value true ∉ suffix) ->
                  storage (alert title message s) = storage s)).
  { intros title message. exists [Alert title message]. cbn.
    split_and!; try done; [right; left; eauto|].
    intros key ok Hin. apply list_elem_of_singleton in Hin. done. }
  assert (Hsaved : forall key value (s0 s1 : State),
            savesTo e = Some key ->
            trace s0 = trace s -> storage s0 = storage s ->
            trace s1 = trace s0 ++ [SetItem key value true] ->
            (key = "workoutProgram" ->
             workoutHistory (storage s1) = workoutHistory (storage s0)) ->
            (key = "workoutHistory" ->
             workoutProgram (storage s1) = workoutProgram (storage s0)) ->
            key = "workoutProgram" \/ key = "workoutHistory" ->
            exists suffix,
              trace s1 = trace s ++ suffix
              /\ (suffix = []
                  \/ (exists title message, suffix = [Alert title message])
                  \/ (exists key value, savesTo e = Some key
                        /\ suffix = [SetItem key value true])
                  \/ (exists key value message, savesTo e = Some key
                        /\ suffix = [SetItem key value false; Alert "Error" message]
                        /\ storage s1 = storage s))
              /\ (forall key ok, GetItem key ok ∉ suffix)
              /\ (savesTo e <> Some "workoutProgram" ->
                  workoutProgram (storage s1) = workoutProgram (storage s))
              /\ (savesTo e <> Some "workoutHistory" ->
                  workoutHistory (storage s1) = workoutHistory (storage s))
              /\ ((forall key value, SetItem key value true ∉ suffix) ->
                  storage s1 = storage s)).
  { intros key value s0 s1 Hkey Htr0 Hst0 Htr1 HkeepH HkeepP Hkeys.
    exists [SetItem key value true]. rewrite Htr1, Htr0, <- Hst0. split_and!; try done.
    - right. right. left. eauto.
    - intros k ok Hin. apply list_elem_of_singleton in Hin. done.
    - intros Hne. apply HkeepP. destruct Hkeys as [->| ->]; [congruence|done].
    - intros Hne. apply HkeepH. destruct Hkeys as [->| ->]; [done|congruence].
    - intros Hno. exfalso. apply (Hno key value). left. }
  assert (Hfailed : forall key value message (s0 s1 : State),
            savesTo e = Some key ->
            trace s0 = trace s -> storage s0 = storage s ->
            trace s1 = trace s0 ++ [SetItem key value false; Alert "Error" message] ->
            storage s1 = storage s0 ->
            exists suffix,
              trace s1 = trace s ++ suffix
              /\ (suffix = []
                  \/ (exists title message, suffix = [Alert title message])
                  \/ (exists key value, savesTo e = Some key
                        /\ suffix = [SetItem key value true])
                  \/ (exists key value message, savesTo e = Some key
                        /\ suffix = [SetItem key value false; Alert "Error" message]
                        /\ storage s1 = storage s))
              /\ (forall key ok, GetItem key ok ∉ suffix)
              /\ (savesTo e <> Some "workoutProgram" ->
                  workoutProgram (storage s1) = workoutProgram (storage s))
              /\ (savesTo e <> Some "workoutHistory" ->
                  workoutHistory (storage s1) = workoutHistory (storage s))
              /\ ((forall key value, SetItem key value true ∉ suffix) ->
                  storage s1 = storage s)).
  { intros key value message s0 s1 Hkey Htr0 Hst0 Htr1 Hst1.
    exists [SetItem key value false; Alert "Error" message].
    rewrite Htr1, Htr0, Hst1, Hst0. split_and!; try done.
    - right. right. right. by exists key, value, message.
    - intros k ok Hin. repeat (apply elem_of_cons in Hin as [?|Hin]; [done|]).
      by apply elem_of_nil in Hin. }
  destruct e; cbn [handle]; intros Hrun;
    try (injection Hrun as <-; by apply Hquiet).
  - (* the trash can *)
    unfold removeExercise in Hrun.
    destruct (selectedDay (ui s)) as [day|]; [|injection Hrun as <-; by apply Hquiet].
    destruct (negb (truthy day)); [injection Hrun as <-; by apply Hquiet|].
    apply bind_Ret in Hrun as (days & _ & Hrun). cbn [alloc] in Hrun.
    do 4 (apply bind_Ret in Hrun as (? & _ & Hrun)).
    apply saveProgram_inv in Hrun as (p & [(-> & Htr & Hst) | (-> & Htr & Hst)]).
    + eapply (Hsaved "workoutProgram"); try done; [by rewrite Hst|by left].
    + by eapply (Hfailed "workoutProgram").
  - (* the week before *)
    injection Hrun as <-. apply Hquiet; unfold changeWeek; cbv zeta; by destruct (0 <? _)%Z.
  - (* the week after *)
    injection Hrun as <-. apply Hquiet; unfold changeWeek; cbv zeta; by destruct (0 <? _)%Z.
  - (* Save of the exercise form *)
    unfold addExercise in Hrun.
    destruct (selectedDay (ui s)) as [day|]; [|injection Hrun as <-; by apply Halert].
    destruct (_ || _); [injection Hrun as <-; by apply Halert|].
    apply bind_Ret in Hrun as (days & _ & Hrun). cbn [alloc] in Hrun.
    apply bind_Ret in Hrun as (h2 & _ & Hrun).
    apply bind_Ret in Hrun as (s1 & Hsave & Hrun). injection Hrun as <-.
    apply saveProgram_inv in Hsave as (p & [(-> & Htr & Hst) | (-> & Htr & Hst)]).
    + eapply (Hsaved "workoutProgram" _ (withMem h2 s)); try done;
        [cbn; by rewrite Hst|by left].
    + by eapply (Hfailed "workoutProgram" _ _ (withMem h2 s)).
  - (* Save of the performance form *)
    unfold recordPerformance in Hrun.
    destruct (selectedDay (ui s)) as [day|]; [|injection Hrun as <-; by apply Halert].
    destruct (currentExercise (ui s)) as [exercise|];
      [|injection Hrun as <-; by apply Halert].
    destruct (_ || _); [injection Hrun as <-; by apply Halert|].
    apply bind_Ret in Hrun as (weeks & _ & Hrun). cbn [alloc] in Hrun.
    do 7 (apply bind_Ret in Hrun as (? & _ & Hrun)).
    apply bind_Ret in Hrun as (s1 & Hsave & Hrun). injection Hrun as <-.
    apply saveHistory_inv in Hsave as (hi & [(-> & Htr & Hst) | (-> & Htr & Hst)]).
    + eapply (Hsaved "workoutHistory" _ (withMem _ s)); try done;
        [cbn; by rewrite Hst|by right].
    + by eapply (Hfailed "workoutHistory" _ _ (withMem _ s)).
Qed.

End Forms.

(** * Sample runs *)

(** A fact of a sample state, by evaluation. *)
Ltac sample_eq := vm_compute; reflexivity.

(** The heap of a sample state holds the given value as a tree. *)
Ltac sample_denotes fp :=
  exists fp; split; [vm_compute; reflexivity | apply (bool_decide_unpack _); vm_compute; exact I].

(** With week keys "week3" and "week12" the entry of "week3" is the last
    performance, whatever the order the weeks were recorded in. *)
Example getLastPerformance_week3_before_week12 :
  let p3 := @mkPerformance sampleRuntime "2023-01-16T18:00:00.000Z" "3" "5" "100" "" in
  let p12 := @mkPerformance sampleRuntime "2023-03-20T18:00:00.000Z" "3" "5" "110" "" in
  getLastPerformance [("week3", [("Monday", [("7", [p3])])]);
                      ("week12", [("Monday", [("7", [p12])])])] "7" = Ret (Some p3)
  /\ getLastPerformance [("week12", [("Monday", [("7", [p12])])]);
                         ("week3", [("Monday", [("7", [p3])])])] "7" = Ret (Some p3).
Proof. split; reflexivity. Qed.

(** 14 November 2023, 22:11:40 UTC, in a year that began on a Sunday, is in
    week 46. *)
Example getCurrentWeekNumber_november_14 :
  getCurrentWeekNumber 1699999900000 1672531200000 0 = 46%Z.
Proof. by vm_compute. Qed.

(** Noon of Saturday 1 January 2022 (UTC): the code is in week 2 while the
    formula over whole days gives week 1. *)
Lemma C7_counterexample_saturday_noon :
  getCurrentWeekNumber 1641038400000 1640995200000 6 = 2%Z
  /\ ((1641038400000 - 1640995200000) / 86400000 = 0)%Z
  /\ specWeekNumber 0 6 = 1%Z.
Proof. by vm_compute. Qed.

(** Noon of Wednesday 1 January 2025 (UTC) is in week 1. *)
Lemma C7_witness_wednesday_noon :
  (0 <= 1735732800000 - 1735689600000 < 86400000)%Z
  /\ getCurrentWeekNumber 1735732800000 1735689600000 3 = 1%Z.
Proof.
  split; [lia|].
  apply (C7_week_number_of_elapsed_time 1735732800000 1735689600000 3);
    [reflexivity | lia].
Defined.

(** A failed save of a removal: the Program in memory still has the
    exercise, although the attempted change was to remove it. *)
Lemma C2_counterexample_failed_remove :
  let s' := finalState sampleSquat (removeExercise false "1700000000000" sampleSquat) in
  let sOk := finalState sampleSquat (removeExercise true "1700000000000" sampleSquat) in
  removeExercise false "1700000000000" sampleSquat = Ret s'
  /\ removeExercise true "1700000000000" sampleSquat = Ret sOk
  /\ last (trace s') = Some (Alert "Error" "Failed to save program")
  /\ programOf s' = Some sampleProgramV
  /\ programOf s' = programOf sampleSquat
  /\ programOf sOk = Some (prop_set "Monday" [] sampleProgramV)
  /\ programOf s' <> programOf sOk.
Proof. vm_compute. split_and!; [reflexivity..|discriminate]. Qed.

Lemma C2_witness_failed_saves :
  (exists s', addExercise 1700000200000 false sampleEditSquat = Ret s'
     /\ programOf s' = Some (prop_set "Monday"
                               [mkExercise "1700000000000" "Back squat"] sampleProgramV))
  /\ (exists s', removeExercise false "1700000000000" sampleSquat = Ret s'
        /\ programOf s' = Some sampleProgramV)
  /\ (exists s', recordPerformance 1700000300000 false sampleForm2 = Ret s'
        /\ historyOf s' =
           Some (recordV "week46" "Monday" "1700000000000"
                         (performanceOf 1700000300000 sampleFormUI) sampleHistoryV))
  /\ (exists s', recordPerformance 1700000100000 false sampleForm = Ret s'
        /\ historyOf s' = Some []).
Proof.
  split_and!.
  - destruct (C2_failed_save_in_memory 1700000200000 "" sampleEditSquat)
      as (Hadd & _ & _).
    destruct (Hadd sampleProgramV "Monday" [squat])
      as (s' & sOk & Hrun & _ & _ & _ & _ & Hview & _);
      [sample_denotes [10; 3; 11; 4; 5; 6; 7; 8; 9] | sample_eq..|].
    exists s'. split; [exact Hrun | etrans; [exact Hview | sample_eq]].
  - destruct (C2_failed_save_in_memory 0 "1700000000000" sampleSquat) as (_ & Hremove & _).
    destruct (Hremove sampleProgramV "Monday" [squat])
      as (s' & sOk & Hrun & _ & _ & _ & _ & Hview & _);
      [sample_eq..|].
    exists s'. split; [exact Hrun | etrans; [exact Hview | sample_eq]].
  - destruct (C2_failed_save_in_memory 1700000300000 "" sampleForm2) as (_ & _ & Hrecord).
    destruct (Hrecord sampleHistoryV "Monday" squat)
      as (s' & sOk & Hrun & _ & _ & _ & _ & _ & Hview & _);
      [sample_denotes [12; 13; 14; 15] | repeat split; sample_eq |].
    exists s'. split; [exact Hrun|].
    etrans; [apply Hview; vm_compute; left | sample_eq].
  - destruct (C2_failed_save_in_memory 1700000100000 "" sampleForm) as (_ & _ & Hrecord).
    destruct (Hrecord [] "Monday" squat)
      as (s' & sOk & Hrun & _ & _ & _ & _ & _ & _ & Hview);
      [sample_denotes [1] | repeat split; sample_eq |].
    exists s'. split; [exact Hrun|].
    etrans; [apply Hview; vm_compute; apply not_elem_of_nil | sample_eq].
Defined.

(** Saving the exercise form in edit mode for an id that Monday does not
    have: no exercise is created, Monday keeps its one exercise. *)
Lemma C3_counterexample_edit_of_missing_id :
  let s' := finalState sampleEditMissing
              (addExercise 1700000200000 true sampleEditMissing) in
  addExercise 1700000200000 true sampleEditMissing = Ret s'
  /\ editingExerciseId (ui sampleEditMissing) = Some "42"
  /\ programOf sampleEditMissing = Some sampleProgramV
  /\ prop_get "Monday" sampleProgramV = Some [squat]
  /\ programOf s' = Some sampleProgramV
  /\ forall ex, programOf s' <> Some (prop_set "Monday" ([squat] ++ [ex]) sampleProgramV).
Proof. vm_compute. split_and!; [sample_eq..|intros ex; discriminate]. Qed.

Lemma C3_witness_rename_and_append :
  (exists s', addExercise 1700000200000 true sampleEditSquat = Ret s'
     /\ programOf s' = Some (prop_set "Monday"
                               [mkExercise "1700000000000" "Back squat"] sampleProgramV))
  /\ (exists s', addExercise 1700000000000 true sampleNaming = Ret s'
        /\ programOf s' = Some sampleProgramV).
Proof.
  split.
  - destruct (C3_addExercise_renames_or_appends 1700000200000 sampleEditSquat
                sampleProgramV "Monday" [squat])
      as (s' & es' & Hrun & Hview & _ & _ & _ & _ & Hedit & _);
      [sample_denotes [10; 3; 11; 4; 5; 6; 7; 8; 9] | sample_eq..|].
    assert (Hes' : es' = <[0%nat := mkExercise "1700000000000" "Back squat"]> [squat]).
    { apply (Hedit "1700000000000" 0%nat squat);
        [reflexivity | discriminate | reflexivity | reflexivity | intros j ex' Hj; lia]. }
    exists s'. split; [exact Hrun|]. rewrite Hview, Hes'. reflexivity.
  - destruct (C3_addExercise_renames_or_appends 1700000000000 sampleNaming
                defaultProgram "Monday" [])
      as (s' & es' & Hrun & Hview & _ & _ & _ & _ & _ & _ & Happend);
      [sample_denotes [2; 3; 4; 5; 6; 7; 8; 9] | sample_eq..|].
    exists s'. split; [exact Hrun|]. rewrite Hview.
    destruct Happend as [-> _]; reflexivity.
Defined.

(** A failed save of the first record of a week: the History in memory
    has no entry for the exercise, and still none after a second record
    whose save fails as well. *)
Lemma C4_counterexample_failed_save_new_week :
  let s1 := finalState sampleForm (recordPerformance 1700000100000 false sampleForm) in
  let s2 := finalState (withUI sampleFormUI s1)
              (recordPerformance 1700000300000 false (withUI sampleFormUI s1)) in
  filled (ui sampleForm) "Monday" squat
  /\ historyOf sampleForm = Some []
  /\ weekKeyOf (currentWeek sampleForm) = "week46"
  /\ recordPerformance 1700000100000 false sampleForm = Ret s1
  /\ last (trace s1) = Some (Alert "Error" "Failed to save workout history")
  /\ historyOf s1 = Some []
  /\ recordPerformance 1700000300000 false (withUI sampleFormUI s1) = Ret s2
  /\ historyOf s2 = Some []
  /\ List.length (@entriesOf sampleRuntime [] "week46" "Monday" (id squat)) = 0%nat.
Proof. vm_compute. split_and!; reflexivity. Qed.

Lemma C4_witness_two_records :
  (exists s1 s2,
     recordPerformance 1700000100000 true sampleForm = Ret s1
     /\ recordPerformance 1700000300000 false (withUI sampleFormUI s1) = Ret s2
     /\ (exists hi1, historyOf s1 = Some hi1
           /\ entriesOf hi1 "week46" "Monday" "1700000000000" =
              [performanceOf 1700000100000 sampleFormUI])
     /\ (exists hi2, historyOf s2 = Some hi2
           /\ entriesOf hi2 "week46" "Monday" "1700000000000" =
              [performanceOf 1700000100000 sampleFormUI;
               performanceOf 1700000300000 sampleFormUI]))
  /\ (exists s1 s2,
        recordPerformance 1700000100000 false sampleForm = Ret s1
        /\ recordPerformance 1700000300000 true (withUI sampleFormUI s1) = Ret s2
        /\ historyOf s1 = Some []
        /\ historyOf s2 =
           Some (recordV "week46" "Monday" "1700000000000"
                   (performanceOf 1700000300000 sampleFormUI) [])).
Proof.
  split.
  - destruct (C4_recordPerformance_appends 1700000100000 1700000300000 true false
                sampleForm [] "Monday" squat sampleFormUI)
      as (s1 & s2 & hi1 & hi2 & Hrun1 & Hden1 & Hrun2 & Hden2 & Happlied & _);
      [sample_denotes [1] | repeat split; sample_eq | repeat split; sample_eq |].
    destruct (Happlied (or_introl eq_refl)) as (_ & _ & _ & Hlen).
    destruct (Hlen eq_refl) as [H1 H2].
    exists s1, s2. split_and!; [exact Hrun1 | exact Hrun2 | |].
    + exists hi1. split; [|exact H1]. by apply viewHistory_denotes.
    + exists hi2. split; [|exact H2]. by apply viewHistory_denotes.
  - destruct (C4_recordPerformance_appends 1700000100000 1700000300000 false true
                sampleForm [] "Monday" squat sampleFormUI)
      as (s1 & s2 & hi1 & hi2 & Hrun1 & Hden1 & Hrun2 & Hden2 & _ & Hfailed);
      [sample_denotes [1] | repeat split; sample_eq | repeat split; sample_eq |].
    destruct (Hfailed eq_refl eq_refl) as (H1 & _ & H2).
    exists s1, s2. split_and!; [exact Hrun1 | exact Hrun2 | |].
    + rewrite <- H1. by apply viewHistory_denotes.
    + etrans; [by apply viewHistory_denotes|]. rewrite H2. sample_eq.
Defined.

(** A failed save of a removal from a day with one exercise of the id: the
    day's sequence in memory still has the exercise and its length. *)
Lemma C5_counterexample_failed_save :
  let s' := finalState sampleSquat (removeExercise false "1700000000000" sampleSquat) in
  programOf sampleSquat = Some sampleProgramV
  /\ selectedDay (ui sampleSquat) = Some "Monday"
  /\ prop_get "Monday" sampleProgramV = Some [squat]
  /\ id squat = "1700000000000"
  /\ removeExercise false "1700000000000" sampleSquat = Ret s'
  /\ last (trace s') = Some (Alert "Error" "Failed to save program")
  /\ programOf s' = Some sampleProgramV
  /\ programOf s' <> Some (prop_set "Monday" (delete 0%nat [squat]) sampleProgramV).
Proof. vm_compute. split_and!; [reflexivity..|discriminate]. Qed.

Lemma C5_witness_remove_squat :
  (exists s',
     removeExercise true "1700000000000" sampleSquat = Ret s'
     /\ programOf s' = Some (prop_set "Monday" [] sampleProgramV)
     /\ history s' = history sampleSquat)
  /\ (exists s',
        removeExercise false "1700000000000" sampleSquat = Ret s'
        /\ programOf s' = Some sampleProgramV
        /\ history s' = history sampleSquat).
Proof.
  split.
  - destruct (C5_removeExercise_filters true "1700000000000" sampleSquat sampleProgramV
                "Monday" [squat])
      as (s' & es' & Hrun & Hview & _ & _ & _ & _ & _ & _ & _ & Hone & Hhist & _);
      [sample_eq..|].
    exists s'. split_and!; [exact Hrun | | exact Hhist]. rewrite Hview.
    destruct (Hone 0%nat squat) as [-> _]; [sample_eq..| |reflexivity].
    intros [|j] ex' Hj; [done|]. by destruct j.
  - destruct (C5_removeExercise_filters false "1700000000000" sampleSquat sampleProgramV
                "Monday" [squat])
      as (s' & es' & Hrun & Hview & _ & _ & _ & _ & _ & _ & _ & _ & Hhist & _);
      [sample_eq..|].
    exists s'. split_and!; [exact Hrun | exact Hview | exact Hhist].
Defined.

Lemma C6_witness_blank_forms :
  addExercise 1700000000000 true sampleLoaded =
    Ret (alert "Error" "Please enter an exercise name" sampleLoaded)
  /\ recordPerformance 1700000100000 true sampleRecorded =
    Ret (alert "Error" "Please enter sets and reps" sampleRecorded).
Proof.
  destruct (C6_validation_aborts 1700000000000 true sampleLoaded) as (Hadd & _).
  destruct (C6_validation_aborts 1700000100000 true sampleRecorded) as (_ & Hrecord & _).
  split; [apply Hadd | apply Hrecord]; left; reflexivity.
Defined.


Lemma C9_witness_week46 :
  sequencesNonEmpty sampleHistoryV (weekKeyOf 46)
  /\ exists view,
       renderWeekHistory sampleHistoryV sampleProgramV 46 = Ret view
       /\ sections view = [("Monday", [("Squat", samplePerformance)])].
Proof.
  assert (Hne : sequencesNonEmpty sampleHistoryV (weekKeyOf 46)).
  { intros week Hweek day dayData perfs Hday Hperfs.
    vm_compute in Hweek. injection Hweek as <-.
    apply list_elem_of_singleton in Hday. injection Hday as -> ->.
    apply list_elem_of_singleton in Hperfs. by subst perfs. }
  split; [exact Hne|].
  destruct (C9_week_summary sampleHistoryV sampleProgramV 46 Hne)
    as (view & Hrun & _).
  exists view. split; [exact Hrun|].
  vm_compute in Hrun. by injection Hrun as <-.
Defined.

Lemma C10_witness_record_frame :
  exists s',
    recordPerformance 1700000100000 true sampleForm = Ret s'
    /\ program s' = program sampleForm
    /\ programOf s' = Some sampleProgramV.
Proof.
  destruct (C10_recordPerformance_frame 1700000100000 sampleForm [] sampleProgramV
              "Monday" squat)
    as (s' & hi' & Hrun & _ & Hp & Hview & _);
    [sample_denotes [1] | reflexivity | repeat split; sample_eq |].
  exists s'. split_and!; [exact Hrun | exact Hp | exact Hview].
Defined.

(** ** Sample runs of the handlers in sequence *)

Lemma sampleLoaded_sound : sound sampleLoaded.
Proof.
  destruct (loadData_sound (B:=sampleRuntime) 46 (mkStorage None None) allResolve
              eq_refl eq_refl)
    as (s0 & Hload & Hsound & _); [done|done|].
  assert (s0 = sampleLoaded) as <-; [|done].
  unfold sampleLoaded, sampleStart. by rewrite Hload.
Qed.

Lemma changeWeek_witness_week46 :
  (0 < currentWeek sampleLoaded)%Z
  /\ currentWeek (changeWeek (-1) sampleLoaded) = 45%Z
  /\ changeWeek (-1) (changeWeek 1 sampleLoaded) = sampleLoaded.
Proof.
  assert (Hpos : (0 < currentWeek sampleLoaded)%Z) by sample_eq.
  destruct (changeWeek_keeps_week_positive (-1) sampleLoaded Hpos)
    as (_ & Hstep & _).
  destruct (changeWeek_keeps_week_positive 1 sampleLoaded Hpos)
    as (_ & _ & _ & _ & _ & _ & _ & _ & _ & Hround & _).
  split_and!; [exact Hpos | | exact Hround].
  etrans; [apply Hstep; sample_eq | sample_eq].
Defined.


Lemma renderWeekHistory_witness_empty_row :
  renderWeekHistory sampleEmptyRow sampleProgramV 46 = TypeError
  /\ exists children,
       renderWeekHistory sampleHistoryV sampleProgramV 46 = Ret (HistoryContainer children)
       /\ List.length children = 7%nat.
Proof.
  split.
  - pose proof (renderWeekHistory_throws_on_empty_row sampleEmptyRow sampleProgramV 46)
      as Hview.
    assert (Hweek : prop_get (weekKeyOf 46) sampleEmptyRow =
                    Some [("Monday", [("1700000000000", [])])]) by sample_eq.
    rewrite Hweek in Hview. destruct Hview as [Hthrows _]. apply Hthrows.
    exists "Monday", [("1700000000000", [])], "1700000000000".
    split_and!; [by left | reflexivity | by left | reflexivity].
  - pose proof (renderWeekHistory_throws_on_empty_row sampleHistoryV sampleProgramV 46)
      as Hview.
    assert (Hweek : prop_get (weekKeyOf 46) sampleHistoryV =
                    Some [("Monday", [("1700000000000", [samplePerformance])])])
      by sample_eq.
    rewrite Hweek in Hview. destruct Hview as [_ Hreturns]. apply Hreturns.
    intros (day & dayData & i & _ & Hday & Hi & Hempty).
    apply prop_get_Some, list_elem_of_singleton in Hday. injection Hday as -> ->.
    by apply prop_get_Some, list_elem_of_singleton in Hempty.
Defined.

Lemma loadData_witness_restart :
  exists s',
    loadData allResolve (initialState 47 sampleStorage) = Ret s'
    /\ programOf s' = Some sampleProgramV
    /\ historyOf s' = Some sampleHistoryV
    /\ storage s' = sampleStorage
    /\ trace s' = [GetItem "workoutProgram" true; GetItem "workoutHistory" true].
Proof.
  destruct (loadData_restores 47 sampleStorage allResolve sampleProgramV sampleHistoryV)
    as (s' & Hrun & _ & _ & Hp & Hh & Hst & Htr & _); [reflexivity..|].
  exists s'. split_and!; [exact Hrun | exact Hp | exact Hh | exact Hst | exact Htr].
Defined.

Lemma loadData_witness_failed_read :
  exists s',
    loadData readFails (initialState 47 sampleStorage) = Ret s'
    /\ programOf s' = Some []
    /\ storage s' = sampleStorage.
Proof.
  destruct (loadData_failures 47 sampleStorage readFails) as (Hread & _).
  destruct Hread as (s' & Hrun & Hp & _ & Hst & _); [left; reflexivity|].
  exists s'. split_and!; [exact Hrun | exact Hp | exact Hst].
Defined.

Lemma sound_witness_first_session :
  sound sampleLoaded
  /\ exists s' view,
       run sampleSession sampleLoaded = Ret s' /\ sound s'
       /\ exists p hi, programOf s' = Some p /\ historyOf s' = Some hi
            /\ renderWeekHistory hi p (currentWeek s') = Ret view.
Proof.
  split; [exact sampleLoaded_sound|].
  destruct (sound_states_never_throw sampleSession sampleLoaded sampleLoaded_sound)
    as (s' & p & hi & view & Hrun & Hsound & Hp & Hh & Hview).
  { unfold sampleSession. repeat constructor. }
  exists s', view. split_and!; [exact Hrun | exact Hsound |].
  exists p, hi. split_and!; [exact Hp | exact Hh | exact Hview].
Defined.

Lemma sessions_witness_first_run :
  exists s',
    loadData allResolve (@initialState sampleRuntime 46 (mkStorage None None)) = Ret s'
    /\ sound s'.
Proof.
  destruct (sessions_start_sound (B:=sampleRuntime) 46 allResolve eq_refl eq_refl)
    as [Hfirst _].
  exact Hfirst.
Defined.

Lemma failed_read_witness_monday :
  exists s0,
    loadData readFails (initialState 46 (mkStorage None None)) = Ret s0
    /\ run [PressDay "Monday"; PressAdd; ChangeExerciseName "Squat";
            SaveExercise 1700000000000 true] s0 = @TypeError (@State sampleRuntime).
Proof.
  destruct (failed_read_then_save_throws (B:=sampleRuntime) 46 (mkStorage None None)
              readFails "Monday" "Squat" 1700000000000 true)
    as (s0 & Hload & _ & Hthrows); [left; reflexivity | left | reflexivity |].
  exists s0. split; [exact Hload | exact Hthrows].
Defined.

Lemma getLastPerformance_witness_first_record :
  exists s' hi',
    recordPerformance 1700000100000 true sampleForm = Ret s'
    /\ historyOf s' = Some hi'
    /\ getLastPerformance hi' "1700000000000" = Ret (Some samplePerformance).
Proof.
  destruct (recordPerformance_then_getLastPerformance 1700000100000 sampleForm []
              "Monday" squat)
    as (s' & hi' & Hrun & Hh & _ & Hnew & _);
    [sample_denotes [1] | repeat split; sample_eq |].
  exists s', hi'. split_and!; [exact Hrun | exact Hh |].
  etrans; [apply Hnew; intros w d _ _; reflexivity | sample_eq].
Defined.

Lemma renderWeekHistory_witness_first_record :
  exists s' hi' children rows,
    recordPerformance 1700000100000 true sampleForm = Ret s'
    /\ historyOf s' = Some hi'
    /\ renderWeekHistory hi' sampleProgramV (currentWeek s') = Ret (HistoryContainer children)
    /\ Some ("Monday", rows) ∈ children.
Proof.
  destruct (recordPerformance_then_renderWeekHistory 1700000100000 sampleForm []
              sampleProgramV "Monday" squat)
    as (s' & hi' & children & rows & Hrun & Hh & _ & _ & Hview & Hchild & _);
    [sample_denotes [1] | sample_eq | repeat split; sample_eq | left
     | intros week Hweek; discriminate Hweek |].
  exists s', hi', children, rows.
  split_and!; [exact Hrun | exact Hh | exact Hview | exact Hchild].
Defined.

Lemma removeExercise_witness_orphan :
  exists s' P',
    removeExercise true "1700000000000" sampleRecorded = Ret s'
    /\ programOf s' = Some P'
    /\ historyOf s' = Some sampleHistoryV
    /\ exerciseNameOf P' "Monday" "1700000000000" = "Unknown Exercise".
Proof.
  destruct (removeExercise_orphans_history "1700000000000" sampleRecorded
              sampleProgramV "Monday" [squat])
    as (s' & P' & Hrun & Hp & Hh & Hname & _); [sample_eq..|].
  exists s', P'. split_and!; [exact Hrun | exact Hp | | exact Hname].
  apply Hh. sample_eq.
Defined.

Lemma addExercise_witness_back_squat :
  exists s' P',
    addExercise 1700000200000 true sampleEditSquat = Ret s'
    /\ programOf s' = Some P'
    /\ exerciseNameOf P' "Monday" "1700000000000" = "Back squat".
Proof.
  destruct (addExercise_name_resolves 1700000200000 sampleEditSquat sampleProgramV
              "Monday" [squat])
    as (s' & P' & Hrun & Hp & Hedit & _);
    [sample_denotes [10; 3; 11; 4; 5; 6; 7; 8; 9] | sample_eq..|].
  assert (Haffected :
    (if truthyO (editingExerciseId (ui sampleEditSquat))
     then default "" (editingExerciseId (ui sampleEditSquat))
     else pretty 1700000200000%Z) = "1700000000000") by sample_eq.
  rewrite Haffected in Hedit.
  exists s', P'. split_and!; [exact Hrun | exact Hp |].
  etrans; [apply Hedit; [sample_eq | exists squat; split; [left | reflexivity]]
          | sample_eq].
Defined.

Lemma addExercise_witness_undo :
  exists s1 s2,
    addExercise 1700000000000 true sampleNaming = Ret s1
    /\ removeExercise true "1700000000000" s1 = Ret s2
    /\ programOf s2 = Some defaultProgram
    /\ storage s2 = storage sampleNaming.
Proof.
  destruct (addExercise_then_removeExercise 1700000000000 true sampleNaming
              defaultProgram "Monday" [])
    as (s1 & Hrun1 & _ & Hremoved & _);
    [sample_denotes [2; 3; 4; 5; 6; 7; 8; 9]
    | sample_eq | sample_eq | sample_eq | sample_eq | sample_eq
    | intros ex Hex; apply elem_of_nil in Hex; destruct Hex |].
  destruct Hremoved as (s2 & Hrun2 & Hp & _ & Hstorage).
  assert (Hid : pretty 1700000000000%Z = "1700000000000") by sample_eq.
  rewrite Hid in Hrun2.
  exists s1, s2. split_and!; [exact Hrun1 | exact Hrun2 | exact Hp |].
  apply Hstorage. sample_eq.
Defined.

Lemma restart_witness_squat :
  exists s1 s2,
    addExercise 1700000000000 true sampleNaming = Ret s1
    /\ loadData allResolve (initialState 47 (storage s1)) = Ret s2
    /\ programOf s2 = programOf s1.
Proof.
  destruct (program_survives_restart 1700000000000 "" sampleNaming defaultProgram
              "Monday" [] 47 allResolve)
    as (Hadd & _);
    [sample_denotes [2; 3; 4; 5; 6; 7; 8; 9] | sample_eq.. |].
  destruct Hadd as (s1 & s2 & Hrun1 & _ & Hrun2 & Hp); [sample_eq|].
  exists s1, s2. split_and!; [exact Hrun1 | exact Hrun2 | exact Hp].
Defined.

Lemma form_witness_failed_record :
  exists s',
    recordPerformance 1700000100000 false sampleForm = Ret s'
    /\ setsText (ui s') = "" /\ repsText (ui s') = ""
    /\ recordPerformance 1700000300000 true s' =
       Ret (alert "Error" "Please enter sets and reps" s').
Proof.
  destruct (save_empties_the_form 1700000100000 1700000300000 false true sampleForm)
    as (_ & Hrecord).
  destruct (Hrecord [] "Monday" squat)
    as (s' & Hrun & _ & Hsets & Hreps & _ & _ & _ & Hagain);
    [sample_denotes [1] | repeat split; sample_eq |].
  exists s'. split_and!; [exact Hrun | exact Hsets | exact Hreps | exact Hagain].
Defined.

Lemma flows_witness_rename_squat :
  exists s',
    run [PressEdit squat; ChangeExerciseName "Back squat";
         SaveExercise 1700000200000 true] sampleSquat = Ret s'
    /\ programOf s' =
       Some (prop_set "Monday" [mkExercise "1700000000000" "Back squat"] sampleProgramV).
Proof.
  destruct (exercise_form_flows 1700000200000 "Back squat" squat 0 sampleSquat
              sampleProgramV "Monday" [squat])
    as (_ & Hedit & _);
    [sample_denotes [10; 3; 11; 4; 5; 6; 7; 8; 9] | sample_eq.. |].
  destruct Hedit as (s' & Hrun & Hp); [discriminate | |].
  { split; [reflexivity|]. intros j ex Hj. lia. }
  exists s'. split; [exact Hrun | exact Hp].
Defined.


Lemma controls_witness_first_effort :
  handle (SavePerformance 1700000100000 true) sampleForm = Ret sampleRecorded
  /\ workoutProgram (storage sampleRecorded) = workoutProgram (storage sampleForm).
Proof.
  assert (Hrun : handle (SavePerformance 1700000100000 true) sampleForm
                 = Ret sampleRecorded) by sample_eq.
  destruct (controls_write_their_own_key (SavePerformance 1700000100000 true)
              sampleForm sampleRecorded Hrun)
    as (suffix & _ & _ & _ & Hprogram & _).
  split; [exact Hrun|]. apply Hprogram. intros Hkey. discriminate Hkey.
Defined.
